(** * Workspace Automation (Google Apps Script): edit classifier, processors
      and the daily inactivity sweep

    Shallow embedding of [Code.gs], [Notifications.gs] and [Triggers.gs].

    - A spreadsheet cell, an object field or a configuration value is a
      JavaScript [value]; loosely typed comparisons ([===], truthiness,
      [||], [ToString]) are written out.
    - The script runs against a [World]: the sheets of the active
      spreadsheet, the clock, and the chronological [trace] of what the run
      did to the outside (cell writes, appended rows, mails sent, calendar
      events created, [Logger.log] lines).
    - Script functions are computations [M A] in a state-and-exception
      monad: a JavaScript [throw] is a [Throw] result, [try]/[catch] is
      [tryCatch], and a state change made before a throw stays made.
    - What the platform decides ([Date.parse], date formatting, whether the
      mail or calendar service fails) is a field of the [Host] record of the
      world, so every theorem holds for every behaviour of the platform. *)

From stdpp Require Import base option list gmap strings.
From Stdlib Require Import ZArith Ascii String DecimalString Lia.

Local Open Scope string_scope.
Local Open Scope Z_scope.

(* ===================================================================== *)
(** ** JavaScript values                                                  *)
(* ===================================================================== *)

Module Js.

(** A JavaScript number as the script meets it: an integer or [NaN].
    Fractional cell contents are outside the model. *)
Inductive number : Type :=
| NaN
| Int (z : Z).

(** Cell and field values.  [VDate t] is a [Date] object whose time value is
    [t] milliseconds since the epoch ([NaN] for an invalid date). *)
Inductive value : Type :=
| VUndef
| VNull
| VBool (b : bool)
| VNum (n : number)
| VStr (s : string)
| VDate (t : number).

#[global] Instance number_eq_dec : EqDecision number.
Proof. solve_decision. Defined.

#[global] Instance value_eq_dec : EqDecision value.
Proof. solve_decision. Defined.

(** Strings are sequences of code units below 256. *)

(** [WhiteSpace] and [LineTerminator] code units of that range: TAB, LF,
    VT, FF, CR, SP and NBSP.  This is the set [String.prototype.trim]
    strips and the regular-expression class [\s] matches. *)
Definition isSpace (c : ascii) : bool :=
  let n := nat_of_ascii c in
  ((9 <=? n)%nat && (n <=? 13)%nat) || (n =? 32)%nat || (n =? 160)%nat.

Fixpoint trimStart (s : string) : string :=
  match s with
  | String c s' => if isSpace c then trimStart s' else s
  | EmptyString => EmptyString
  end.

Fixpoint trimEnd (s : string) : string :=
  match s with
  | String c s' =>
      match trimEnd s' with
      | EmptyString => if isSpace c then EmptyString else String c EmptyString
      | t => String c t
      end
  | EmptyString => EmptyString
  end.

(** [s.trim()] *)
Definition trim (s : string) : string := trimEnd (trimStart s).

(** Decimal rendering of an integer, as [Number.prototype.toString] prints
    integers of moderate size. *)
Definition Z_toString (z : Z) : string := NilZero.string_of_int (Z.to_int z).

Definition number_toString (n : number) : string :=
  match n with
  | NaN => "NaN"
  | Int z => Z_toString z
  end.

(** [ToBoolean]: what [if (v)], [!v] and [v || d] test. *)
Definition truthy (v : value) : bool :=
  match v with
  | VUndef | VNull => false
  | VBool b => b
  | VNum NaN => false
  | VNum (Int z) => negb (z =? 0)
  | VStr s => negb (String.eqb s "")
  | VDate _ => true
  end.

(** [a || b] *)
Definition jsOr (a b : value) : value := if truthy a then a else b.

(** [a === b].  Two [Date] objects are compared by identity; every
    comparison of the script has its operands from different
    [getValues()] calls or compares with a primitive, so a [Date] operand
    never equals anything. [NaN] equals nothing either. *)
Definition strictEq (a b : value) : bool :=
  match a, b with
  | VUndef, VUndef => true
  | VNull, VNull => true
  | VBool x, VBool y => Bool.eqb x y
  | VNum (Int x), VNum (Int y) => x =? y
  | VStr x, VStr y => String.eqb x y
  | _, _ => false
  end.

(** [TimeClip]: time values beyond 8.64e15 ms are invalid. *)
Definition timeClip (z : Z) : number :=
  if Z.abs z <=? 8640000000000000 then Int z else NaN.

(** [a - b] on numbers. *)
Definition number_sub (a b : number) : number :=
  match a, b with
  | Int x, Int y => Int (x - y)
  | _, _ => NaN
  end.

(** [Math.abs] *)
Definition Math_abs (a : number) : number :=
  match a with
  | Int x => Int (Z.abs x)
  | NaN => NaN
  end.

(** [Math.floor(a / d)] for a positive integer constant [d]. *)
Definition Math_floor_div (a : number) (d : Z) : number :=
  match a with
  | Int x => Int (x / d)
  | NaN => NaN
  end.

(** [a > k]: false when [a] is [NaN]. *)
Definition number_gt (a : number) (k : Z) : bool :=
  match a with
  | Int x => k <? x
  | NaN => false
  end.

(** [arr[j]] on a JavaScript array: [undefined] past the end. *)
Definition index (arr : list value) (j : nat) : value := nth j arr VUndef.

End Js.

Export Js.

(* ===================================================================== *)
(** ** The platform: spreadsheet, clock, mail, calendar, logger           *)
(* ===================================================================== *)

Module Platform.

(** A sheet is the array [getDataRange().getValues()] returns: row 0 is the
    header row, [data[i][j]] is the cell of sheet row [i+1], column [j+1]. *)
Abbreviation Row := (list value).
Abbreviation Grid := (list (list value)).

(** A mail handed to [GmailApp.sendEmail(to, subject, body, {htmlBody})]. *)
Record Mail := mkMail {
  mail_to : value;
  mail_subject : string;
  mail_body : string;
  mail_html : option string
}.

(** A booking handed to [calendar.createEvent(title, start, end,
    {description, sendInvites: false})]. *)
Record Booking := mkBooking {
  bk_calendar : string;
  bk_title : string;
  bk_start : number;
  bk_end : number;
  bk_description : string
}.

(** What a run does to the outside, in the order it happens. *)
Inductive Effect : Type :=
| SetValue (sheet : string) (row col : Z) (v : value)
| AppendRow (sheet : string) (r : Row)
| Sent (m : Mail)
| Created (b : Booking)
| Logged (line : string).

(** Result of [CalendarApp.getCalendarById]. *)
Inductive CalLookup : Type :=
| CalNull
| CalFound (id : string)
| CalThrows (msg : string).

(** The platform's own behaviour.  [Some msg] in an oracle means that the
    service call throws an [Error] with that message. *)
Record Host := mkHost {
  (** [Date.parse] on a non-empty string *)
  Date_parse : string -> number;
  (** [Date.prototype.toString] *)
  Date_toString : number -> string;
  (** [toLocaleString('es-MX')] and [toLocaleDateString('es-MX')] *)
  toLocaleString : Z -> string;
  toLocaleDateString : Z -> string;
  (** [LocalTZA(t, isUTC)] of ECMAScript: the offset of the script's time
      zone in ms, at the UTC time value [t] when [isUTC] and at the local
      time value [t] otherwise.  It may change with [t], as it does at a
      daylight-saving transition, and which offset a local time in the gap
      or the overlap of a transition gets is the platform's choice. *)
  LocalTZA : Z -> bool -> Z;
  (** how [Logger.log] prints an array of objects, given field by field *)
  Logger_inspect : list (list value) -> string;
  GmailApp_throws : Mail -> option string;
  CalendarApp_getCalendarById : value -> CalLookup;
  createEvent_throws : Booking -> option string
}.

Record World := mkWorld {
  host : Host;
  sheets : gmap string Grid;
  (** the time [new Date()] reads, in ms since the epoch; it stands still
      during one run *)
  now : Z;
  trace : list Effect
}.

Definition setSheets (f : gmap string Grid -> gmap string Grid) (w : World) : World :=
  mkWorld (host w) (f (sheets w)) (now w) (trace w).

Definition emit (e : Effect) (w : World) : World :=
  mkWorld (host w) (sheets w) (now w) (trace w ++ [e])%list.

(** *** Results and the script monad *)

Inductive Res (A : Type) : Type :=
| Ok (a : A)
| Throw (msg : string).
Arguments Ok {A} a.
Arguments Throw {A} msg.

Definition M (A : Type) : Type := World -> Res A * World.

Definition ret {A} (a : A) : M A := fun w => (Ok a, w).

Definition bind {A B} (m : M A) (k : A -> M B) : M B :=
  fun w => match m w with
           | (Ok a, w') => k a w'
           | (Throw msg, w') => (Throw msg, w')
           end.

(** [throw new Error(msg)] *)
Definition throw {A} (msg : string) : M A := fun w => (Throw msg, w).

(** [try { body } catch (error) { handler(error.message) }] *)
Definition tryCatch {A} (body : M A) (handler : string -> M A) : M A :=
  fun w => match body w with
           | (Ok a, w') => (Ok a, w')
           | (Throw msg, w') => handler msg w'
           end.

Definition gets {A} (f : World -> A) : M A := fun w => (Ok (f w), w).
Definition modify (f : World -> World) : M unit := fun w => (Ok tt, f w).

#[global] Instance M_ret : MRet M := @ret.
#[global] Instance M_bind : MBind M := fun A B k m => bind m k.

(** [arr.forEach(x => body(x))] with the state the closure captures
    threaded as an accumulator. *)
Fixpoint forEach {A S} (body : S -> A -> M S) (acc : S) (xs : list A) : M S :=
  match xs with
  | [] => ret acc
  | x :: xs' => acc' ← body acc x; forEach body acc' xs'
  end.

(** *** Service calls *)

(** [new Date()] as a time value *)
Definition Date_now : M Z := gets now.

(** [new Date(v)] as a time value: a [Date] is copied, a string is parsed,
    anything else goes through [ToNumber] and [TimeClip]. *)
Definition Date_of (h : Host) (v : value) : number :=
  match v with
  | VDate t => t
  | VStr s => if String.eqb s "" then NaN else Date_parse h s
  | VUndef => NaN
  | VNull => Int 0
  | VBool b => Int (if b then 1 else 0)
  | VNum NaN => NaN
  | VNum (Int z) => timeClip z
  end.

(** [ToString(v)]: template literals, [v.toString()], property keys,
    [regex.test(v)]. *)
Definition toString (h : Host) (v : value) : string :=
  match v with
  | VUndef => "undefined"
  | VNull => "null"
  | VBool b => if b then "true" else "false"
  | VNum n => number_toString n
  | VStr s => s
  | VDate t => Date_toString h t
  end.

(** [Logger.log(line)] *)
Definition Logger_log (line : string) : M unit := modify (emit (Logged line)).

(** [ss.getSheetByName(name)]: the sheet's handle, or [null]. *)
Definition getSheetByName (name : string) : M (option string) :=
  gets (fun w => match sheets w !! name with Some _ => Some name | None => None end).

(** A method call on what [getSheetByName] returned: a [TypeError] on
    [null]. *)
Definition deref (sheet : option string) : M string :=
  match sheet with
  | Some name => ret name
  | None => throw "TypeError: Cannot read properties of null"
  end.

(** [sheet.getDataRange().getValues()] *)
Definition getValues (sheet : string) : M Grid :=
  gets (fun w => default [] (sheets w !! sheet)).

(** The content of one cell; an empty cell reads as the empty string. *)
Definition cellOf (g : Grid) (i j : nat) : value :=
  match g !! i with
  | Some r => match r !! j with Some v => v | None => VStr "" end
  | None => VStr ""
  end.

(** [sheet.getRange(row, 1, 1, n).getValues()[0]]; rows and columns start
    at 1 and [getRange] throws below that. *)
Definition getRowValues (sheet : string) (row : Z) (n : nat) : M Row :=
  if row <? 1 then throw "Exception: the starting row of the range is too small"
  else gets (fun w =>
    let g := default [] (sheets w !! sheet) in
    map (cellOf g (Z.to_nat (row - 1))) (seq 0 n)).

Definition padTo {A} (n : nat) (d : A) (l : list A) : list A :=
  (l ++ replicate (n - List.length l) d)%list.

(** Writing one cell of the grid; a cell outside the data range extends it,
    the cells in between are empty. *)
Definition setCell (i j : nat) (v : value) (g : Grid) : Grid :=
  let g' := padTo (S i) [] g in
  <[ i := <[ j := v ]> (padTo (S j) (VStr "") (nth i g' [])) ]> g'.

(** [sheet.getRange(row, col).setValue(v)] *)
Definition setValue (sheet : string) (row col : Z) (v : value) : M unit :=
  if (row <? 1) || (col <? 1) then throw "Exception: the range is out of bounds"
  else modify (fun w =>
    emit (SetValue sheet row col v)
      (setSheets (alter (setCell (Z.to_nat (row - 1)) (Z.to_nat (col - 1)) v) sheet) w)).

(** [sheet.appendRow(r)] *)
Definition appendRow (sheet : string) (r : Row) : M unit :=
  modify (fun w => emit (AppendRow sheet r) (setSheets (alter (fun g : Grid => (g ++ [r])%list) sheet) w)).

(** [GmailApp.sendEmail(...)] *)
Definition GmailApp_sendEmail (m : Mail) : M unit :=
  fun w => match GmailApp_throws (host w) m with
           | Some msg => (Throw msg, w)
           | None => (Ok tt, emit (Sent m) w)
           end.

(** [CalendarApp.getCalendarById(id)]: a calendar, [null], or a throw. *)
Definition getCalendarById (id : value) : M (option string) :=
  fun w => match CalendarApp_getCalendarById (host w) id with
           | CalNull => (Ok None, w)
           | CalFound c => (Ok (Some c), w)
           | CalThrows msg => (Throw msg, w)
           end.

(** [calendar.createEvent(...)] *)
Definition createEvent (b : Booking) : M unit :=
  fun w => match createEvent_throws (host w) b with
           | Some msg => (Throw msg, w)
           | None => (Ok tt, emit (Created b) w)
           end.

End Platform.

Export Platform.

(* ===================================================================== *)
(** ** Code.gs: configuration, registry reader, audit log                 *)
(* ===================================================================== *)

Module Code.

(** *** The object [config]

    [getConfig] builds a plain object [{}] by the assignments
    [config[key] = value].  Such an object has its own properties and
    inherits the members of its prototype: [Object.prototype] at first.
    An assignment to the key ['__proto__'] does not make a property: it
    runs the inherited setter, which replaces the prototype when the value
    is an object or [null] and does nothing otherwise.  Of the values a
    cell can hold only a [Date] is an object. *)

(** The prototype of [config]. *)
Inductive Proto : Type :=
| ObjectPrototype
| DateObject (t : number)
| NoPrototype.

Record Config := mkConfig {
  own : gmap string value;
  proto : Proto
}.

(** The names of the properties of [Object.prototype] and of
    [Date.prototype], as ECMAScript and its annex B give them. *)
Definition objectMembers : list string :=
  [ "constructor"; "__defineGetter__"; "__defineSetter__"; "hasOwnProperty";
    "__lookupGetter__"; "__lookupSetter__"; "isPrototypeOf"; "propertyIsEnumerable";
    "toString"; "valueOf"; "__proto__"; "toLocaleString" ].

Definition dateMembers : list string :=
  [ "constructor"; "toString"; "toDateString"; "toTimeString"; "toISOString";
    "toUTCString"; "toGMTString"; "getDate"; "setDate"; "getDay"; "getFullYear";
    "setFullYear"; "getHours"; "setHours"; "getMilliseconds"; "setMilliseconds";
    "getMinutes"; "setMinutes"; "getMonth"; "setMonth"; "getSeconds"; "setSeconds";
    "getTime"; "setTime"; "getTimezoneOffset"; "getUTCDate"; "setUTCDate"; "getUTCDay";
    "getUTCFullYear"; "setUTCFullYear"; "getUTCHours"; "setUTCHours";
    "getUTCMilliseconds"; "setUTCMilliseconds"; "getUTCMinutes"; "setUTCMinutes";
    "getUTCMonth"; "setUTCMonth"; "getUTCSeconds"; "setUTCSeconds"; "valueOf";
    "getYear"; "setYear"; "toJSON"; "toLocaleString"; "toLocaleDateString";
    "toLocaleTimeString" ].

Definition isIn (key : string) (names : list string) : bool :=
  existsb (String.eqb key) names.

(** The prototype chain has a member of that name. *)
Definition inherits (p : Proto) (key : string) : bool :=
  match p with
  | ObjectPrototype => isIn key objectMembers
  | DateObject _ => isIn key dateMembers || isIn key objectMembers
  | NoPrototype => false
  end.

(** What [config[key]] evaluates to: a value a cell can hold, or a member
    of a prototype (a function, or [Object.prototype] itself), which no
    cell holds. *)
Inductive Lookup : Type :=
| Cell (v : value)
| Member.

Definition cfg_lookup (config : Config) (key : string) : Lookup :=
  match own config !! key with
  | Some v => Cell v
  | None =>
      if String.eqb key "__proto__" then
        match proto config with
        | ObjectPrototype => Member
        | DateObject t => Cell (VDate t)
        | NoPrototype => Cell VUndef
        end
      else if inherits (proto config) key then Member else Cell VUndef
  end.

(** [config[key] = v] *)
Definition cfg_set (key : string) (v : value) (config : Config) : Config :=
  if String.eqb key "__proto__" && inherits (proto config) "__proto__" then
    match v with
    | VDate t => mkConfig (own config) (DateObject t)
    | VNull => mkConfig (own config) NoPrototype
    | _ => config
    end
  else mkConfig (<[ key := v ]> (own config)) (proto config).


(** [config.key] for a key the script reads.  None of these keys names a
    member of a prototype, so the lookup gives a cell value: the own
    property, or [undefined]. *)
Definition cfg_get (config : Config) (key : string) : value :=
  match cfg_lookup config key with
  | Cell v => v
  | Member => VUndef
  end.

(** [function getConfig()] *)
Definition getConfig : M Config :=
  sheet ← getSheetByName "Configuración";
  match sheet with
  | None => throw "Hoja Configuración no encontrada"
  | Some sheet =>
      data ← getValues sheet;
      h ← gets host;
      ret (foldl (fun (config : Config) (r : Row) =>
                    cfg_set (toString h (index r 0)) (index r 1) config)
                 (mkConfig ∅ ObjectPrototype) (drop 1 data))
  end.

(** A user object, as [getUsers] and [handleUserEdit] build it. *)
Record User := mkUser {
  name : value;
  email : value;
  role : value;
  group : value;
  active : value;
  dateRegistered : value;
  lastAccess : value
}.

(** The object [getUsers] pushes for one row of the sheet. *)
Definition userOfRow (r : Row) : User :=
  {| name := index r 0;
     email := index r 1;
     role := index r 2;
     group := index r 3;
     active := VBool (strictEq (index r 4) (VBool true)
                      || strictEq (index r 4) (VStr "TRUE"));
     dateRegistered := index r 5;
     lastAccess := index r 6 |}.

(** The loop of [getUsers]: rows without a name are skipped. *)
Definition usersOfRows (rows : list Row) : list User :=
  map userOfRow (List.filter (fun r => truthy (index r 0)) rows).

(** [function getUsers()] *)
Definition getUsers : M (list User) :=
  sheet ← getSheetByName "Usuarios";
  match sheet with
  | None => ret []
  | Some sheet =>
      data ← getValues sheet;
      ret (usersOfRows (drop 1 data))
  end.

Definition msPerDay : Z := 1000 * 60 * 60 * 24.

(** The arithmetic of [getDaysSinceLastAccess] at a given [today]. *)
Definition daysBetween (h : Host) (today : Z) (lastAccessDate : value) : number :=
  let lastAccess := Date_of h lastAccessDate in
  let diffTime := Math_abs (number_sub (Int today) lastAccess) in
  Math_floor_div diffTime msPerDay.

(** [function getDaysSinceLastAccess(lastAccessDate)] *)
Definition getDaysSinceLastAccess (lastAccessDate : value) : M number :=
  today ← Date_now;
  h ← gets host;
  ret (daysBetween h today lastAccessDate).

(** The object literal passed to [logEvent]; an omitted field is
    [undefined]. *)
Record AuditEvent := mkAuditEvent {
  ev_type : value;
  ev_user : value;
  ev_details : value;
  ev_status : value;
  ev_action : value
}.

(** The row [logEvent] appends at time [t]. *)
Definition auditRow (t : Z) (event : AuditEvent) : Row :=
  [ VDate (Int t);
    jsOr (ev_type event) (VStr "EVENTO");
    jsOr (ev_user event) (VStr "Sistema");
    jsOr (ev_details event) (VStr "");
    jsOr (ev_status event) (VStr "OK");
    jsOr (ev_action event) (VStr "Ninguna") ].

(** [function logEvent(event)] *)
Definition logEvent (event : AuditEvent) : M unit :=
  tryCatch
    (sheet ← getSheetByName "RegistroDeEventos";
     match sheet with
     | None => Logger_log "Hoja RegistroEventos no encontrada"
     | Some sheet =>
         t ← Date_now;
         _ ← appendRow sheet (auditRow t event);
         h ← gets host;
         Logger_log ("Evento registrado: " +:+ toString h (ev_type event)
                     +:+ " - " +:+ toString h (ev_user event))
     end)
    (fun message => Logger_log ("Error al registrar evento: " +:+ message)).

End Code.

Export Code.

(* ===================================================================== *)
(** ** Notifications.gs: gateways and processors                          *)
(* ===================================================================== *)

(** The texts are those of the documented [Notifications.gs]; the copy in
    [Notificaciones.gs] is the same code with emoji in front of the
    subjects and titles. *)

Module Notifications.

(** The double quote and the line feed of the template literals. *)
Definition dq : string := String (ascii_of_nat 34) EmptyString.
Definition nl : string := String (ascii_of_nat 10) EmptyString.

(** A template literal, line by line. *)
Definition template (lines : list string) : string := String.concat nl lines.

(** *** The regular expression [/^[^\s@]+@[^\s@]+\.[^\s@]+$/] *)

(** The class [[^\s@]] *)
Definition okChar (c : ascii) : bool := negb (isSpace c) && negb (Ascii.eqb c "@").

Fixpoint allOk (s : string) : bool :=
  match s with
  | String c s' => okChar c && allOk s'
  | EmptyString => true
  end.

(** A dot with at least one character before it and one after it. *)
Fixpoint dotInside (s : string) : bool :=
  match s with
  | String _ s' =>
      match s' with
      | String d rest => (Ascii.eqb d "." && negb (String.eqb rest "")) || dotInside s'
      | EmptyString => false
      end
  | EmptyString => false
  end.

(** The matcher scans the local part up to the [@]; [seen] records that the
    local part is not empty. *)
Fixpoint emailMatch (seen : bool) (s : string) : bool :=
  match s with
  | String c s' =>
      if Ascii.eqb c "@" then seen && allOk s' && dotInside s'
      else if isSpace c then false
      else emailMatch true s'
  | EmptyString => false
  end.

(** [emailRegex.test(x)] on the string [x] was coerced to. *)
Definition emailRegex_test (s : string) : bool := emailMatch false s.

(** The shape the expression describes: [local@domain.tld], the three
    parts non-empty and free of white space and of [@]. *)
Definition EmailShape (s : string) : Prop :=
  exists a b c : string,
    s = a +:+ "@" +:+ b +:+ "." +:+ c
    /\ a <> "" /\ b <> "" /\ c <> ""
    /\ allOk a = true /\ allOk b = true /\ allOk c = true.

(** The test both mail gateways make of [config.notificarAdmins], and
    [createCalendarEvent] of [config.crearEventoCalendar]: the flag passes
    when it is the boolean [true] or the string ['TRUE']. *)
Definition flagOn (v : value) : bool :=
  negb (negb (strictEq v (VBool true)) && negb (strictEq v (VStr "TRUE"))).

(** [function sendNotification(subject, body)] *)
Definition sendNotification (subject body : string) : M bool :=
  tryCatch
    (config ← getConfig;
     if negb (strictEq (cfg_get config "notificarAdmins") (VBool true))
        && negb (strictEq (cfg_get config "notificarAdmins") (VStr "TRUE"))
     then
       _ ← Logger_log "Notificaciones deshabilitadas";
       ret false
     else
       h ← gets host;
       if negb (emailRegex_test (toString h (cfg_get config "emailNotificacion")))
       then
         _ ← Logger_log "Email inválido";
         ret false
       else
         _ ← GmailApp_sendEmail
               (mkMail (cfg_get config "emailNotificacion") subject body None);
         _ ← Logger_log ("Email enviado: " +:+ subject);
         ret true)
    (fun message =>
       _ ← Logger_log ("Error al enviar email: " +:+ message);
       ret false).

(** [function sendHtmlNotification(subject, htmlBody)] *)
Definition sendHtmlNotification (subject htmlBody : string) : M bool :=
  tryCatch
    (config ← getConfig;
     if negb (strictEq (cfg_get config "notificarAdmins") (VBool true))
        && negb (strictEq (cfg_get config "notificarAdmins") (VStr "TRUE"))
     then ret false
     else
       _ ← GmailApp_sendEmail
             (mkMail (cfg_get config "emailNotificacion") subject "" (Some htmlBody));
       _ ← Logger_log ("Email HTML enviado: " +:+ subject);
       ret true)
    (fun message =>
       _ ← Logger_log ("Error al enviar email HTML: " +:+ message);
       ret false).

(** [function createCalendarEvent(title, description, startTime, endTime)] *)
Definition createCalendarEvent (title description : string)
    (startTime endTime : number) : M bool :=
  tryCatch
    (config ← getConfig;
     if negb (strictEq (cfg_get config "crearEventoCalendar") (VBool true))
        && negb (strictEq (cfg_get config "crearEventoCalendar") (VStr "TRUE"))
     then
       _ ← Logger_log "Creación de eventos deshabilitada";
       ret false
     else
       calendar ← getCalendarById (cfg_get config "calendarioId");
       match calendar with
       | None =>
           _ ← Logger_log "Calendario no encontrado";
           ret false
       | Some calendar =>
           _ ← createEvent (mkBooking calendar title startTime endTime description);
           _ ← Logger_log ("Evento creado: " +:+ title);
           ret true
       end)
    (fun message =>
       _ ← Logger_log ("Error al crear evento: " +:+ message);
       ret false).

(** [function processInactiveUser(user)] *)
Definition processInactiveUser (user : User) : M unit :=
  _ ← logEvent {| ev_type := VStr "USUARIO_INACTIVO";
                  ev_user := name user;
                  ev_details := VStr "Usuario desactivado";
                  ev_status := VStr "ALERTA";
                  ev_action := VStr "Email enviado" |};
  let subject := "Usuario inactivo detectado" in
  h ← gets host;
  t ← Date_now;
  let body := template
    [ "El usuario " +:+ toString h (name user) +:+ " (" +:+ toString h (email user)
        +:+ ") del grupo " +:+ toString h (group user) +:+ " fue marcado como inactivo.";
      "";
      "Fecha: " +:+ toLocaleString h t;
      "";
      "Sistema de Gestión Workspace - Turing IA" ] in
  _ ← sendNotification subject body;
  Logger_log ("Usuario inactivo procesado: " +:+ toString h (name user)).

(** The audit record of [notifyRoleChange]. *)
Definition roleChangeEvent (h : Host) (user : User) : AuditEvent :=
  {| ev_type := VStr "ROL_MODIFICADO";
     ev_user := name user;
     ev_details := VStr ("Nuevo rol: " +:+ toString h (role user));
     ev_status := if strictEq (role user) (VStr "Admin") then VStr "WARNING" else VStr "OK";
     ev_action := if strictEq (role user) (VStr "Admin")
                  then VStr "Email enviado" else VStr "Solo registro" |}.

(** [function notifyRoleChange(user)] *)
Definition notifyRoleChange (user : User) : M unit :=
  h ← gets host;
  _ ← logEvent (roleChangeEvent h user);
  if strictEq (role user) (VStr "Admin") then
    let subject := "Cambio Crítico: Nuevo Administrador" in
    t ← Date_now;
    let body := template
      [ "ATENCIÓN: " +:+ toString h (name user) +:+ " fue promovido a Admin.";
        "";
        "Email: " +:+ toString h (email user);
        "Grupo: " +:+ toString h (group user);
        "Fecha: " +:+ toLocaleString h t;
        "";
        "Verifica que este cambio esté autorizado.";
        "";
        "Sistema de Gestión Workspace - Turing IA" ] in
    _ ← sendNotification subject body;
    ret tt
  else ret tt.

(** [LocalTime(t)] and [UTC(t)] of ECMAScript: from a UTC time value to
    the local one and back.  Around a change of the offset they need not
    be inverse to each other. *)
Definition LocalTime (h : Host) (t : Z) : Z := t + LocalTZA h t true.
Definition UTC (h : Host) (t : Z) : Z := t - LocalTZA h t false.

(** Local calendar day of a time value, counted from the epoch: [Day] of
    its local time. *)
Definition localDay (h : Host) (t : Z) : Z := LocalTime h t / msPerDay.

(** [d.setDate(d.getDate() + 1)]: [MakeDay] of the local date plus one
    with the local time within the day, which is the local time plus one
    day, converted back by [UTC].  Across a daylight-saving transition
    this is 23 or 25 hours later. *)
Definition Date_addDay (h : Host) (t : Z) : Z := UTC h (LocalTime h t + msPerDay).

(** [d.setHours(hh, 0, 0, 0)]: the local day of [d] at [hh]:00:00.000,
    converted back by [UTC]. *)
Definition Date_setHours (h : Host) (hh : Z) (t : Z) : Z :=
  UTC h (localDay h t * msPerDay + hh * (60 * 60 * 1000)).

(** Start and end of the onboarding meeting booked at time [t]:
    [tomorrow] after [setDate] and [setHours(10, 0, 0, 0)], and its copy
    [endTime] after [setHours(11, 0, 0, 0)]. *)
Definition onboardingStart (h : Host) (t : Z) : Z := Date_setHours h 10 (Date_addDay h t).
Definition onboardingEnd (h : Host) (t : Z) : Z := Date_setHours h 11 (onboardingStart h t).

Definition newUserEvent (h : Host) (user : User) : AuditEvent :=
  {| ev_type := VStr "USUARIO_AGREGADO";
     ev_user := name user;
     ev_details := VStr ("Rol: " +:+ toString h (role user)
                         +:+ ", Grupo: " +:+ toString h (group user));
     ev_status := VStr "OK";
     ev_action := VStr "Email y evento creados" |}.

Definition welcomeHtml (h : Host) (t : Z) (user : User) : string :=
  template
    [ "";
      "    <h2>Nuevo Usuario Registrado</h2>";
      "    <table border=" +:+ dq +:+ "1" +:+ dq +:+ " cellpadding=" +:+ dq +:+ "8" +:+ dq
        +:+ " style=" +:+ dq +:+ "border-collapse: collapse;" +:+ dq +:+ ">";
      "      <tr><td><strong>Nombre:</strong></td><td>" +:+ toString h (name user) +:+ "</td></tr>";
      "      <tr><td><strong>Email:</strong></td><td>" +:+ toString h (email user) +:+ "</td></tr>";
      "      <tr><td><strong>Rol:</strong></td><td>" +:+ toString h (role user) +:+ "</td></tr>";
      "      <tr><td><strong>Grupo:</strong></td><td>" +:+ toString h (group user) +:+ "</td></tr>";
      "      <tr><td><strong>Fecha:</strong></td><td>" +:+ toLocaleString h t +:+ "</td></tr>";
      "    </table>";
      "    <p style=" +:+ dq +:+ "color: #666; margin-top: 20px;" +:+ dq
        +:+ ">Sistema de Gestión Workspace - Turing IA</p>";
      "  " ].

Definition onboardingDescription (h : Host) (user : User) : string :=
  template
    [ "Sesión de Onboarding";
      "";
      "Usuario: " +:+ toString h (name user);
      "Email: " +:+ toString h (email user);
      "Rol: " +:+ toString h (role user);
      "Grupo: " +:+ toString h (group user);
      "";
      "Agenda:";
      "1. Bienvenida al equipo";
      "2. Explicación de roles y permisos";
      "3. Tour por herramientas";
      "4. Asignación de tareas";
      "";
      "Sistema de Gestión Workspace - Turing IA" ].

(** [function processNewUser(user, row)] *)
Definition processNewUser (user : User) (row : Z) : M unit :=
  sheet ← getSheetByName "Usuarios";
  ahora ← Date_now;
  sheet ← deref sheet;
  _ ← setValue sheet row 6 (VDate (Int ahora));
  _ ← setValue sheet row 7 (VDate (Int ahora));
  h ← gets host;
  _ ← logEvent (newUserEvent h user);
  t ← Date_now;
  let htmlBody := welcomeHtml h t user in
  _ ← sendHtmlNotification "Nuevo usuario agregado" htmlBody;
  t ← Date_now;
  let tomorrow := onboardingStart h t in
  let endTime := onboardingEnd h t in
  let description := onboardingDescription h user in
  _ ← createCalendarEvent ("Onboarding: " +:+ toString h (name user))
        description (Int tomorrow) (Int endTime);
  Logger_log ("Nuevo usuario procesado: " +:+ toString h (name user)).

(** An entry of the array the sweep hands to [enviarReporteInactivos]. *)
Record Offender := mkOffender {
  o_name : value;
  o_group : value;
  o_days : number
}.

Definition digestRow (h : Host) (u : Offender) : string :=
  template
    [ "<tr>";
      "      <td style=" +:+ dq +:+ "padding: 8px; border: 1px solid #ddd;" +:+ dq +:+ ">"
        +:+ toString h (o_name u) +:+ "</td>";
      "      <td style=" +:+ dq +:+ "padding: 8px; border: 1px solid #ddd;" +:+ dq +:+ ">"
        +:+ toString h (o_group u) +:+ "</td>";
      "      <td style=" +:+ dq +:+ "padding: 8px; border: 1px solid #ddd;" +:+ dq +:+ ">"
        +:+ number_toString (o_days u) +:+ " días</td>";
      "    </tr>" ].

Definition digestHtml (h : Host) (t : Z) (usuariosInactivos : list Offender) : string :=
  let tabla := foldl (fun tabla u => tabla +:+ digestRow h u) "" usuariosInactivos in
  template
    [ "";
      "    <h2>Reporte Diario - Usuarios Inactivos</h2>";
      "    <p>Se detectaron <strong>"
        +:+ Z_toString (Z.of_nat (List.length usuariosInactivos))
        +:+ "</strong> usuarios sin actividad:</p>";
      "    <table border=" +:+ dq +:+ "1" +:+ dq +:+ " cellpadding=" +:+ dq +:+ "8" +:+ dq
        +:+ " style=" +:+ dq +:+ "border-collapse: collapse; width: 100%;" +:+ dq +:+ ">";
      "      <thead>";
      "        <tr style=" +:+ dq +:+ "background-color: #4285f4; color: white;" +:+ dq +:+ ">";
      "          <th>Usuario</th><th>Grupo</th><th>Días Inactivo</th>";
      "        </tr>";
      "      </thead>";
      "      <tbody>" +:+ tabla +:+ "</tbody>";
      "    </table>";
      "    <p style=" +:+ dq +:+ "margin-top: 20px; color: #666;" +:+ dq +:+ ">";
      "      Fecha: " +:+ toLocaleDateString h t +:+ "<br>";
      "      Sistema de Gestión Workspace - Turing IA";
      "    </p>";
      "  " ].

Definition digestSubject (h : Host) (t : Z) : string :=
  "Reporte Diario - " +:+ toLocaleDateString h t.

(** [function enviarReporteInactivos(usuariosInactivos)] *)
Definition enviarReporteInactivos (usuariosInactivos : list Offender) : M unit :=
  h ← gets host;
  t ← Date_now;
  let htmlBody := digestHtml h t usuariosInactivos in
  _ ← sendHtmlNotification (digestSubject h t) htmlBody;
  ret tt.

End Notifications.

Export Notifications.

(* ===================================================================== *)
(** ** Triggers.gs: the edit trigger and the daily sweep                  *)
(* ===================================================================== *)

Module Triggers.

(** The event object of [onEdit]: the sheet, row and column of [e.range]. *)
Record EditEvent := mkEditEvent {
  e_sheet : string;
  e_row : Z;
  e_col : Z
}.

(** [a && b] on values. *)
Definition jsAnd (a b : value) : value := if truthy a then b else a.

(** [x ? x.toString().trim() : ''] *)
Definition cleanString (h : Host) (x : value) : string :=
  if truthy x then trim (toString h x) else "".

(** The [user] object [handleUserEdit] builds from the seven cells of the
    edited row. *)
Definition normalizeRow (h : Host) (userData : Row) : User :=
  {| name := VStr (cleanString h (index userData 0));
     email := VStr (cleanString h (index userData 1));
     role := VStr (cleanString h (index userData 2));
     group := VStr (cleanString h (index userData 3));
     active := VBool (strictEq (index userData 4) (VBool true)
                      || strictEq (index userData 4) (VStr "TRUE")
                      || strictEq (index userData 4) (VStr "true"));
     dateRegistered := jsOr (index userData 5) VNull;
     lastAccess := jsOr (index userData 6) VNull |}.

(** [const filaCompleta = user.name && user.email && user.role && user.group] *)
Definition filaCompleta (user : User) : value :=
  jsAnd (jsAnd (jsAnd (name user) (email user)) (role user)) (group user).

(** [const esNuevo = !user.dateRegistered || user.dateRegistered === ''] *)
Definition esNuevo (user : User) : bool :=
  negb (truthy (dateRegistered user)) || strictEq (dateRegistered user) (VStr "").

(** [function handleUserEdit(e)] *)
Definition handleUserEdit (e : EditEvent) : M unit :=
  let row := e_row e in
  if row =? 1 then ret tt
  else
    let sheet := e_sheet e in
    let col := e_col e in
    userData ← getRowValues sheet row 7;
    h ← gets host;
    let user := normalizeRow h userData in
    (* the two detections after the new-user block *)
    let detections : M unit :=
      _ ← (if (col =? 5) && strictEq (active user) (VBool false)
           then processInactiveUser user else ret tt);
      if (col =? 3) && truthy (dateRegistered user)
      then notifyRoleChange user else ret tt in
    if (1 <=? col) && (col <=? 5) then
      if truthy (filaCompleta user) && esNuevo user then
        _ ← Logger_log "Fila completa detectada - Procesando nuevo usuario";
        processNewUser user row
      else detections
    else detections.

(** [function onEdit(e)] *)
Definition onEdit (e : EditEvent) : M unit :=
  tryCatch
    (let sheetName := e_sheet e in
     if String.eqb sheetName "Usuarios" then handleUserEdit e else ret tt)
    (fun message =>
       _ ← Logger_log ("Error en onEdit: " +:+ message);
       logEvent {| ev_type := VStr "ERROR";
                   ev_user := VStr "Sistema";
                   ev_details := VStr ("Error en trigger: " +:+ message);
                   ev_status := VStr "ERROR";
                   ev_action := VUndef |}).

(** The search loop of the sweep over [data[i]], [i = 1 ..]: the first row
    whose column A is [===] the name gets ['FALSE'] in column E, then
    [break]. *)
Fixpoint markInactive (sheet : string) (i : nat) (rows : list Row) (nm : value) : M unit :=
  match rows with
  | [] => ret tt
  | r :: rows' =>
      if strictEq (index r 0) nm
      then setValue sheet (Z.of_nat i + 1) 5 (VStr "FALSE")
      else markInactive sheet (S i) rows' nm
  end.

(** The audit record the sweep writes for a user [dias] days inactive. *)
Definition sweepEvent (user : User) (dias : number) : AuditEvent :=
  {| ev_type := VStr "USUARIO_INACTIVO";
     ev_user := name user;
     ev_details := VStr (number_toString dias +:+ " días sin actividad");
     ev_status := VStr "ALERTA";
     ev_action := VStr "Desactivado automáticamente" |}.

(** The body of [users.forEach(user => ...)]; [usuariosInactivos] is the
    array the closure pushes to. *)
Definition sweepUser (usuariosInactivos : list Offender) (user : User) : M (list Offender) :=
  if negb (truthy (active user)) then ret usuariosInactivos
  else
    dias ← getDaysSinceLastAccess (lastAccess user);
    if number_gt dias 7 then
      sheet ← getSheetByName "Usuarios";
      sheet ← deref sheet;
      data ← getValues sheet;
      _ ← markInactive sheet 1 (drop 1 data) (name user);
      _ ← logEvent (sweepEvent user dias);
      ret (usuariosInactivos ++ [mkOffender (name user) (group user) dias])%list
    else ret usuariosInactivos.

Definition userFields (u : User) : list value :=
  [name u; email u; role u; group u; active u; dateRegistered u; lastAccess u].

(** [function verificarUsuariosInactivos()] *)
Definition verificarUsuariosInactivos : M unit :=
  _ ← Logger_log "=== Verificación diaria iniciada ===";
  users ← getUsers;
  h ← gets host;
  _ ← Logger_log (Logger_inspect h (map userFields users));
  usuariosInactivos ← forEach sweepUser [] users;
  _ ← Logger_log ("Usuarios desactivados: "
                  +:+ Z_toString (Z.of_nat (List.length usuariosInactivos)));
  _ ← (if (0 <? List.length usuariosInactivos)%nat
       then enviarReporteInactivos usuariosInactivos else ret tt);
  Logger_log "=== Verificación completada ===".

End Triggers.

Export Triggers.

(* ===================================================================== *)
(** ** Lifecycle events, observations and scenarios                       *)
(* ===================================================================== *)

Module Spec.

(** The lifecycle event an edit is classified as, named after the processor
    [handleUserEdit] calls for it. *)
Inductive Event : Type :=
| NewUser (user : User) (row : Z)
| Deactivation (user : User)
| RoleChange (user : User).

(** The decisions of [handleUserEdit], without the processors: the events
    of one edit, in the order their processors are called. *)
Definition classify (h : Host) (row col : Z) (userData : Row) : list Event :=
  if row =? 1 then []
  else
    let user := normalizeRow h userData in
    let detections :=
      ((if (col =? 5) && strictEq (active user) (VBool false)
        then [Deactivation user] else [])
       ++ (if (col =? 3) && truthy (dateRegistered user)
           then [RoleChange user] else []))%list in
    if (1 <=? col) && (col <=? 5) then
      if truthy (filaCompleta user) && esNuevo user then [NewUser user row]
      else detections
    else detections.

(** The processor of an event. *)
Definition dispatch (ev : Event) : M unit :=
  match ev with
  | NewUser user row =>
      _ ← Logger_log "Fila completa detectada - Procesando nuevo usuario";
      processNewUser user row
  | Deactivation user => processInactiveUser user
  | RoleChange user => notifyRoleChange user
  end.

Definition dispatchAll (evs : list Event) : M unit :=
  forEach (fun (_ : unit) ev => dispatch ev) tt evs.

Definition isNewUser (ev : Event) : bool :=
  match ev with NewUser _ _ => true | _ => false end.

(** A record is complete when its four basic fields are non-empty. *)
Definition complete (user : User) : Prop :=
  name user <> VStr "" /\ email user <> VStr ""
  /\ role user <> VStr "" /\ group user <> VStr "".

(** *** Trimmed strings *)

Fixpoint allSpace (s : string) : bool :=
  match s with
  | String c s' => isSpace c && allSpace s'
  | EmptyString => true
  end.

Definition headSpace (s : string) : bool :=
  match s with
  | String c _ => isSpace c
  | EmptyString => false
  end.

Fixpoint lastSpace (s : string) : bool :=
  match s with
  | String c EmptyString => isSpace c
  | String _ s' => lastSpace s'
  | EmptyString => false
  end.

(** [t] is [s] without its leading and trailing white space. *)
Definition isTrimOf (t s : string) : Prop :=
  exists l r : string,
    s = l +:+ t +:+ r
    /\ allSpace l = true /\ allSpace r = true
    /\ headSpace t = false /\ lastSpace t = false.

(** *** Observations of a world *)

Definition grid (w : World) (sheet : string) : Grid := default [] (sheets w !! sheet).

(** The seven cells [handleUserEdit] reads for an edit of [row]. *)
Definition editedRow (w : World) (sheet : string) (row : Z) : Row :=
  map (cellOf (grid w sheet) (Z.to_nat (row - 1))) (seq 0 7).

(** The configuration object [getConfig] would return, if the sheet exists. *)
Definition configOf (w : World) : option Config :=
  match sheets w !! "Configuración" with
  | Some data =>
      Some (foldl (fun (config : Config) (r : Row) =>
                     cfg_set (toString (host w) (index r 0)) (index r 1) config)
                  (mkConfig ∅ ObjectPrototype) (drop 1 data))
  | None => None
  end.

Definition isLogged (e : Effect) : bool :=
  match e with Logged _ => true | _ => false end.

(** The effects other than [Logger.log] lines. *)
Definition visible (es : list Effect) : list Effect :=
  List.filter (fun e => negb (isLogged e)) es.

Definition mailOf (e : Effect) : option Mail :=
  match e with Sent m => Some m | _ => None end.

Definition isCreated (e : Effect) : bool :=
  match e with Created _ => true | _ => false end.

(** The mails among the effects. *)
Definition mailsOf (es : list Effect) : list Mail := omap mailOf es.

(** [w'] continues the trace of [w], and the effects it adds, the logger
    lines left out, are [vis]. *)
Definition extends (w w' : World) (vis : list Effect) : Prop :=
  exists d : list Effect, trace w' = (trace w ++ d)%list /\ visible d = vis.

(** [w'] has the platform, the clock, the configuration and the sheets (by
    name) of [w]: what a run leaves alone. *)
Definition sameSetting (w w' : World) : Prop :=
  host w' = host w /\ now w' = now w /\ configOf w' = configOf w
  /\ forall s : string, is_Some (sheets w' !! s) <-> is_Some (sheets w !! s).

(** The world after [logEvent(event)]. *)
Definition audited (event : AuditEvent) (w : World) : World :=
  match sheets w !! "RegistroDeEventos" with
  | Some _ =>
      emit (Logged ("Evento registrado: " +:+ toString (host w) (ev_type event)
                    +:+ " - " +:+ toString (host w) (ev_user event)))
        (emit (AppendRow "RegistroDeEventos" (auditRow (now w) event))
           (setSheets (alter (fun g : Grid => (g ++ [auditRow (now w) event])%list)
                             "RegistroDeEventos") w))
  | None => emit (Logged "Hoja RegistroEventos no encontrada") w
  end.

(** The enable flags count as set when they are the boolean [true] or the
    string ['TRUE']. *)
Definition trueLike (v : value) : Prop := v = VBool true \/ v = VStr "TRUE".

(** *** The gateways as conditions on the world *)

Definition notifyFlag (w : World) : bool :=
  match configOf w with
  | Some config => flagOn (cfg_get config "notificarAdmins")
  | None => false
  end.

Definition notifyAddress (w : World) : value :=
  match configOf w with
  | Some config => cfg_get config "emailNotificacion"
  | None => VUndef
  end.

Definition plainMail (w : World) (subject body : string) : Mail :=
  mkMail (notifyAddress w) subject body None.

Definition htmlMail (w : World) (subject htmlBody : string) : Mail :=
  mkMail (notifyAddress w) subject "" (Some htmlBody).

(** [sendNotification] reaches and completes [GmailApp.sendEmail]. *)
Definition plainGoes (w : World) (subject body : string) : bool :=
  notifyFlag w
  && emailRegex_test (toString (host w) (notifyAddress w))
  && negb (bool_decide (is_Some (GmailApp_throws (host w) (plainMail w subject body)))).

(** [sendHtmlNotification] reaches and completes [GmailApp.sendEmail]. *)
Definition htmlGoes (w : World) (subject htmlBody : string) : bool :=
  notifyFlag w
  && negb (bool_decide (is_Some (GmailApp_throws (host w) (htmlMail w subject htmlBody)))).

Definition scheduleFlag (w : World) : bool :=
  match configOf w with
  | Some config => flagOn (cfg_get config "crearEventoCalendar")
  | None => false
  end.

Definition calendarId (w : World) : value :=
  match configOf w with
  | Some config => cfg_get config "calendarioId"
  | None => VUndef
  end.

(** The booking [createCalendarEvent] completes, if it completes one. *)
Definition bookingOf (w : World) (title description : string)
    (startTime endTime : number) : option Booking :=
  if scheduleFlag w then
    match CalendarApp_getCalendarById (host w) (calendarId w) with
    | CalFound c =>
        let b := mkBooking c title startTime endTime description in
        match createEvent_throws (host w) b with
        | None => Some b
        | Some _ => None
        end
    | _ => None
    end
  else None.

(** The world after [sendNotification(subject, body)]. *)
Definition plainRefusal (w : World) (subject body : string) : string :=
  match configOf w with
  | None => "Error al enviar email: Hoja Configuración no encontrada"
  | Some _ =>
      if negb (notifyFlag w) then "Notificaciones deshabilitadas"
      else if negb (emailRegex_test (toString (host w) (notifyAddress w)))
      then "Email inválido"
      else "Error al enviar email: "
           +:+ default "" (GmailApp_throws (host w) (plainMail w subject body))
  end.

Definition notified (subject body : string) (w : World) : World :=
  if plainGoes w subject body
  then emit (Logged ("Email enviado: " +:+ subject))
         (emit (Sent (plainMail w subject body)) w)
  else emit (Logged (plainRefusal w subject body)) w.

(** The world after [sendHtmlNotification(subject, htmlBody)]. *)
Definition htmlNotified (subject htmlBody : string) (w : World) : World :=
  if htmlGoes w subject htmlBody
  then emit (Logged ("Email HTML enviado: " +:+ subject))
         (emit (Sent (htmlMail w subject htmlBody)) w)
  else
    match configOf w with
    | None => emit (Logged "Error al enviar email HTML: Hoja Configuración no encontrada") w
    | Some _ =>
        if notifyFlag w
        then emit (Logged ("Error al enviar email HTML: "
                           +:+ default "" (GmailApp_throws (host w)
                                             (htmlMail w subject htmlBody)))) w
        else w
    end.

(** The world after [createCalendarEvent(title, description, start, end)]. *)
Definition scheduleRefusal (w : World) (title description : string)
    (startTime endTime : number) : string :=
  match configOf w with
  | None => "Error al crear evento: Hoja Configuración no encontrada"
  | Some _ =>
      if negb (scheduleFlag w) then "Creación de eventos deshabilitada"
      else
        match CalendarApp_getCalendarById (host w) (calendarId w) with
        | CalNull => "Calendario no encontrado"
        | CalThrows msg => "Error al crear evento: " +:+ msg
        | CalFound c =>
            "Error al crear evento: "
            +:+ default "" (createEvent_throws (host w)
                              (mkBooking c title startTime endTime description))
        end
  end.

Definition scheduled (title description : string) (startTime endTime : number)
    (w : World) : World :=
  match bookingOf w title description startTime endTime with
  | Some b => emit (Logged ("Evento creado: " +:+ title)) (emit (Created b) w)
  | None => emit (Logged (scheduleRefusal w title description startTime endTime)) w
  end.

(** The world after the two stamps of [processNewUser]. *)
Definition stampCell (row col : Z) (v : value) (w : World) : World :=
  emit (SetValue "Usuarios" row col v)
    (setSheets (alter (setCell (Z.to_nat (row - 1)) (Z.to_nat (col - 1)) v) "Usuarios") w).

Definition stamped (row : Z) (w : World) : World :=
  stampCell row 7 (VDate (Int (now w))) (stampCell row 6 (VDate (Int (now w))) w).

(** The mail and the meeting of [processNewUser] at time [t]. *)
Definition welcomeSubject : string := "Nuevo usuario agregado".

Definition onboardingTitle (h : Host) (user : User) : string :=
  "Onboarding: " +:+ toString h (name user).

(** The world after [processNewUser(user, row)] when the sheet of users
    exists. *)
Definition onboarded (user : User) (row : Z) (w : World) : World :=
  let h := host w in
  let t := now w in
  emit (Logged ("Nuevo usuario procesado: " +:+ toString h (name user)))
    (scheduled (onboardingTitle h user) (onboardingDescription h user)
       (Int (onboardingStart h t)) (Int (onboardingEnd h t))
       (htmlNotified welcomeSubject (welcomeHtml h t user)
          (audited (newUserEvent h user) (stamped row w)))).

(** The subject of the alert of [notifyRoleChange]. *)
Definition adminAlertSubject : string := "Cambio Crítico: Nuevo Administrador".

(** *** The sweep *)

(** The test of the sweep on one user at time [t]. *)
Definition isStale (h : Host) (t : Z) (u : User) : bool :=
  truthy (active u) && number_gt (daysBetween h t (lastAccess u)) 7.

(** The users [getUsers] reads. *)
Definition registry (w : World) : list User := usersOfRows (drop 1 (grid w "Usuarios")).

(** The position, among the rows below the header, of the first row whose
    column A is [===] the name: the row the search loop of the sweep
    stops at. *)
Fixpoint findRow (rows : list Row) (nm : value) : option nat :=
  match rows with
  | [] => None
  | r :: rows' => if strictEq (index r 0) nm then Some 0%nat else S <$> findRow rows' nm
  end.

(** The world after the search loop. *)
Definition marked (nm : value) (w : World) : World :=
  match findRow (drop 1 (grid w "Usuarios")) nm with
  | Some k => stampCell (Z.of_nat (1 + k) + 1) 5 (VStr "FALSE") w
  | None => w
  end.

(** The world after the body of the sweep ran for one user. *)
Definition swept (w : World) (u : User) : World :=
  if isStale (host w) (now w) u
  then audited (sweepEvent u (daysBetween (host w) (now w) (lastAccess u))) (marked (name u) w)
  else w.

Definition sweptAll (users : list User) (w : World) : World := foldl swept w users.

(** The entries the sweep pushes for the users that are stale at [t]. *)
Definition offenderOf (h : Host) (t : Z) (u : User) : Offender :=
  mkOffender (name u) (group u) (daysBetween h t (lastAccess u)).

Definition offenders (h : Host) (t : Z) (users : list User) : list Offender :=
  map (offenderOf h t) (List.filter (isStale h t) users).

(** The audit rows the sweep writes for them. *)
Definition sweepRows (h : Host) (t : Z) (users : list User) : list Row :=
  map (fun u => auditRow t (sweepEvent u (daysBetween h t (lastAccess u))))
      (List.filter (isStale h t) users).

(** The world after [enviarReporteInactivos(batch)]. *)
Definition reported (batch : list Offender) (w : World) : World :=
  htmlNotified (digestSubject (host w) (now w)) (digestHtml (host w) (now w) batch) w.

(** The world after [verificarUsuariosInactivos()]. *)
Definition sweptWorld (w : World) : World :=
  let users := registry w in
  let batch := offenders (host w) (now w) users in
  let w1 := emit (Logged (Logger_inspect (host w) (map userFields users)))
              (emit (Logged "=== Verificación diaria iniciada ===") w) in
  let w2 := emit (Logged ("Usuarios desactivados: "
                          +:+ Z_toString (Z.of_nat (List.length batch))))
              (sweptAll users w1) in
  let w3 := if (0 <? List.length batch)%nat then reported batch w2 else w2 in
  emit (Logged "=== Verificación completada ===") w3.

(** The mails without an HTML body among the effects. *)
Definition plainMails (es : list Effect) : list Mail :=
  List.filter (fun m => bool_decide (mail_html m = None)) (mailsOf es).

Definition rowOf (e : Effect) : option (string * Row) :=
  match e with AppendRow sheet r => Some (sheet, r) | _ => None end.

(** The rows appended among the effects, with their sheets. *)
Definition appendedRows (es : list Effect) : list (string * Row) := omap rowOf es.

(** The effects a run adds to the trace. *)
Definition newEffects (w w' : World) : list Effect :=
  drop (List.length (trace w)) (trace w').

(** The Active cell of the row at position [i] of the sheet of users holds
    the string ['FALSE']. *)
Definition isFalseCell (w : World) (i : nat) : Prop :=
  cellOf (grid w "Usuarios") i 4 = VStr "FALSE".

(** The clock moves between two runs; nothing else does. *)
Definition setNow (t : Z) (w : World) : World :=
  mkWorld (host w) (sheets w) t (trace w).

(** One run of the sweep at time [t], and runs at successive times. *)
Definition sweepAt (t : Z) (w : World) : World :=
  snd (verificarUsuariosInactivos (setNow t w)).

Definition sweeps (ts : list Z) (w : World) : World :=
  foldl (fun w t => sweepAt t w) w ts.

End Spec.

Export Spec.

(* ===================================================================== *)
(** ** Concrete sheets and worlds                                         *)
(* ===================================================================== *)

Module Scenario.

(** A platform on which every service call succeeds. *)
Definition host0 : Host :=
  {| Date_parse := fun _ => NaN;
     Date_toString := fun t => "Date(" +:+ number_toString t +:+ ")";
     toLocaleString := fun t => "local " +:+ Z_toString t;
     toLocaleDateString := fun t => "day " +:+ Z_toString (t / msPerDay);
     LocalTZA := fun _ _ => -6 * 60 * 60 * 1000;
     Logger_inspect := fun users => Z_toString (Z.of_nat (List.length users)) +:+ " users";
     GmailApp_throws := fun _ => None;
     CalendarApp_getCalendarById := fun id =>
       match id with VStr "primary" => CalFound "primary" | _ => CalNull end;
     createEvent_throws := fun _ => None |}.

(** The same platform with a mail service that is down. *)
Definition hostMailDown : Host :=
  {| Date_parse := Date_parse host0;
     Date_toString := Date_toString host0;
     toLocaleString := toLocaleString host0;
     toLocaleDateString := toLocaleDateString host0;
     LocalTZA := LocalTZA host0;
     Logger_inspect := Logger_inspect host0;
     GmailApp_throws := fun _ => Some "Service invoked too many times";
     CalendarApp_getCalendarById := CalendarApp_getCalendarById host0;
     createEvent_throws := createEvent_throws host0 |}.

Definition day : Z := msPerDay.

(** The run takes place 20000 days after the epoch, at 15:00 UTC. *)
Definition t0 : Z := 20000 * day + 15 * 60 * 60 * 1000.

Definition usersHeader : Row :=
  [VStr "Nombre"; VStr "Email"; VStr "Rol"; VStr "Grupo"; VStr "Activo";
   VStr "Fecha Registro"; VStr "Último Acceso"].

Definition configSheet : Grid :=
  [ [VStr "Parámetro"; VStr "Valor"];
    [VStr "emailNotificacion"; VStr "admin@empresa.com"];
    [VStr "calendarioId"; VStr "primary"];
    [VStr "notificarAdmins"; VBool true];
    [VStr "crearEventoCalendar"; VStr "TRUE"] ].

Definition auditHeader : Row :=
  [VStr "Timestamp"; VStr "Tipo"; VStr "Usuario"; VStr "Detalles"; VStr "Estado";
   VStr "Acción"].

Definition worldOf (h : Host) (users : Grid) : World :=
  {| host := h;
     sheets := <["Usuarios" := users]>
                 (<["Configuración" := configSheet]>
                    (<["RegistroDeEventos" := [auditHeader]]> ∅));
     now := t0;
     trace := [] |}.

Definition registered : value := VDate (Int (19000 * day)).

Definition accessed (daysAgo : Z) : value := VDate (Int (t0 - daysAgo * day)).

(** Three active users last seen 3, 8 and 15 days ago. *)
Definition anaRow : Row :=
  [VStr "Ana"; VStr "ana@empresa.com"; VStr "Editor"; VStr "IT"; VBool true;
   registered; accessed 3].

Definition luisRow : Row :=
  [VStr "Luis"; VStr "luis@empresa.com"; VStr "Viewer"; VStr "RH"; VStr "TRUE";
   registered; accessed 8].

Definition evaRow : Row :=
  [VStr "Eva"; VStr "eva@empresa.com"; VStr "Admin"; VStr "Finanzas"; VBool true;
   registered; accessed 15].

Definition threeUsers : Grid := [usersHeader; anaRow; luisRow; evaRow].

Definition threeUsersWorld : World := worldOf host0 threeUsers.

Definition luis : User := userOfRow luisRow.

(** An active, registered user whose last-access cell is empty. *)
Definition neverSeen : Grid :=
  [ usersHeader;
    [VStr "Ana"; VStr "ana@empresa.com"; VStr "Editor"; VStr "IT"; VBool true;
     registered; VStr ""] ].

Definition neverSeenWorld : World := worldOf host0 neverSeen.

(** The times of two further runs of the sweep. *)
Definition laterRuns : list Z := [t0 + day; t0 + 2 * day].

(** A row under construction: only the name is filled in, and the Active
    cell has just been set to [false]. *)
Definition draftRow : Row :=
  [VStr "Ana"; VStr ""; VStr ""; VStr ""; VBool false; VStr ""; VStr ""].

Definition draft : Grid := [usersHeader; draftRow].

(** A complete row that has not been registered yet. *)
Definition freshRow : Row :=
  [VStr "  Ana López "; VStr "ana@empresa.com"; VStr "Editor"; VStr "IT"; VBool true;
   VStr ""; VStr ""].

Definition fresh : Grid := [usersHeader; freshRow].

Definition freshWorld (h : Host) : World := worldOf h fresh.

(** A registered user. *)
Definition memberRow (roleCell activeCell : value) : Row :=
  [VStr "Ana"; VStr "ana@empresa.com"; roleCell; VStr "IT"; activeCell;
   registered; accessed 1].

(** A row whose Active cell holds the string ["True"]. *)
Definition mixedCaseRow : Row :=
  [VStr "Ana"; VStr "ana@empresa.com"; VStr "Editor"; VStr "IT"; VStr "True";
   VStr ""; VStr ""].

End Scenario.

(* ===================================================================== *)
(** ** Further observations                                               *)
(* ===================================================================== *)

Module Zone.


(** The local time [x] is one the zone has: converted to UTC and back it
    is [x] again.  This fails only for a local time that a change of the
    offset skips. *)
Definition roundTrips (h : Host) (x : Z) : Prop := LocalTime h (UTC h x) = x.


End Zone.

Export Zone.

Module Views.


Definition isBoolean (v : value) : bool :=
  match v with VBool _ => true | _ => false end.

(** The names in column A of a list of rows. *)
Definition namesOf (rows : list Row) : list value := map (fun r => index r 0) rows.

(** No other row below the header has, in column A, the name of row [r]
    of the sheet of users. *)
Definition soleName (w : World) (r : Z) : Prop :=
  forall (k : nat) (row row' : Row),
    grid w "Usuarios" !! Z.to_nat (r - 1) = Some row ->
    drop 1 (grid w "Usuarios") !! k = Some row' ->
    index row' 0 = index row 0 ->
    Z.of_nat k + 2 = r.

End Views.

Export Views.

Module Frame.

(** Every cell of [g'] is the cell of [g] or holds a value [allowed] for
    its position. *)
Definition keepsCells (allowed : nat -> nat -> value -> Prop) (g g' : Grid) : Prop :=
  forall i j : nat, cellOf g' i j = cellOf g i j \/ allowed i j (cellOf g' i j).

(** What a run may do to the sheets: write [allowed] values into cells of
    the sheet of users and add rows at the end of the audit log.  The
    setting and every other sheet stay. *)
Definition changesOnly (allowed : nat -> nat -> value -> Prop) (w w' : World) : Prop :=
  sameSetting w w'
  /\ (forall s : string,
        s <> "Usuarios" -> s <> "RegistroDeEventos" -> sheets w' !! s = sheets w !! s)
  /\ keepsCells allowed (grid w "Usuarios") (grid w' "Usuarios")
  /\ grid w "RegistroDeEventos" `prefix_of` grid w' "RegistroDeEventos".

(** No cell may change. *)
Definition nowhere : nat -> nat -> value -> Prop := fun _ _ _ => False.

(** The two date cells of sheet row [row], with the time [t]. *)
Definition dateCells (row t : Z) : nat -> nat -> value -> Prop :=
  fun i j v => Z.of_nat i = row - 1 /\ (j = 5 \/ j = 6)%nat /\ v = VDate (Int t).

(** The Active cell of a row below the header, with the string ['FALSE']. *)
Definition activeOff : nat -> nat -> value -> Prop :=
  fun i j v => (1 <= i)%nat /\ j = 4%nat /\ v = VStr "FALSE".

(** The sweep marks the row at position [k] below the header for the user
    [u]: [u] is stale and the search for the name of [u] stops at [k]. *)
Definition struck (w : World) (k : nat) (u : User) : bool :=
  isStale (host w) (now w) u
  && bool_decide (findRow (drop 1 (grid w "Usuarios")) (name u) = Some k).

End Frame.

Export Frame.

Module Records.

(** The audit record of [processInactiveUser]. *)
Definition inactiveEvent (user : User) : AuditEvent :=
  {| ev_type := VStr "USUARIO_INACTIVO";
     ev_user := name user;
     ev_details := VStr "Usuario desactivado";
     ev_status := VStr "ALERTA";
     ev_action := VStr "Email enviado" |}.

Definition inactiveSubject : string := "Usuario inactivo detectado".

End Records.

Export Records.

Module Chars.

(** The number of [@] in a string. *)
Fixpoint countAt (s : string) : nat :=
  match s with
  | String c s' => ((if Ascii.eqb c "@" then 1 else 0) + countAt s')%nat
  | EmptyString => 0%nat
  end.

(** The string has a white-space character. *)
Fixpoint hasSpace (s : string) : bool :=
  match s with
  | String c s' => isSpace c || hasSpace s'
  | EmptyString => false
  end.

End Chars.

Export Chars.

Module Autumn.




End Autumn.

Module Cases.

(** A row whose name cell holds three spaces. *)
Definition blankNameRow : Row :=
  [VStr "   "; VStr "ana@empresa.com"; VStr "Editor"; VStr "IT"; VBool true;
   VStr ""; VStr ""].

(** A configuration whose address for notifications is not an address. *)
Definition badAddressConfig : Grid :=
  [ [VStr "Parámetro"; VStr "Valor"];
    [VStr "emailNotificacion"; VStr "sin arroba"];
    [VStr "calendarioId"; VStr "primary"];
    [VStr "notificarAdmins"; VBool true];
    [VStr "crearEventoCalendar"; VStr "TRUE"] ].

Definition badAddressWorld : World :=
  setSheets (insert "Configuración" badAddressConfig) Scenario.threeUsersWorld.

End Cases.

Module Duplicates.

(** Two rows with the same name: Ana was seen yesterday, her namesake of
    the row below 30 days ago. *)
Definition anaFresh : Row :=
  [VStr "Ana"; VStr "ana@empresa.com"; VStr "Editor"; VStr "IT"; VBool true;
   Scenario.registered; Scenario.accessed 1].

Definition anaStale : Row :=
  [VStr "Ana"; VStr "ana.ruiz@empresa.com"; VStr "Viewer"; VStr "RH"; VBool true;
   Scenario.registered; Scenario.accessed 30].

Definition namesakes : Grid := [Scenario.usersHeader; anaFresh; anaStale].

Definition namesakesWorld : World := Scenario.worldOf Scenario.host0 namesakes.

(** Three active users seen 3, 8 and 15 days ago, the first two with the
    same name. *)
Definition anaTwin : Row :=
  [VStr "Ana"; VStr "ana.ruiz@empresa.com"; VStr "Viewer"; VStr "RH"; VStr "TRUE";
   Scenario.registered; Scenario.accessed 8].

Definition twins : Grid := [Scenario.usersHeader; Scenario.anaRow; anaTwin; Scenario.evaRow].

Definition twinsWorld : World := Scenario.worldOf Scenario.host0 twins.

End Duplicates.

(* ===================================================================== *)
(** ** The manual test functions                                          *)
(* ===================================================================== *)

Module Tests.

(** [function probarCode()] *)
Definition probarCode : M unit :=
  _ ← Logger_log "=== PROBANDO CODE.GS ===";
  _ ← tryCatch
        (config ← getConfig;
         _ ← Logger_log "getConfig() funciona correctamente";
         h ← gets host;
         Logger_log ("Email configurado: " +:+ toString h (cfg_get config "emailNotificacion")))
        (fun message => Logger_log ("getConfig() falló: " +:+ message));
  _ ← tryCatch
        (users ← getUsers;
         _ ← Logger_log "getUsers() funciona correctamente";
         Logger_log ("Total usuarios: " +:+ Z_toString (Z.of_nat (List.length users))))
        (fun message => Logger_log ("getUsers() falló: " +:+ message));
  _ ← tryCatch
        (_ ← logEvent {| ev_type := VStr "PRUEBA";
                         ev_user := VStr "Test";
                         ev_details := VStr "Prueba de Code.gs";
                         ev_status := VStr "OK";
                         ev_action := VStr "Ninguna" |};
         Logger_log "logEvent() funciona correctamente")
        (fun message => Logger_log ("logEvent() falló: " +:+ message));
  Logger_log "=== PRUEBA CODE.GS COMPLETADA ===".

(** [processNewUser(user)], the call without a row: in the body [row] is
    [undefined].  The body reads the sheet and the clock and then calls
    [sheet.getRange(undefined, 6)]: a [TypeError] when the sheet is
    missing, and otherwise the platform's refusal of the arguments,
    [getRange] taking numbers.  Nothing is written before. *)
Definition processNewUser_noRow (user : User) : M unit :=
  sheet ← getSheetByName "Usuarios";
  ahora ← Date_now;
  sheet ← deref sheet;
  throw ("Exception: The parameters (null,number) don't match the method "
         +:+ "signature for SpreadsheetApp.Sheet.getRange.").

(** The object literal [user] of [pruebaAgregarUsuario]. *)
Definition carlos : User :=
  {| name := VStr "Carlos Test";
     email := VStr "carlos.test@empresa.com";
     role := VStr "Editor";
     group := VStr "IT";
     active := VUndef;
     dateRegistered := VUndef;
     lastAccess := VUndef |}.

(** [function pruebaAgregarUsuario()] *)
Definition pruebaAgregarUsuario : M unit :=
  _ ← Logger_log "=== PRUEBA: Agregar Usuario ===";
  _ ← processNewUser_noRow carlos;
  _ ← Logger_log "Prueba completada";
  Logger_log "Revisar: Email recibido + Evento en Calendar".

(** [Utilities.sleep(ms)]: the clock of the run moves on by [ms]. *)
Definition Utilities_sleep (ms : Z) : M unit :=
  modify (fun w => mkWorld (host w) (sheets w) (now w + ms) (trace w)).

(** The search loop of [pruebaCompletaNuevoUsuario] over [data[i]],
    [i = 1 ..]: the sheet row [i + 1] of the first row whose column A is
    falsy or [=== '']. *)
Fixpoint firstEmptyRow (i : nat) (rows : list Row) : option Z :=
  match rows with
  | [] => None
  | r :: rows' =>
      if negb (truthy (index r 0)) || strictEq (index r 0) (VStr "")
      then Some (Z.of_nat i + 1)
      else firstEmptyRow (S i) rows'
  end.

(** [let emptyRow = -1; for ...; if (emptyRow === -1) emptyRow = data.length + 1] *)
Definition emptyRowOf (data : Grid) : Z :=
  match firstEmptyRow 1 (drop 1 data) with
  | Some row => row
  | None => Z.of_nat (List.length data) + 1
  end.

(** The object literal [testUser]; the fields it does not have are
    [undefined]. *)
Definition testUser : User :=
  {| name := VStr "Pedro Ramírez";
     email := VStr "pedro.ramirez@empresa.com";
     role := VStr "Viewer";
     group := VStr "RH";
     active := VBool true;
     dateRegistered := VUndef;
     lastAccess := VUndef |}.

(** [function pruebaCompletaNuevoUsuario()]; [stack] is the [error.stack]
    of the platform for an error message. *)
Definition pruebaCompletaNuevoUsuario (stack : string -> string) : M unit :=
  _ ← Logger_log "=== PRUEBA COMPLETA: NUEVO USUARIO ===";
  sheet ← getSheetByName "Usuarios";
  sheet ← deref sheet;
  data ← getValues sheet;
  let emptyRow := emptyRowOf data in
  _ ← Logger_log ("Fila para prueba: " +:+ Z_toString emptyRow);
  _ ← setValue sheet emptyRow 1 (name testUser);
  _ ← setValue sheet emptyRow 2 (email testUser);
  _ ← setValue sheet emptyRow 3 (role testUser);
  _ ← setValue sheet emptyRow 4 (group testUser);
  _ ← setValue sheet emptyRow 5 (VStr "TRUE");
  _ ← Logger_log "Datos escritos en la hoja";
  _ ← Utilities_sleep 1000;
  _ ← tryCatch
        (_ ← Logger_log "Ejecutando processNewUser...";
         _ ← processNewUser testUser emptyRow;
         Logger_log "processNewUser ejecutado")
        (fun message =>
           _ ← Logger_log ("Error en processNewUser: " +:+ message);
           Logger_log (stack message));
  _ ← Logger_log "=== VERIFICAR: ===";
  _ ← Logger_log "1. Fechas en columnas F y G";
  _ ← Logger_log "2. Email HTML recibido";
  _ ← Logger_log "3. Evento en Calendar (mañana 10 AM)";
  _ ← Logger_log "4. Fila en RegistroEventos";
  Logger_log "=== FIN DE PRUEBA ===".

End Tests.

Export Tests.

Module TestRun.

(** The world after the five writes of [pruebaCompletaNuevoUsuario] into
    the row [row]. *)
Definition written (row : Z) (w : World) : World :=
  stampCell row 5 (VStr "TRUE")
    (stampCell row 4 (group testUser)
       (stampCell row 3 (role testUser)
          (stampCell row 2 (email testUser)
             (stampCell row 1 (name testUser) w)))).

(** The world after [Utilities.sleep(ms)]. *)
Definition slept (ms : Z) (w : World) : World :=
  mkWorld (host w) (sheets w) (now w + ms) (trace w).

(** The world after [pruebaCompletaNuevoUsuario()] on a sheet of users
    that exists. *)
Definition tested (w : World) : World :=
  let row := emptyRowOf (grid w "Usuarios") in
  let w1 := emit (Logged ("Fila para prueba: " +:+ Z_toString row))
              (emit (Logged "=== PRUEBA COMPLETA: NUEVO USUARIO ===") w) in
  let w2 := slept 1000 (emit (Logged "Datos escritos en la hoja") (written row w1)) in
  let w3 := emit (Logged "processNewUser ejecutado")
              (onboarded testUser row (emit (Logged "Ejecutando processNewUser...") w2)) in
  emit (Logged "=== FIN DE PRUEBA ===")
    (emit (Logged "4. Fila en RegistroEventos")
       (emit (Logged "3. Evento en Calendar (mañana 10 AM)")
          (emit (Logged "2. Email HTML recibido")
             (emit (Logged "1. Fechas en columnas F y G")
                (emit (Logged "=== VERIFICAR: ===") w3))))).

End TestRun.

Export TestRun.

(* ===================================================================== *)
(** ** Facts about values                                                 *)
(* ===================================================================== *)

Lemma strictEq_VStr (v : value) (s : string) :
  strictEq v (VStr s) = true <-> v = VStr s.
Proof.
  destruct v as [| |b|[|z]|s'|t]; simpl; try (split; [discriminate|congruence]).
  rewrite String.eqb_eq. split; congruence.
Qed.

Lemma strictEq_VBool (v : value) (b : bool) :
  strictEq v (VBool b) = true <-> v = VBool b.
Proof.
  destruct v as [| |b'|[|z]|s'|t]; simpl; try (split; [discriminate|congruence]).
  rewrite Bool.eqb_true_iff. split; congruence.
Qed.

Lemma truthy_VStr (s : string) : truthy (VStr s) = true <-> VStr s <> VStr "".
Proof.
  simpl. rewrite Bool.negb_true_iff, String.eqb_neq. split; congruence.
Qed.

Lemma jsOr_null_truthy (x : value) : truthy x = true -> jsOr x VNull = x.
Proof. unfold jsOr. now intros ->. Qed.

Lemma jsOr_null_falsy (x : value) : truthy x = false -> jsOr x VNull = VNull.
Proof. unfold jsOr. now intros ->. Qed.

Lemma truthy_not_empty_string (x : value) : truthy x = true -> strictEq x (VStr "") = false.
Proof.
  destruct x as [| |b|[|z]|s|t]; simpl; try reflexivity.
  now rewrite Bool.negb_true_iff.
Qed.

(* ===================================================================== *)
(** ** The edit classifier                                                *)
(* ===================================================================== *)

Section Classifier.

Variable h : Host.
Variable userData : Row.

Local Abbreviation user := (normalizeRow h userData).

Lemma filaCompleta_complete : truthy (filaCompleta user) = true <-> complete user.
Proof.
  unfold filaCompleta, complete, jsAnd, normalizeRow; simpl name; simpl email;
    simpl role; simpl group.
  repeat match goal with
  | |- context [truthy (VStr ?s)] =>
      let E := fresh "E" in
      destruct (truthy (VStr s)) eqn:E;
      [ apply truthy_VStr in E
      | assert (VStr s = VStr "") by
          (simpl in E; apply Bool.negb_false_iff, String.eqb_eq in E; congruence) ]
  end; simpl; intuition congruence.
Qed.

Lemma esNuevo_absent : esNuevo user = negb (truthy (index userData 5)).
Proof.
  unfold esNuevo, normalizeRow; simpl dateRegistered.
  destruct (truthy (index userData 5)) eqn:E.
  - rewrite jsOr_null_truthy, E by exact E. simpl.
    now apply truthy_not_empty_string.
  - now rewrite jsOr_null_falsy by exact E.
Qed.

Lemma dateRegistered_absent :
  dateRegistered user = VNull <-> truthy (index userData 5) = false.
Proof.
  unfold normalizeRow; simpl dateRegistered.
  destruct (truthy (index userData 5)) eqn:E.
  - rewrite jsOr_null_truthy by exact E. split; [|discriminate].
    intros E'. rewrite E' in E. discriminate.
  - rewrite jsOr_null_falsy by exact E. tauto.
Qed.

Lemma dateRegistered_present :
  truthy (dateRegistered user) = truthy (index userData 5).
Proof.
  unfold normalizeRow; simpl dateRegistered.
  destruct (truthy (index userData 5)) eqn:E.
  - now rewrite jsOr_null_truthy.
  - now rewrite jsOr_null_falsy.
Qed.

(** The new-user test of the classifier, as a condition on the record. *)
Lemma new_user_test :
  truthy (filaCompleta user) && esNuevo user = true
  <-> complete user /\ dateRegistered user = VNull.
Proof.
  rewrite Bool.andb_true_iff, filaCompleta_complete, esNuevo_absent,
    Bool.negb_true_iff, dateRegistered_absent. tauto.
Qed.

(** Column 5 with a stored date of registration and the active flag off:
    one Deactivation event. *)
Lemma classify_deactivation (row : Z) :
  1 < row -> truthy (index userData 5) = true -> active user = VBool false ->
  classify h row 5 userData = [Deactivation user].
Proof.
  intros Hrow Hd Ha. unfold classify.
  replace (row =? 1) with false by lia.
  rewrite esNuevo_absent, Hd, Bool.andb_false_r, dateRegistered_present, Hd, Ha.
  reflexivity.
Qed.

(** Column 5 with the active flag on and a stored date of registration: no
    event. *)
Lemma classify_activation (row : Z) :
  1 < row -> truthy (index userData 5) = true -> active user = VBool true ->
  classify h row 5 userData = [].
Proof.
  intros Hrow Hd Ha. unfold classify.
  replace (row =? 1) with false by lia.
  rewrite esNuevo_absent, Hd, Bool.andb_false_r, dateRegistered_present, Hd, Ha.
  reflexivity.
Qed.

(** Column 5 with the active flag off on a row that has no date of
    registration and is not complete: the classifier does not look at the
    date and yields a Deactivation event all the same. *)
Lemma classify_deactivation_unregistered (row : Z) :
  1 < row -> truthy (index userData 5) = false -> ~ complete user ->
  active user = VBool false ->
  classify h row 5 userData = [Deactivation user].
Proof.
  intros Hrow Hd Hc Ha. unfold classify.
  replace (row =? 1) with false by lia.
  destruct (truthy (filaCompleta user)) eqn:E.
  { apply filaCompleta_complete in E. contradiction. }
  rewrite dateRegistered_present, Hd, Ha. reflexivity.
Qed.

End Classifier.

(* ===================================================================== *)
(** ** Running the script: each function as a function of the world       *)
(* ===================================================================== *)

(** Unfolds the monad and the service calls. *)
Ltac run :=
  unfold Logger_log, Date_now, getSheetByName, getValues, deref, appendRow,
    GmailApp_sendEmail, getCalendarById, createEvent;
  unfold mbind, M_bind, mret, M_ret, bind, ret, gets, modify, throw, tryCatch;
  cbv beta iota.

Lemma bind_Ok {A B} (m : M A) (k : A -> M B) (w w' : World) (a : A) :
  m w = (Ok a, w') -> (x ← m; k x) w = k a w'.
Proof. intros E. unfold mbind, M_bind, bind. now rewrite E. Qed.

(** Observations that no effect and no write to another sheet changes. *)
Lemma configOf_emit (e : Effect) (w : World) : configOf (emit e w) = configOf w.
Proof. reflexivity. Qed.

Lemma configOf_alter (f : Grid -> Grid) (sheet : string) (w : World) :
  sheet <> "Configuración" ->
  configOf (setSheets (alter f sheet) w) = configOf w.
Proof.
  intros Hne. unfold configOf, setSheets; simpl.
  now rewrite lookup_alter_ne by exact Hne.
Qed.

Lemma configOf_audited (ev : AuditEvent) (w : World) : configOf (audited ev w) = configOf w.
Proof.
  unfold audited. destruct (sheets w !! "RegistroDeEventos"); [|reflexivity].
  rewrite !configOf_emit. now apply configOf_alter.
Qed.

Lemma configOf_stampCell (row col : Z) (v : value) (w : World) :
  configOf (stampCell row col v w) = configOf w.
Proof. unfold stampCell. rewrite configOf_emit. now apply configOf_alter. Qed.

Lemma host_audited (ev : AuditEvent) (w : World) : host (audited ev w) = host w.
Proof. unfold audited. now destruct (sheets w !! "RegistroDeEventos"). Qed.

Lemma now_audited (ev : AuditEvent) (w : World) : now (audited ev w) = now w.
Proof. unfold audited. now destruct (sheets w !! "RegistroDeEventos"). Qed.

(** [getConfig] reads the configuration or throws; it changes nothing. *)
Lemma getConfig_eq (w : World) :
  getConfig w =
  (match configOf w with
   | Some config => Ok config
   | None => Throw "Hoja Configuración no encontrada"
   end, w).
Proof.
  unfold getConfig, configOf. run.
  destruct (sheets w !! "Configuración") eqn:E; cbv beta iota; rewrite ?E; reflexivity.
Qed.

(** [logEvent] never throws. *)
Lemma logEvent_eq (ev : AuditEvent) (w : World) : logEvent ev w = (Ok tt, audited ev w).
Proof.
  unfold logEvent, audited. run.
  now destruct (sheets w !! "RegistroDeEventos").
Qed.

Lemma sendNotification_eq (subject body : string) (w : World) :
  sendNotification subject body w = (Ok (plainGoes w subject body), notified subject body w).
Proof.
  unfold sendNotification, tryCatch.
  unfold mbind at 1, M_bind at 1, bind at 1. rewrite getConfig_eq.
  unfold notified, plainGoes, plainRefusal, plainMail, notifyFlag, notifyAddress, flagOn.
  destruct (configOf w) as [config|]; [|reflexivity].
  destruct (negb (strictEq (cfg_get config "notificarAdmins") (VBool true))
            && negb (strictEq (cfg_get config "notificarAdmins") (VStr "TRUE"))); simpl;
    [reflexivity|].
  run.
  destruct (emailRegex_test _); simpl; [|reflexivity].
  now destruct (GmailApp_throws (host w) _).
Qed.

Lemma sendHtmlNotification_eq (subject htmlBody : string) (w : World) :
  sendHtmlNotification subject htmlBody w
  = (Ok (htmlGoes w subject htmlBody), htmlNotified subject htmlBody w).
Proof.
  unfold sendHtmlNotification, tryCatch.
  unfold mbind at 1, M_bind at 1, bind at 1. rewrite getConfig_eq.
  unfold htmlNotified, htmlGoes, htmlMail, notifyFlag, notifyAddress, flagOn.
  destruct (configOf w) as [config|]; [|reflexivity].
  destruct (negb (strictEq (cfg_get config "notificarAdmins") (VBool true))
            && negb (strictEq (cfg_get config "notificarAdmins") (VStr "TRUE"))); simpl;
    [reflexivity|].
  run.
  now destruct (GmailApp_throws (host w) _).
Qed.

Lemma createCalendarEvent_eq (title description : string) (startTime endTime : number)
    (w : World) :
  createCalendarEvent title description startTime endTime w
  = (Ok (bool_decide (is_Some (bookingOf w title description startTime endTime))),
     scheduled title description startTime endTime w).
Proof.
  unfold createCalendarEvent, tryCatch.
  unfold mbind at 1, M_bind at 1, bind at 1. rewrite getConfig_eq.
  unfold scheduled, scheduleRefusal, bookingOf, scheduleFlag, calendarId, flagOn.
  destruct (configOf w) as [config|]; [|reflexivity].
  destruct (negb (strictEq (cfg_get config "crearEventoCalendar") (VBool true))
            && negb (strictEq (cfg_get config "crearEventoCalendar") (VStr "TRUE"))); simpl;
    [reflexivity|].
  run.
  destruct (CalendarApp_getCalendarById (host w) _); simpl; try reflexivity.
  now destruct (createEvent_throws (host w) _).
Qed.

(* ===================================================================== *)
(** ** The processors as functions of the world                           *)
(* ===================================================================== *)

Lemma host_stamped (row : Z) (w : World) : host (stamped row w) = host w.
Proof. reflexivity. Qed.

Lemma now_stamped (row : Z) (w : World) : now (stamped row w) = now w.
Proof. reflexivity. Qed.

Lemma host_htmlNotified (subject htmlBody : string) (w : World) :
  host (htmlNotified subject htmlBody w) = host w.
Proof.
  unfold htmlNotified. destruct (htmlGoes _ _ _); [reflexivity|].
  destruct (configOf w) as [config|]; [|reflexivity]. now destruct (notifyFlag w).
Qed.

Lemma now_htmlNotified (subject htmlBody : string) (w : World) :
  now (htmlNotified subject htmlBody w) = now w.
Proof.
  unfold htmlNotified. destruct (htmlGoes _ _ _); [reflexivity|].
  destruct (configOf w) as [config|]; [|reflexivity]. now destruct (notifyFlag w).
Qed.

Lemma setValue_eq (row col : Z) (v : value) (w : World) :
  1 <= row -> 1 <= col ->
  setValue "Usuarios" row col v w = (Ok tt, stampCell row col v w).
Proof.
  intros Hr Hc. unfold setValue.
  replace (row <? 1) with false by lia. replace (col <? 1) with false by lia.
  reflexivity.
Qed.

(** [processNewUser] on an existing sheet of users never throws. *)
Lemma processNewUser_eq (user : User) (row : Z) (w : World) :
  is_Some (sheets w !! "Usuarios") -> 1 <= row ->
  processNewUser user row w = (Ok tt, onboarded user row w).
Proof.
  intros [g Hg] Hrow. unfold processNewUser, onboarded.
  unfold getSheetByName, Date_now, deref.
  unfold mbind, M_bind, bind, gets, ret. cbv beta iota zeta. rewrite Hg. cbv beta iota zeta.
  rewrite setValue_eq by lia. cbv beta iota zeta.
  rewrite setValue_eq by lia. cbv beta iota zeta.
  change (stampCell row 7 (VDate (Int (now w))) (stampCell row 6 (VDate (Int (now w))) w))
    with (stamped row w).
  rewrite host_stamped, logEvent_eq. cbv beta iota zeta.
  rewrite now_audited, now_stamped, sendHtmlNotification_eq. cbv beta iota zeta.
  rewrite now_htmlNotified, now_audited, now_stamped, createCalendarEvent_eq.
  reflexivity.
Qed.

(** The world after [processInactiveUser(user)]. *)
Lemma processInactiveUser_eq (user : User) (w : World) :
  exists body : string,
    processInactiveUser user w
    = (Ok tt,
       emit (Logged ("Usuario inactivo procesado: " +:+ toString (host w) (name user)))
         (notified "Usuario inactivo detectado" body
            (audited {| ev_type := VStr "USUARIO_INACTIVO";
                        ev_user := name user;
                        ev_details := VStr "Usuario desactivado";
                        ev_status := VStr "ALERTA";
                        ev_action := VStr "Email enviado" |} w))).
Proof.
  eexists. unfold processInactiveUser.
  unfold Date_now, mbind, M_bind, bind, gets, ret. rewrite logEvent_eq. cbv beta iota zeta.
  rewrite sendNotification_eq. cbv beta iota zeta.
  rewrite host_audited, now_audited. reflexivity.
Qed.

(** The world after [notifyRoleChange(user)]. *)
Lemma notifyRoleChange_eq (user : User) (w : World) :
  exists body : string,
    notifyRoleChange user w
    = (Ok tt,
       if strictEq (role user) (VStr "Admin")
       then notified adminAlertSubject body (audited (roleChangeEvent (host w) user) w)
       else audited (roleChangeEvent (host w) user) w).
Proof.
  eexists. unfold notifyRoleChange.
  unfold Date_now, mbind, M_bind, bind, gets, ret. cbv beta iota zeta.
  rewrite logEvent_eq. cbv beta iota zeta.
  destruct (strictEq (role user) (VStr "Admin")); [|reflexivity].
  rewrite sendNotification_eq. cbv beta iota zeta.
  rewrite now_audited. reflexivity.
Qed.

(** *** The edit handler runs the processors of the classifier's events *)

Lemma dispatchAll_nil (w : World) : dispatchAll [] w = (Ok tt, w).
Proof. reflexivity. Qed.

Lemma dispatchAll_one (ev : Event) (w : World) : dispatchAll [ev] w = dispatch ev w.
Proof.
  unfold dispatchAll; simpl. unfold mbind, M_bind, bind, ret.
  now destruct (dispatch ev w) as [[[]|msg] w'].
Qed.

Lemma dispatchAll_two (ev1 ev2 : Event) (w : World) :
  dispatchAll [ev1; ev2] w = (_ ← dispatch ev1; dispatch ev2) w.
Proof.
  unfold dispatchAll; simpl. unfold mbind, M_bind, bind, ret.
  destruct (dispatch ev1 w) as [[[]|msg] w']; [|reflexivity].
  now destruct (dispatch ev2 w') as [[[]|msg] w''].
Qed.

Lemma handleUserEdit_classify (e : EditEvent) (w : World) :
  1 <= e_row e ->
  handleUserEdit e w
  = dispatchAll (classify (host w) (e_row e) (e_col e)
                   (editedRow w (e_sheet e) (e_row e))) w.
Proof.
  intros Hrow. unfold handleUserEdit, classify.
  destruct (e_row e =? 1) eqn:E1; [reflexivity|].
  unfold getRowValues. replace (e_row e <? 1) with false by lia.
  unfold mbind at 1, M_bind at 1, bind at 1, gets at 1. cbv beta iota zeta.
  unfold mbind at 1, M_bind at 1, bind at 1, gets at 1. cbv beta iota zeta.
  fold (grid w (e_sheet e)). fold (editedRow w (e_sheet e) (e_row e)).
  set (user := normalizeRow (host w) (editedRow w (e_sheet e) (e_row e))).
  assert (Hdet :
    (_ ← (if (e_col e =? 5) && strictEq (active user) (VBool false)
          then processInactiveUser user else ret tt);
     if (e_col e =? 3) && truthy (dateRegistered user)
     then notifyRoleChange user else ret tt) w
    = dispatchAll
        ((if (e_col e =? 5) && strictEq (active user) (VBool false)
          then [Deactivation user] else [])
         ++ (if (e_col e =? 3) && truthy (dateRegistered user)
             then [RoleChange user] else [])) w).
  { destruct ((e_col e =? 5) && strictEq (active user) (VBool false));
      destruct ((e_col e =? 3) && truthy (dateRegistered user)); simpl app.
    - now rewrite dispatchAll_two.
    - rewrite dispatchAll_one. simpl dispatch.
      unfold mbind, M_bind, bind, ret.
      now destruct (processInactiveUser user w) as [[[]|msg] w'].
    - now rewrite dispatchAll_one.
    - reflexivity. }
  destruct ((1 <=? e_col e) && (e_col e <=? 5)); [|exact Hdet].
  destruct (truthy (filaCompleta user) && esNuevo user); [|exact Hdet].
  now rewrite dispatchAll_one.
Qed.

(* ===================================================================== *)
(** ** Strings: [trim] and the e-mail expression                          *)
(* ===================================================================== *)

Lemma append_nil (b : string) : "" +:+ b = b.
Proof. reflexivity. Qed.

Lemma append_cons (c : ascii) (a b : string) : String c a +:+ b = String c (a +:+ b).
Proof. reflexivity. Qed.

(** [String.append] is not unfolded by [simpl]. *)
Ltac unapp := repeat first [rewrite append_nil | rewrite append_cons].
Ltac unapp_in H := repeat first [rewrite append_nil in H | rewrite append_cons in H].

Lemma trimStart_spec (s : string) :
  exists l : string, s = l +:+ trimStart s /\ allSpace l = true /\ headSpace (trimStart s) = false.
Proof.
  induction s as [|c s IH]; simpl.
  - exists "". auto.
  - destruct (isSpace c) eqn:E.
    + destruct IH as (l & Hs & Hl & Hh). exists (String c l). simpl.
      unapp. rewrite E, Hl. split; [now rewrite <- Hs|auto].
    + exists "". simpl. rewrite E. auto.
Qed.

Lemma trimEnd_spec (s : string) :
  exists r : string, s = trimEnd s +:+ r /\ allSpace r = true /\ lastSpace (trimEnd s) = false.
Proof.
  induction s as [|c s IH]; simpl.
  - exists "". auto.
  - destruct IH as (r & Hs & Hr & Hl).
    destruct (trimEnd s) as [|d t] eqn:E.
    + destruct (isSpace c) eqn:Ec.
      * exists (String c r). unapp_in Hs. unapp. simpl. rewrite Ec, Hr.
        split; [congruence|auto].
      * exists r. unapp_in Hs. unapp. simpl. rewrite Ec. split; [congruence|auto].
    + exists r. unapp_in Hs. unapp. split; [congruence|]. split; [exact Hr|exact Hl].
Qed.

Lemma trimEnd_head (s : string) : headSpace s = false -> headSpace (trimEnd s) = false.
Proof.
  destruct s as [|c s]; simpl; [auto|]. intros Hc.
  destruct (trimEnd s); simpl; [|exact Hc]. now rewrite Hc.
Qed.

Lemma append_assoc (a b c : string) : (a +:+ b) +:+ c = a +:+ (b +:+ c).
Proof. induction a as [|x a IH]; unapp; congruence. Qed.

(** [trim] removes the white space at both ends and nothing else. *)
Lemma trim_spec (s : string) : isTrimOf (trim s) s.
Proof.
  unfold isTrimOf, trim.
  destruct (trimStart_spec s) as (l & Hs & Hl & Hh).
  destruct (trimEnd_spec (trimStart s)) as (r & Ht & Hr & Hlast).
  exists l, r. repeat split; auto.
  - rewrite <- Ht. exact Hs.
  - now apply trimEnd_head.
Qed.

(** *** The e-mail expression *)

Lemma allOk_app (a b : string) : allOk (a +:+ b) = allOk a && allOk b.
Proof.
  induction a as [|c a IH]; unapp; simpl; [reflexivity|].
  now rewrite IH, Bool.andb_assoc.
Qed.

Lemma dotInside_spec (s : string) :
  dotInside s = true
  <-> exists b c : string, s = b +:+ "." +:+ c /\ b <> "" /\ c <> "".
Proof.
  induction s as [|x s IH].
  - simpl. split; [discriminate|]. intros (b & c & Hs & Hb & _).
    destruct b; [congruence|]. unapp_in Hs. discriminate.
  - destruct s as [|d rest].
    + simpl. split; [discriminate|]. intros (b & c & Hs & Hb & Hc).
      destruct b as [|y b]; [congruence|]. unapp_in Hs.
      injection Hs as _ Hs. destruct b; unapp_in Hs; discriminate.
    + change (dotInside (String x (String d rest)))
        with ((Ascii.eqb d "." && negb (String.eqb rest "")) || dotInside (String d rest)).
      rewrite Bool.orb_true_iff, Bool.andb_true_iff, Bool.negb_true_iff,
        Ascii.eqb_eq, String.eqb_neq, IH. split.
      * intros [[-> Hrest] | (b & c & Hs & Hb & Hc)].
        -- exists (String x ""), rest. unapp. repeat split; congruence.
        -- exists (String x b), c. unapp. rewrite Hs. unapp. repeat split; congruence.
      * intros (b & c & Hs & Hb & Hc).
        destruct b as [|y b]; [congruence|]. unapp_in Hs. injection Hs as -> Hs.
        destruct b as [|z b].
        -- left. unapp_in Hs. injection Hs as -> ->. auto.
        -- right. unapp_in Hs. exists (String z b), c. unapp. repeat split; congruence.
Qed.

Lemma emailMatch_spec (s : string) (seen : bool) :
  emailMatch seen s = true
  <-> exists a b c : string,
        s = a +:+ "@" +:+ b +:+ "." +:+ c
        /\ (seen = true \/ a <> "") /\ b <> "" /\ c <> ""
        /\ allOk a = true /\ allOk b = true /\ allOk c = true.
Proof.
  revert seen. induction s as [|x s IH]; intros seen; simpl.
  - split; [discriminate|]. intros (a & b & c & Hs & _).
    destruct a; unapp_in Hs; discriminate.
  - destruct (Ascii.eqb x "@") eqn:Ex.
    + apply Ascii.eqb_eq in Ex. subst x.
      rewrite !Bool.andb_true_iff, dotInside_spec. split.
      * intros [[Hseen Hok] (b & c & Hs & Hb & Hc)]. subst s.
        rewrite allOk_app in Hok. unapp_in Hok. simpl in Hok.
        apply Bool.andb_true_iff in Hok as [Hokb Hokc].
        exists "", b, c. unapp. repeat split; auto.
      * intros (a & b & c & Hs & Hseen & Hb & Hc & Ha & Hokb & Hokc).
        destruct a as [|y a].
        -- unapp_in Hs. injection Hs as ->.
           destruct Hseen as [Hseen|Hseen]; [|congruence].
           split; [split; [exact Hseen|]|].
           ++ change (String "." c) with ("." +:+ c).
              rewrite allOk_app, Hokb. unapp. simpl. now rewrite Hokc.
           ++ exists b, c. unapp. auto.
        -- unapp_in Hs. injection Hs as <- _. simpl in Ha. discriminate.
    + destruct (isSpace x) eqn:Esp.
      * split; [discriminate|].
        intros (a & b & c & Hs & _ & _ & _ & Ha & _).
        destruct a as [|y a]; unapp_in Hs; injection Hs as Hx Hs.
        -- subst x. discriminate.
        -- subst y. simpl in Ha. unfold okChar in Ha. rewrite Esp in Ha. discriminate.
      * rewrite IH. split.
        -- intros (a & b & c & Hs & _ & Hb & Hc & Ha & Hokb & Hokc).
           exists (String x a), b, c. unapp. simpl. unfold okChar. rewrite Esp, Ex, Ha. simpl.
           rewrite Hs. unapp.
           repeat split; auto; right; congruence.
        -- intros (a & b & c & Hs & _ & Hb & Hc & Ha & Hokb & Hokc).
           destruct a as [|y a]; unapp_in Hs; injection Hs as Hx Hs.
           ++ subst x. discriminate.
           ++ simpl in Ha. apply Bool.andb_true_iff in Ha as [_ Ha].
              exists a, b, c. unapp. repeat split; auto.
Qed.

(** The test accepts exactly the strings of the shape [local@domain.tld]. *)
Lemma emailRegex_test_spec (s : string) : emailRegex_test s = true <-> EmailShape s.
Proof.
  unfold emailRegex_test, EmailShape. rewrite emailMatch_spec.
  split; intros (a & b & c & Hs & Ha & H); exists a, b, c; (split; [exact Hs|]).
  - destruct Ha as [Ha|Ha]; [discriminate|tauto].
  - tauto.
Qed.

(* ===================================================================== *)
(** ** Cells, sheets and traces of the worlds a run goes through          *)
(* ===================================================================== *)

Lemma length_padTo {A} (n : nat) (d : A) (l : list A) :
  (n <= List.length (padTo n d l))%nat.
Proof. unfold padTo. rewrite length_app, length_replicate. lia. Qed.

Lemma lookup_padTo_row (n j : nat) (r : list value) :
  default (VStr "") (padTo n (VStr "") r !! j) = default (VStr "") (r !! j).
Proof.
  unfold padTo. destruct (decide (j < List.length r)%nat) as [Hlt|Hge].
  - now rewrite lookup_app_l.
  - rewrite lookup_app_r by lia. rewrite (lookup_ge_None_2 r j) by lia.
    destruct (replicate _ _ !! _) eqn:E; [|reflexivity].
    apply lookup_replicate in E as [-> _]. reflexivity.
Qed.

Lemma cellOf_default (g : list (list value)) (i j : nat) :
  cellOf g i j = default (VStr "") (default [] (g !! i) !! j).
Proof.
  unfold cellOf. destruct (g !! i) as [r|]; simpl; [|reflexivity].
  now destruct (r !! j).
Qed.

Lemma lookup_padTo_grid (n i : nat) (g : list (list value)) :
  default [] (padTo n [] g !! i) = default [] (g !! i).
Proof.
  unfold padTo. destruct (decide (i < List.length g)%nat) as [Hlt|Hge].
  - now rewrite lookup_app_l.
  - rewrite lookup_app_r by lia. rewrite (lookup_ge_None_2 g i) by lia.
    destruct (replicate _ _ !! _) eqn:E; [|reflexivity].
    apply lookup_replicate in E as [-> _]. reflexivity.
Qed.

(** The written cell holds the value. *)
Lemma cellOf_setCell_eq (i j : nat) (v : value) (g : list (list value)) :
  cellOf (setCell i j v g) i j = v.
Proof.
  rewrite cellOf_default. unfold setCell.
  rewrite list_lookup_insert_eq by (pose proof (length_padTo (S i) [] g); lia).
  simpl. rewrite list_lookup_insert_eq; [reflexivity|].
  pose proof (length_padTo (S j) (VStr "") (nth i (padTo (S i) [] g) [])). lia.
Qed.

(** Every other cell keeps its content. *)
Lemma cellOf_setCell_ne (i j i' j' : nat) (v : value) (g : list (list value)) :
  (i', j') <> (i, j) -> cellOf (setCell i j v g) i' j' = cellOf g i' j'.
Proof.
  intros Hne. rewrite !cellOf_default. unfold setCell.
  destruct (decide (i' = i)) as [->|Hi].
  - rewrite list_lookup_insert_eq by (pose proof (length_padTo (S i) [] g); lia).
    simpl. rewrite list_lookup_insert_ne by congruence.
    rewrite lookup_padTo_row. rewrite nth_lookup, lookup_padTo_grid. reflexivity.
  - rewrite list_lookup_insert_ne by congruence. now rewrite lookup_padTo_grid.
Qed.

(** *** Sheets *)

Lemma grid_emit (e : Effect) (w : World) (sheet : string) :
  grid (emit e w) sheet = grid w sheet.
Proof. reflexivity. Qed.

Lemma grid_alter_eq (f : list (list value) -> list (list value)) (sheet : string) (w : World) :
  is_Some (sheets w !! sheet) ->
  grid (setSheets (alter f sheet) w) sheet = f (grid w sheet).
Proof.
  intros [g Hg]. unfold grid, setSheets; simpl.
  now rewrite lookup_alter_eq, Hg.
Qed.

Lemma grid_alter_ne (f : list (list value) -> list (list value)) (s s' : string) (w : World) :
  s <> s' -> grid (setSheets (alter f s) w) s' = grid w s'.
Proof.
  intros Hne. unfold grid, setSheets; simpl. now rewrite lookup_alter_ne.
Qed.

Lemma sheets_alter_is_Some (f : list (list value) -> list (list value)) (s s' : string)
    (w : World) :
  is_Some (sheets (setSheets (alter f s) w) !! s') <-> is_Some (sheets w !! s').
Proof.
  unfold setSheets; simpl. destruct (decide (s = s')) as [->|Hne].
  - rewrite lookup_alter_eq. apply fmap_is_Some.
  - now rewrite lookup_alter_ne.
Qed.

Lemma grid_audited_other (ev : AuditEvent) (w : World) (sheet : string) :
  sheet <> "RegistroDeEventos" -> grid (audited ev w) sheet = grid w sheet.
Proof.
  intros Hne. unfold audited. destruct (sheets w !! "RegistroDeEventos"); [|reflexivity].
  rewrite !grid_emit. now apply grid_alter_ne.
Qed.

Lemma grid_audited_log (ev : AuditEvent) (w : World) :
  is_Some (sheets w !! "RegistroDeEventos") ->
  grid (audited ev w) "RegistroDeEventos"
  = (grid w "RegistroDeEventos" ++ [auditRow (now w) ev])%list.
Proof.
  intros Hs. unfold audited. destruct Hs as [g Hg]. rewrite Hg.
  rewrite !grid_emit. rewrite grid_alter_eq by (now exists g). reflexivity.
Qed.

Lemma sheets_notified (subject body : string) (w : World) :
  sheets (notified subject body w) = sheets w.
Proof. unfold notified. now destruct (plainGoes w subject body). Qed.

Lemma sheets_htmlNotified (subject htmlBody : string) (w : World) :
  sheets (htmlNotified subject htmlBody w) = sheets w.
Proof.
  unfold htmlNotified. destruct (htmlGoes _ _ _); [reflexivity|].
  destruct (configOf w) as [config|]; [|reflexivity]. now destruct (notifyFlag w).
Qed.

Lemma sheets_scheduled (title description : string) (s e : number) (w : World) :
  sheets (scheduled title description s e w) = sheets w.
Proof. unfold scheduled. now destruct (bookingOf w title description s e). Qed.

(** *** Traces *)

Lemma visible_app (d1 d2 : list Effect) : visible (d1 ++ d2) = (visible d1 ++ visible d2)%list.
Proof. unfold visible. apply List.filter_app. Qed.

Lemma extends_refl (w : World) : extends w w [].
Proof. exists []. now rewrite app_nil_r. Qed.

Lemma extends_trans (w1 w2 w3 : World) (v1 v2 : list Effect) :
  extends w1 w2 v1 -> extends w2 w3 v2 -> extends w1 w3 (v1 ++ v2).
Proof.
  intros (d1 & H1 & <-) (d2 & H2 & <-). exists (d1 ++ d2)%list.
  now rewrite H2, H1, app_assoc, visible_app.
Qed.

Lemma extends_emit (e : Effect) (w : World) : extends w (emit e w) (visible [e]).
Proof. now exists [e]. Qed.

(** Solves [extends w w' vis] for a [w'] made of [emit]s on [w]. *)
Ltac extends_emits :=
  eexists; split; [simpl; rewrite <- ?app_assoc; reflexivity | reflexivity].

Lemma extends_audited (ev : AuditEvent) (w : World) :
  extends w (audited ev w)
    (if bool_decide (is_Some (sheets w !! "RegistroDeEventos"))
     then [AppendRow "RegistroDeEventos" (auditRow (now w) ev)] else []).
Proof.
  unfold audited. destruct (sheets w !! "RegistroDeEventos") as [g|] eqn:E.
  - rewrite bool_decide_eq_true_2 by (now exists g).
    extends_emits.
  - rewrite bool_decide_eq_false_2 by (intros [? ?]; discriminate).
    extends_emits.
Qed.

Lemma extends_notified (subject body : string) (w : World) :
  extends w (notified subject body w)
    (if plainGoes w subject body then [Sent (plainMail w subject body)] else []).
Proof.
  unfold notified. destruct (plainGoes w subject body).
  - extends_emits.
  - extends_emits.
Qed.

Lemma extends_htmlNotified (subject htmlBody : string) (w : World) :
  extends w (htmlNotified subject htmlBody w)
    (if htmlGoes w subject htmlBody then [Sent (htmlMail w subject htmlBody)] else []).
Proof.
  unfold htmlNotified. destruct (htmlGoes w subject htmlBody).
  - extends_emits.
  - destruct (configOf w) as [config|]; [destruct (notifyFlag w)|].
    + extends_emits.
    + apply extends_refl.
    + extends_emits.
Qed.

Lemma extends_scheduled (title description : string) (s e : number) (w : World) :
  extends w (scheduled title description s e w)
    (match bookingOf w title description s e with Some b => [Created b] | None => [] end).
Proof.
  unfold scheduled. destruct (bookingOf w title description s e).
  - extends_emits.
  - extends_emits.
Qed.

Lemma extends_stampCell (row col : Z) (v : value) (w : World) :
  extends w (stampCell row col v w) [SetValue "Usuarios" row col v].
Proof. extends_emits. Qed.

(* ===================================================================== *)
(** ** The gateway conditions do not depend on the trace or other sheets  *)
(* ===================================================================== *)

Lemma configOf_cong (w1 w2 : World) :
  host w1 = host w2 -> sheets w1 = sheets w2 -> configOf w1 = configOf w2.
Proof. unfold configOf. now intros -> ->. Qed.

Lemma htmlGoes_cong (w1 w2 : World) (subject htmlBody : string) :
  host w1 = host w2 -> configOf w1 = configOf w2 ->
  htmlGoes w1 subject htmlBody = htmlGoes w2 subject htmlBody
  /\ htmlMail w1 subject htmlBody = htmlMail w2 subject htmlBody.
Proof.
  unfold htmlGoes, htmlMail, notifyFlag, notifyAddress. now intros -> ->.
Qed.

Lemma plainGoes_cong (w1 w2 : World) (subject body : string) :
  host w1 = host w2 -> configOf w1 = configOf w2 ->
  plainGoes w1 subject body = plainGoes w2 subject body
  /\ plainMail w1 subject body = plainMail w2 subject body.
Proof.
  unfold plainGoes, plainMail, notifyFlag, notifyAddress. now intros -> ->.
Qed.

Lemma bookingOf_cong (w1 w2 : World) (title description : string) (s e : number) :
  host w1 = host w2 -> configOf w1 = configOf w2 ->
  bookingOf w1 title description s e = bookingOf w2 title description s e.
Proof.
  unfold bookingOf, scheduleFlag, calendarId. now intros -> ->.
Qed.

Lemma configOf_stamped (row : Z) (w : World) : configOf (stamped row w) = configOf w.
Proof. unfold stamped. now rewrite !configOf_stampCell. Qed.

Lemma configOf_htmlNotified (subject htmlBody : string) (w : World) :
  configOf (htmlNotified subject htmlBody w) = configOf w.
Proof.
  apply configOf_cong; [apply host_htmlNotified|apply sheets_htmlNotified].
Qed.

Lemma flagOn_trueLike (v : value) : flagOn v = true <-> trueLike v.
Proof.
  unfold flagOn, trueLike.
  rewrite Bool.negb_true_iff, Bool.andb_false_iff, !Bool.negb_false_iff,
    strictEq_VBool, strictEq_VStr. tauto.
Qed.

Lemma index_editedRow (w : World) (sheet : string) (row : Z) (j : nat) :
  (j < 7)%nat ->
  index (editedRow w sheet row) j = cellOf (grid w sheet) (Z.to_nat (row - 1)) j.
Proof.
  intros Hj. unfold index, editedRow.
  do 7 (destruct j as [|j]; [reflexivity|]). lia.
Qed.

(** Where the local times involved are times the zone has, the meeting is
    on the local day after the run, from 10:00 to 11:00 local time. *)
Lemma onboarding_slot (h : Host) (t : Z) :
  roundTrips h (LocalTime h t + msPerDay) ->
  roundTrips h ((localDay h t + 1) * msPerDay + 10 * (60 * 60 * 1000)) ->
  roundTrips h ((localDay h t + 1) * msPerDay + 11 * (60 * 60 * 1000)) ->
  LocalTime h (onboardingStart h t) = (localDay h t + 1) * msPerDay + 10 * (60 * 60 * 1000)
  /\ LocalTime h (onboardingEnd h t) = (localDay h t + 1) * msPerDay + 11 * (60 * 60 * 1000).
Proof.
  intros H1 H10 H11.
  assert (Hday : msPerDay = 24 * (60 * 60 * 1000)) by reflexivity.
  assert (Hnext : localDay h (Date_addDay h t) = localDay h t + 1).
  { unfold Date_addDay, localDay at 1. rewrite H1. unfold localDay.
    replace (LocalTime h t + msPerDay) with (LocalTime h t + 1 * msPerDay) by lia.
    apply Z.div_add. lia. }
  assert (Hstart : LocalTime h (onboardingStart h t)
                   = (localDay h t + 1) * msPerDay + 10 * (60 * 60 * 1000)).
  { unfold onboardingStart, Date_setHours. rewrite Hnext. exact H10. }
  split; [exact Hstart|].
  unfold onboardingEnd, Date_setHours. unfold localDay at 1. rewrite Hstart.
  replace (((localDay h t + 1) * msPerDay + 10 * (60 * 60 * 1000)) / msPerDay)
    with (localDay h t + 1); [exact H11|].
  apply (Z.div_unique _ _ _ (10 * (60 * 60 * 1000))); lia.
Qed.

(* ===================================================================== *)
(** ** The new-user processor                                             *)
(* ===================================================================== *)

Lemma grid_onboarded (user : User) (row : Z) (w : World) :
  is_Some (sheets w !! "Usuarios") ->
  grid (onboarded user row w) "Usuarios"
  = setCell (Z.to_nat (row - 1)) 6 (VDate (Int (now w)))
      (setCell (Z.to_nat (row - 1)) 5 (VDate (Int (now w))) (grid w "Usuarios")).
Proof.
  intros Hs. unfold onboarded. rewrite grid_emit.
  unfold grid at 1. rewrite sheets_scheduled, sheets_htmlNotified.
  fold (grid (audited (newUserEvent (host w) user) (stamped row w)) "Usuarios").
  rewrite grid_audited_other by discriminate.
  unfold stamped, stampCell. rewrite grid_emit.
  rewrite grid_alter_eq by (simpl; now apply sheets_alter_is_Some).
  rewrite grid_emit, grid_alter_eq by exact Hs. reflexivity.
Qed.

(** Both date cells of the row hold the time of the run afterwards. *)
Lemma onboarded_stamps (user : User) (row : Z) (w : World) :
  is_Some (sheets w !! "Usuarios") ->
  cellOf (grid (onboarded user row w) "Usuarios") (Z.to_nat (row - 1)) 5 = VDate (Int (now w))
  /\ cellOf (grid (onboarded user row w) "Usuarios") (Z.to_nat (row - 1)) 6
     = VDate (Int (now w)).
Proof.
  intros Hs. rewrite grid_onboarded by exact Hs. split.
  - rewrite cellOf_setCell_ne by (intros [=]). apply cellOf_setCell_eq.
  - apply cellOf_setCell_eq.
Qed.

Lemma grid_onboarded_log (user : User) (row : Z) (w : World) :
  is_Some (sheets w !! "RegistroDeEventos") ->
  grid (onboarded user row w) "RegistroDeEventos"
  = (grid w "RegistroDeEventos" ++ [auditRow (now w) (newUserEvent (host w) user)])%list.
Proof.
  intros Hs. unfold onboarded. rewrite grid_emit.
  unfold grid at 1. rewrite sheets_scheduled, sheets_htmlNotified.
  fold (grid (audited (newUserEvent (host w) user) (stamped row w)) "RegistroDeEventos").
  rewrite grid_audited_log.
  - unfold stamped, stampCell. simpl now.
    now rewrite grid_emit, grid_alter_ne, grid_emit, grid_alter_ne by discriminate.
  - unfold stamped, stampCell. simpl.
    now rewrite !lookup_alter_ne by discriminate.
Qed.

Lemma extends_onboarded (user : User) (row : Z) (w : World) :
  extends w (onboarded user row w)
    ([SetValue "Usuarios" row 6 (VDate (Int (now w)));
      SetValue "Usuarios" row 7 (VDate (Int (now w)))]
     ++ (if bool_decide (is_Some (sheets w !! "RegistroDeEventos"))
         then [AppendRow "RegistroDeEventos" (auditRow (now w) (newUserEvent (host w) user))]
         else [])
     ++ (if htmlGoes w welcomeSubject (welcomeHtml (host w) (now w) user)
         then [Sent (htmlMail w welcomeSubject (welcomeHtml (host w) (now w) user))]
         else [])
     ++ (match bookingOf w (onboardingTitle (host w) user)
                   (onboardingDescription (host w) user)
                   (Int (onboardingStart (host w) (now w)))
                   (Int (onboardingEnd (host w) (now w))) with
         | Some b => [Created b]
         | None => []
         end)).
Proof.
  unfold onboarded.
  set (w1 := stamped row w).
  set (w2 := audited (newUserEvent (host w) user) w1).
  set (w3 := htmlNotified welcomeSubject (welcomeHtml (host w) (now w) user) w2).
  assert (H1 : extends w w1 [SetValue "Usuarios" row 6 (VDate (Int (now w)));
                             SetValue "Usuarios" row 7 (VDate (Int (now w)))]).
  { apply (extends_trans _ _ _ [_] [_] (extends_stampCell _ _ _ _)).
    apply extends_stampCell. }
  assert (Hc2 : configOf w2 = configOf w).
  { unfold w2, w1. now rewrite configOf_audited, configOf_stamped. }
  assert (Hh2 : host w2 = host w).
  { unfold w2, w1. now rewrite host_audited. }
  assert (H2 : extends w1 w2
                 (if bool_decide (is_Some (sheets w !! "RegistroDeEventos"))
                  then [AppendRow "RegistroDeEventos"
                          (auditRow (now w) (newUserEvent (host w) user))]
                  else [])).
  { pose proof (extends_audited (newUserEvent (host w) user) w1) as H.
    replace (bool_decide (is_Some (sheets w1 !! "RegistroDeEventos")))
      with (bool_decide (is_Some (sheets w !! "RegistroDeEventos"))) in H; [exact H|].
    unfold w1, stamped, stampCell. simpl.
    now rewrite !lookup_alter_ne by discriminate. }
  assert (H3 : extends w2 w3
                 (if htmlGoes w welcomeSubject (welcomeHtml (host w) (now w) user)
                  then [Sent (htmlMail w welcomeSubject (welcomeHtml (host w) (now w) user))]
                  else [])).
  { pose proof (extends_htmlNotified welcomeSubject (welcomeHtml (host w) (now w) user) w2) as H.
    destruct (htmlGoes_cong w2 w welcomeSubject (welcomeHtml (host w) (now w) user) Hh2 Hc2)
      as [-> ->] in H.
    exact H. }
  assert (H4 : extends w3
                 (scheduled (onboardingTitle (host w) user)
                    (onboardingDescription (host w) user)
                    (Int (onboardingStart (host w) (now w)))
                    (Int (onboardingEnd (host w) (now w))) w3)
                 (match bookingOf w (onboardingTitle (host w) user)
                          (onboardingDescription (host w) user)
                          (Int (onboardingStart (host w) (now w)))
                          (Int (onboardingEnd (host w) (now w))) with
                  | Some b => [Created b]
                  | None => []
                  end)).
  { rewrite <- (bookingOf_cong w3 w).
    - apply extends_scheduled.
    - unfold w3. now rewrite host_htmlNotified.
    - unfold w3. now rewrite configOf_htmlNotified. }
  pose proof (extends_trans _ _ _ _ _ H1
                (extends_trans _ _ _ _ _ H2 (extends_trans _ _ _ _ _ H3 H4))) as H.
  pose proof (extends_trans _ _ _ _ _ H
                (extends_emit (Logged ("Nuevo usuario procesado: "
                                       +:+ toString (host w) (name user))) _)) as H'.
  simpl visible in H'. rewrite app_nil_r in H'. exact H'.
Qed.

(** The audit record of [processNewUser], cell by cell. *)
Lemma newUser_record (h : Host) (t : Z) (user : User) :
  auditRow t (newUserEvent h user)
  = [VDate (Int t); VStr "USUARIO_AGREGADO"; jsOr (name user) (VStr "Sistema");
     VStr ("Rol: " +:+ toString h (role user) +:+ ", Grupo: " +:+ toString h (group user));
     VStr "OK"; VStr "Email y evento creados"].
Proof. reflexivity. Qed.

(** C7.  On an existing sheet of users, [processNewUser] returns normally
    and does, in this order: the write of the registration date (column
    6), the write of the last access (column 7), the append of the audit
    row, the welcome mail, the booking of the onboarding meeting.  The
    audit row holds the time of the run, the type USUARIO_AGREGADO, the
    name of the user (['Sistema'] for a user without one), role and group
    as details, the status OK and the action ['Email y evento creados'].
    The mail is sent when the mail gateway lets it through, the meeting is
    booked when the calendar gateway does: whether the meeting is booked
    does not depend on the mail, so a mail gateway that fails or refuses
    leaves the booking in place.  Afterwards both date cells hold the time
    of the run and the audit row is in the log, whatever the gateways did.
    The meeting is on the next local day from 10:00 to 11:00 local time,
    in a zone with daylight saving too, provided the three local times the
    script passes through (the time of the run one day on, and 10:00 and
    11:00 of the next day) are times the zone has. *)
Theorem new_user_processor_order (user : User) (row : Z) (w : World) :
  is_Some (sheets w !! "Usuarios") -> 1 <= row ->
  let h := host w in
  let t := now w in
  let html := welcomeHtml h t user in
  let record :=
    [VDate (Int t); VStr "USUARIO_AGREGADO"; jsOr (name user) (VStr "Sistema");
     VStr ("Rol: " +:+ toString h (role user) +:+ ", Grupo: " +:+ toString h (group user));
     VStr "OK"; VStr "Email y evento creados"] in
  let booking := bookingOf w (onboardingTitle h user) (onboardingDescription h user)
                   (Int (onboardingStart h t)) (Int (onboardingEnd h t)) in
  exists w' : World,
    processNewUser user row w = (Ok tt, w')
    /\ extends w w'
         ([SetValue "Usuarios" row 6 (VDate (Int t));
           SetValue "Usuarios" row 7 (VDate (Int t))]
          ++ (if bool_decide (is_Some (sheets w !! "RegistroDeEventos"))
              then [AppendRow "RegistroDeEventos" record]
              else [])
          ++ (if htmlGoes w welcomeSubject html
              then [Sent (htmlMail w welcomeSubject html)] else [])
          ++ (match booking with Some b => [Created b] | None => [] end))
    /\ (forall b, booking = Some b -> In (Created b) (trace w'))
    /\ cellOf (grid w' "Usuarios") (Z.to_nat (row - 1)) 5 = VDate (Int t)
    /\ cellOf (grid w' "Usuarios") (Z.to_nat (row - 1)) 6 = VDate (Int t)
    /\ (is_Some (sheets w !! "RegistroDeEventos") ->
        grid w' "RegistroDeEventos" = (grid w "RegistroDeEventos" ++ [record])%list)
    /\ (roundTrips h (LocalTime h t + msPerDay) ->
        roundTrips h ((localDay h t + 1) * msPerDay + 10 * (60 * 60 * 1000)) ->
        roundTrips h ((localDay h t + 1) * msPerDay + 11 * (60 * 60 * 1000)) ->
        LocalTime h (onboardingStart h t)
        = (localDay h t + 1) * msPerDay + 10 * (60 * 60 * 1000)
        /\ LocalTime h (onboardingEnd h t)
           = (localDay h t + 1) * msPerDay + 11 * (60 * 60 * 1000)).
Proof.
  intros Hs Hrow h t html record booking. exists (onboarded user row w).
  assert (Hrec : auditRow t (newUserEvent h user) = record) by apply newUser_record.
  split; [now apply processNewUser_eq|].
  split; [rewrite <- Hrec; apply extends_onboarded|].
  split.
  { intros b Hb. destruct (extends_onboarded user row w) as (d & Hd & Hv).
    rewrite Hd. apply in_or_app. right.
    assert (Hin : In (Created b) (visible d)).
    { rewrite Hv. fold h t. fold booking. rewrite Hb.
      apply in_or_app; right. apply in_or_app; right. apply in_or_app; right.
      now left. }
    unfold visible in Hin. now apply List.filter_In in Hin as [Hin _]. }
  destruct (onboarded_stamps user row w Hs) as [H5 H6].
  split; [exact H5|]. split; [exact H6|].
  split; [rewrite <- Hrec; now apply grid_onboarded_log|].
  apply onboarding_slot.
Qed.

(* ===================================================================== *)
(** ** The gateways                                                       *)
(* ===================================================================== *)

Lemma notifyFlag_spec (w : World) :
  notifyFlag w = true
  <-> exists config, configOf w = Some config /\ trueLike (cfg_get config "notificarAdmins").
Proof.
  unfold notifyFlag. destruct (configOf w) as [config|].
  - rewrite flagOn_trueLike. split; [eauto|]. now intros (c & [= ->] & H).
  - split; [discriminate|]. now intros (c & [=] & _).
Qed.

Lemma scheduleFlag_spec (w : World) :
  scheduleFlag w = true
  <-> exists config, configOf w = Some config
                     /\ trueLike (cfg_get config "crearEventoCalendar").
Proof.
  unfold scheduleFlag. destruct (configOf w) as [config|].
  - rewrite flagOn_trueLike. split; [eauto|]. now intros (c & [= ->] & H).
  - split; [discriminate|]. now intros (c & [=] & _).
Qed.

Lemma not_throws {A} (o : option A) : negb (bool_decide (is_Some o)) = true <-> o = None.
Proof.
  destruct o; simpl; split; intros; (discriminate || reflexivity).
Qed.

Lemma plainGoes_spec (w : World) (subject body : string) :
  plainGoes w subject body = true
  <-> exists config,
        configOf w = Some config
        /\ trueLike (cfg_get config "notificarAdmins")
        /\ EmailShape (toString (host w) (cfg_get config "emailNotificacion"))
        /\ GmailApp_throws (host w)
             (mkMail (cfg_get config "emailNotificacion") subject body None) = None.
Proof.
  unfold plainGoes. rewrite !Bool.andb_true_iff, notifyFlag_spec, emailRegex_test_spec,
    not_throws. unfold plainMail, notifyAddress.
  split.
  - intros [[(config & Hc & Hf) He] Ht]. rewrite Hc in He, Ht. eauto.
  - intros (config & Hc & Hf & He & Ht). rewrite Hc. eauto.
Qed.

Lemma htmlGoes_spec (w : World) (subject htmlBody : string) :
  htmlGoes w subject htmlBody = true
  <-> exists config,
        configOf w = Some config
        /\ trueLike (cfg_get config "notificarAdmins")
        /\ GmailApp_throws (host w)
             (mkMail (cfg_get config "emailNotificacion") subject "" (Some htmlBody)) = None.
Proof.
  unfold htmlGoes. rewrite !Bool.andb_true_iff, notifyFlag_spec, not_throws.
  unfold htmlMail, notifyAddress.
  split.
  - intros [(config & Hc & Hf) Ht]. rewrite Hc in Ht. eauto.
  - intros (config & Hc & Hf & Ht). rewrite Hc. eauto.
Qed.

Lemma bookingOf_spec (w : World) (title description : string) (s e : number) (b : Booking) :
  bookingOf w title description s e = Some b
  <-> exists config c,
        configOf w = Some config
        /\ trueLike (cfg_get config "crearEventoCalendar")
        /\ CalendarApp_getCalendarById (host w) (cfg_get config "calendarioId") = CalFound c
        /\ b = mkBooking c title s e description
        /\ createEvent_throws (host w) b = None.
Proof.
  unfold bookingOf. destruct (scheduleFlag w) eqn:Ef.
  - apply scheduleFlag_spec in Ef as (config & Hc & Hf).
    unfold calendarId. rewrite Hc.
    destruct (CalendarApp_getCalendarById (host w) (cfg_get config "calendarioId"))
      as [|c|msg] eqn:Ecal.
    + split; [discriminate|]. intros (c' & x & [= <-] & _ & Hx & _). congruence.
    + destruct (createEvent_throws (host w) _) eqn:Et.
      * split; [discriminate|].
        intros (c' & x & [= <-] & _ & Hx & -> & Hthrow). congruence.
      * split.
        -- intros [= <-]. exists config, c. auto.
        -- intros (c' & x & [= <-] & _ & Hx & -> & Hthrow). congruence.
    + split; [discriminate|]. intros (c' & x & [= <-] & _ & Hx & _). congruence.
  - split; [discriminate|]. intros (config & c & Hc & Hf & _).
    assert (scheduleFlag w = true) by (apply scheduleFlag_spec; eauto). congruence.
Qed.

(** C8.  Each of the three gateway operations returns a boolean and never
    throws.  [sendNotification] returns [true] exactly when the
    configuration can be read, [notificarAdmins] is [true] or ['TRUE'], the
    configured address has the shape [local@domain.tld] and
    [GmailApp.sendEmail] does not throw; [sendHtmlNotification] the same
    without the test of the address; [createCalendarEvent] exactly when the
    configuration can be read, [crearEventoCalendar] is [true] or ['TRUE'],
    the calendar is found and [createEvent] does not throw.  The mail is
    sent, or the event created, exactly when the result is [true]; a [false]
    result leaves nothing behind but a logger line. *)
Theorem gateways_return_booleans (w : World) (subject body htmlBody title description : string)
    (startTime endTime : number) :
  (exists (b : bool) (w' : World),
     sendNotification subject body w = (Ok b, w')
     /\ (b = true
         <-> exists config,
               configOf w = Some config
               /\ trueLike (cfg_get config "notificarAdmins")
               /\ EmailShape (toString (host w) (cfg_get config "emailNotificacion"))
               /\ GmailApp_throws (host w)
                    (mkMail (cfg_get config "emailNotificacion") subject body None) = None)
     /\ extends w w' (if b then [Sent (plainMail w subject body)] else [])
     /\ sheets w' = sheets w)
  /\ (exists (b : bool) (w' : World),
        sendHtmlNotification subject htmlBody w = (Ok b, w')
        /\ (b = true
            <-> exists config,
                  configOf w = Some config
                  /\ trueLike (cfg_get config "notificarAdmins")
                  /\ GmailApp_throws (host w)
                       (mkMail (cfg_get config "emailNotificacion") subject ""
                          (Some htmlBody)) = None)
        /\ extends w w' (if b then [Sent (htmlMail w subject htmlBody)] else [])
        /\ sheets w' = sheets w)
  /\ (exists (b : bool) (w' : World),
        createCalendarEvent title description startTime endTime w = (Ok b, w')
        /\ (b = true
            <-> exists config c,
                  configOf w = Some config
                  /\ trueLike (cfg_get config "crearEventoCalendar")
                  /\ CalendarApp_getCalendarById (host w) (cfg_get config "calendarioId")
                     = CalFound c
                  /\ createEvent_throws (host w)
                       (mkBooking c title startTime endTime description) = None)
        /\ extends w w'
             (match bookingOf w title description startTime endTime with
              | Some booking => [Created booking]
              | None => []
              end)
        /\ (b = true <-> is_Some (bookingOf w title description startTime endTime))
        /\ sheets w' = sheets w).
Proof.
  split; [|split].
  - exists (plainGoes w subject body), (notified subject body w).
    split; [apply sendNotification_eq|]. split; [apply plainGoes_spec|].
    split; [apply extends_notified|apply sheets_notified].
  - exists (htmlGoes w subject htmlBody), (htmlNotified subject htmlBody w).
    split; [apply sendHtmlNotification_eq|]. split; [apply htmlGoes_spec|].
    split; [apply extends_htmlNotified|apply sheets_htmlNotified].
  - exists (bool_decide (is_Some (bookingOf w title description startTime endTime))),
      (scheduled title description startTime endTime w).
    split; [apply createCalendarEvent_eq|].
    pose proof (extends_scheduled title description startTime endTime w) as Hext.
    pose proof (bookingOf_spec w title description startTime endTime) as Hspec.
    destruct (bookingOf w title description startTime endTime) as [b|] eqn:Eb.
    + rewrite bool_decide_eq_true_2 by eauto.
      destruct (proj1 (Hspec b) eq_refl) as (config & c & Hc & Hf & Hcal & -> & Ht).
      split; [|split; [exact Hext|split; [split; eauto|apply sheets_scheduled]]].
      split; [intros _; exists config, c; auto|reflexivity].
    + rewrite bool_decide_eq_false_2 by (intros [? ?]; discriminate).
      split; [|split; [exact Hext|split; [|apply sheets_scheduled]]];
        [|split; [discriminate|intros [? ?]; discriminate]].
      split; [discriminate|].
      intros (config & c & Hc & Hf & Hcal & Ht).
      assert (None = Some (mkBooking c title startTime endTime description)) as [=].
      apply Hspec. exists config, c. auto.
Qed.

(* ===================================================================== *)
(** ** The classifier: new users, deactivations, role changes             *)
(* ===================================================================== *)

(** With a date of registration in column F, no edit is a new user. *)
Lemma registered_never_new (h : Host) (row col : Z) (userData : Row) (ev : Event) :
  truthy (index userData 5) = true ->
  In ev (classify h row col userData) -> isNewUser ev = false.
Proof.
  intros Hd. unfold classify.
  rewrite esNuevo_absent, Hd, Bool.andb_false_r.
  destruct (row =? 1); [simpl; tauto|].
  assert (Hdet : forall l1 l2 : list Event,
             (forall e, In e l1 -> isNewUser e = false) ->
             (forall e, In e l2 -> isNewUser e = false) ->
             In ev (l1 ++ l2) -> isNewUser ev = false).
  { intros l1 l2 H1 H2 Hin. apply in_app_or in Hin as [Hin|Hin]; auto. }
  destruct ((1 <=? col) && (col <=? 5)); apply Hdet;
    intros e; repeat match goal with |- context [if ?c then _ else _] => destruct c end;
    simpl; intuition (subst; reflexivity).
Qed.

(** C1.  For an edit of a row below the header in one of the columns 1 to
    5, the classifier yields a NewUser event exactly when name, email, role
    and group of the normalized row are non-empty and the row has no date
    of registration; it is then the only event, whichever of the five
    columns was edited.  A row with a date of registration never yields
    NewUser, whatever its other cells hold, and after [processNewUser] ran
    for the row its date of registration is the time of that run.
    [handleUserEdit] runs the processors of exactly the events of the
    classifier. *)
Theorem new_user_iff_complete_and_unregistered (h : Host) (row col : Z) (userData : Row) :
  1 < row -> 1 <= col <= 5 ->
  let user := normalizeRow h userData in
  ((exists u r, In (NewUser u r) (classify h row col userData))
   <-> complete user /\ dateRegistered user = VNull)
  /\ (complete user /\ dateRegistered user = VNull ->
      classify h row col userData = [NewUser user row])
  /\ (forall (userData' : Row) (col' : Z) (ev : Event),
        truthy (index userData' 5) = true ->
        In ev (classify h row col' userData') -> isNewUser ev = false)
  /\ (forall (w w' : World) (u : User),
        is_Some (sheets w !! "Usuarios") ->
        processNewUser u row w = (Ok tt, w') ->
        index (editedRow w' "Usuarios" row) 5 = VDate (Int (now w)))
  /\ (forall (w : World) (e : EditEvent),
        e_row e = row ->
        handleUserEdit e w
        = dispatchAll (classify (host w) row (e_col e) (editedRow w (e_sheet e) row)) w).
Proof.
  intros Hrow Hcol user.
  assert (Hnew : complete user /\ dateRegistered user = VNull ->
                 classify h row col userData = [NewUser user row]).
  { intros Hc. apply new_user_test in Hc. unfold classify.
    replace (row =? 1) with false by lia.
    replace ((1 <=? col) && (col <=? 5)) with true by lia.
    fold user. fold user in Hc. now rewrite Hc. }
  split; [split|split; [exact Hnew|split; [|split]]].
  - intros (u & r & Hin).
    destruct (truthy (filaCompleta user) && esNuevo user) eqn:E.
    + now apply new_user_test.
    + exfalso. unfold classify in Hin.
      replace (row =? 1) with false in Hin by lia.
      replace ((1 <=? col) && (col <=? 5)) with true in Hin by lia.
      fold user in Hin. rewrite E in Hin.
      apply in_app_or in Hin as [Hin|Hin];
        match type of Hin with context [if ?c then _ else _] => destruct c end;
        simpl in Hin; intuition discriminate.
  - intros Hc. rewrite (Hnew Hc). exists user, row. now left.
  - intros userData' col' ev. apply registered_never_new.
  - intros w w' u Hs Hrun.
    rewrite processNewUser_eq in Hrun by (exact Hs || lia).
    injection Hrun as <-.
    rewrite index_editedRow by lia. now apply onboarded_stamps.
  - intros w e <-. apply handleUserEdit_classify. lia.
Qed.

(** C3, where the code departs from the claim.  An edit that sets the
    Active cell (column 5) of a row to [false] while the row has no date of
    registration and is not complete is classified as a Deactivation: the
    test of column 5 does not look at the date of registration. *)
Theorem deactivation_without_registration :
  classify Scenario.host0 2 5 Scenario.draftRow
  = [Deactivation (normalizeRow Scenario.host0 Scenario.draftRow)]
  /\ dateRegistered (normalizeRow Scenario.host0 Scenario.draftRow) = VNull
  /\ visible (trace (snd (onEdit (mkEditEvent "Usuarios" 2 5)
                            (Scenario.worldOf Scenario.host0 Scenario.draft))))
     = [ AppendRow "RegistroDeEventos"
           [VDate (Int Scenario.t0); VStr "USUARIO_INACTIVO"; VStr "Ana";
            VStr "Usuario desactivado"; VStr "ALERTA"; VStr "Email enviado"];
         Sent (mkMail (VStr "admin@empresa.com") "Usuario inactivo detectado"
                 (template
                    ["El usuario Ana () del grupo  fue marcado como inactivo.";
                     "";
                     "Fecha: local 1728054000000";
                     "";
                     "Sistema de Gestión Workspace - Turing IA"])
                 None) ].
Proof. repeat split; vm_compute; reflexivity. Qed.

(** C6.  An edit of the Role cell (column 3) of a row below the header that
    has a date of registration is classified as exactly one RoleChange
    event.  Its processor returns normally, appends one ROL_MODIFICADO audit
    record whose status is WARNING when the role is ["Admin"] and OK
    otherwise, and sends the plain-text alert exactly when the role is
    ["Admin"] and the mail gateway lets it through; for any other role no
    mail is sent.  This is what [handleUserEdit] does for such an edit. *)
Theorem role_change_classified_and_processed (row : Z) (userData : Row) (w : World) :
  1 < row -> truthy (index userData 5) = true ->
  let h := host w in
  let user := normalizeRow h userData in
  let record := auditRow (now w) (roleChangeEvent h user) in
  classify h row 3 userData = [RoleChange user]
  /\ index record 1 = VStr "ROL_MODIFICADO"
  /\ (index record 4 = VStr "WARNING" <-> role user = VStr "Admin")
  /\ (index record 4 = VStr "OK" <-> role user <> VStr "Admin")
  /\ exists (w' : World) (body : string),
       dispatch (RoleChange user) w = (Ok tt, w')
       /\ extends w w'
            ((if bool_decide (is_Some (sheets w !! "RegistroDeEventos"))
              then [AppendRow "RegistroDeEventos" record] else [])
             ++ (if bool_decide (role user = VStr "Admin")
                    && plainGoes w adminAlertSubject body
                 then [Sent (plainMail w adminAlertSubject body)] else []))
       /\ (forall e : EditEvent,
             e_row e = row -> e_col e = 3 -> editedRow w (e_sheet e) row = userData ->
             handleUserEdit e w = (Ok tt, w')).
Proof.
  intros Hrow Hd h user record.
  assert (Hclass : classify h row 3 userData = [RoleChange user]).
  { unfold classify. replace (row =? 1) with false by lia.
    rewrite esNuevo_absent, Hd, Bool.andb_false_r, dateRegistered_present, Hd.
    reflexivity. }
  split.
  { unfold classify. replace (row =? 1) with false by lia.
    rewrite esNuevo_absent, Hd, Bool.andb_false_r, dateRegistered_present, Hd.
    reflexivity. }
  split; [reflexivity|].
  assert (Hstatus : index record 4
                    = if strictEq (role user) (VStr "Admin")
                      then VStr "WARNING" else VStr "OK").
  { unfold record, auditRow, roleChangeEvent, index. cbn [nth ev_status].
    destruct (strictEq (role user) (VStr "Admin")); reflexivity. }
  pose proof (strictEq_VStr (role user) "Admin") as Hadmin.
  split; [|split].
  - rewrite Hstatus. destruct (strictEq (role user) (VStr "Admin")).
    + intuition.
    + split; [discriminate|]. intros E. apply Hadmin in E. discriminate.
  - rewrite Hstatus. destruct (strictEq (role user) (VStr "Admin")).
    + split; [discriminate|]. intros E. destruct E. now apply Hadmin.
    + split; [|reflexivity]. intros _ E. apply Hadmin in E. discriminate.
  - destruct (notifyRoleChange_eq user w) as (body & Hrun).
    eexists. exists body. split; [exact Hrun|].
    split.
    2:{ intros e He Hc Hdata. rewrite handleUserEdit_classify by lia.
        rewrite He, Hc, Hdata. fold h. rewrite Hclass, dispatchAll_one. exact Hrun. }
    fold h. destruct (strictEq (role user) (VStr "Admin")) eqn:E.
    + rewrite (bool_decide_eq_true_2 (role user = VStr "Admin")) by (now apply Hadmin).
      simpl andb.
      apply (extends_trans _ _ _ _ _ (extends_audited _ _)).
      pose proof (extends_notified adminAlertSubject body
                    (audited (roleChangeEvent h user) w)) as H.
      destruct (plainGoes_cong (audited (roleChangeEvent h user) w) w adminAlertSubject body)
        as [-> ->] in H; [apply host_audited|apply configOf_audited|exact H].
    + rewrite (bool_decide_eq_false_2 (role user = VStr "Admin"))
        by (intros E'; apply Hadmin in E'; congruence).
      simpl. rewrite app_nil_r. apply extends_audited.
Qed.

(* ===================================================================== *)
(** ** Normalization of the row snapshot                                  *)
(* ===================================================================== *)

(** C9, as stated, fails: an Active cell holding the string ["True"] is a
    case variant of ["true"], and the classifier normalizes it to [false]. *)
Lemma mixed_case_true_not_active :
  index Scenario.mixedCaseRow 4 = VStr "True"
  /\ active (normalizeRow Scenario.host0 Scenario.mixedCaseRow) <> VBool true
  /\ active (userOfRow Scenario.mixedCaseRow) <> VBool true.
Proof. repeat split; vm_compute; discriminate. Qed.

Lemma cleanString_VStr (h : Host) (s : string) : cleanString h (VStr s) = trim s.
Proof.
  unfold cleanString. simpl. destruct (String.eqb_spec s ""); [now subst|reflexivity].
Qed.

(** C9, amended.  The classifier's snapshot has [active] true exactly when
    the Active cell is the boolean [true], the string ["TRUE"] or the
    string ["true"]; every other content, other spellings such as ["True"]
    included, gives [false].  A basic field held as a string is that string
    without its leading and trailing white space, an empty cell is the empty
    string, and a date cell that is empty (or otherwise falsy) is [null]
    while any other content is kept.  The registry reader [getUsers] has
    [active] true exactly for the boolean [true] and the string ["TRUE"]. *)
Theorem row_normalization (h : Host) (userData : Row) :
  let user := normalizeRow h userData in
  let cell := index userData in
  (active user = VBool true
   <-> cell 4%nat = VBool true \/ cell 4%nat = VStr "TRUE" \/ cell 4%nat = VStr "true")
  /\ (active user <> VBool true -> active user = VBool false)
  /\ (forall s, cell 0%nat = VStr s -> name user = VStr (trim s))
  /\ (forall s, cell 1%nat = VStr s -> email user = VStr (trim s))
  /\ (forall s, cell 2%nat = VStr s -> role user = VStr (trim s))
  /\ (forall s, cell 3%nat = VStr s -> group user = VStr (trim s))
  /\ (forall s, isTrimOf (trim s) s)
  /\ trim "" = ""
  /\ dateRegistered user = (if truthy (cell 5%nat) then cell 5%nat else VNull)
  /\ lastAccess user = (if truthy (cell 6%nat) then cell 6%nat else VNull)
  /\ truthy (VStr "") = false
  /\ (active (userOfRow userData) = VBool true
      <-> cell 4%nat = VBool true \/ cell 4%nat = VStr "TRUE").
Proof.
  intros user cell.
  pose proof (strictEq_VBool (cell 4%nat) true) as Hb.
  pose proof (strictEq_VStr (cell 4%nat) "TRUE") as Hu.
  pose proof (strictEq_VStr (cell 4%nat) "true") as Hl.
  unfold cell in *.
  split.
  { unfold user, normalizeRow; simpl active.
    destruct (strictEq (index userData 4) (VBool true));
      destruct (strictEq (index userData 4) (VStr "TRUE"));
      destruct (strictEq (index userData 4) (VStr "true")); simpl;
      intuition (try congruence; try discriminate). }
  split.
  { unfold user, normalizeRow; simpl active.
    destruct (_ || _); [congruence|reflexivity]. }
  repeat split;
    try (intros s Hs; unfold user, normalizeRow; simpl; now rewrite Hs, cleanString_VStr);
    try apply trim_spec.
  - unfold userOfRow; simpl active.
    intros [= E]. apply Bool.orb_true_iff in E as [E|E]; [left; now apply Hb|right; now apply Hu].
  - unfold userOfRow; simpl active. intros [E|E]; rewrite E; reflexivity.
Qed.

(* ===================================================================== *)
(** ** The edit claims at concrete rows                                   *)
(* ===================================================================== *)

(** A complete, unregistered row, last edited in column 4. *)
Lemma new_user_iff_witness :
  1 < 2 /\ 1 <= 4 <= 5
  /\ classify Scenario.host0 2 4 Scenario.freshRow
     = [NewUser (normalizeRow Scenario.host0 Scenario.freshRow) 2].
Proof.
  assert (H1 : 1 < 2) by lia. assert (H2 : 1 <= 4 <= 5) by lia.
  split; [exact H1|split; [exact H2|]].
  destruct (new_user_iff_complete_and_unregistered
              Scenario.host0 2 4 Scenario.freshRow H1 H2) as (_ & Hnew & _).
  apply Hnew. split; [|reflexivity].
  repeat split; vm_compute; discriminate.
Defined.

(** The role of a registered user is set to Admin. *)
Lemma role_change_witness :
  1 < 2
  /\ truthy (index (Scenario.memberRow (VStr "Admin") (VBool true)) 5) = true
  /\ classify Scenario.host0 2 3 (Scenario.memberRow (VStr "Admin") (VBool true))
     = [RoleChange (normalizeRow Scenario.host0
                      (Scenario.memberRow (VStr "Admin") (VBool true)))].
Proof.
  assert (H1 : 1 < 2) by lia.
  assert (H2 : truthy (index (Scenario.memberRow (VStr "Admin") (VBool true)) 5) = true)
    by reflexivity.
  split; [exact H1|split; [exact H2|]].
  exact (proj1 (role_change_classified_and_processed 2
                  (Scenario.memberRow (VStr "Admin") (VBool true))
                  (Scenario.worldOf Scenario.host0
                     [Scenario.usersHeader;
                      Scenario.memberRow (VStr "Admin") (VBool true)])
                  H1 H2)).
Defined.

(** The processor runs for the complete row of the sheet [Scenario.fresh],
    in a zone with a fixed offset: the meeting starts at 10:00 local time
    of the next local day. *)
Lemma new_user_processor_witness :
  is_Some (sheets (Scenario.worldOf Scenario.host0 Scenario.fresh) !! "Usuarios")
  /\ 1 <= 2
  /\ exists w' : World,
       processNewUser (normalizeRow Scenario.host0 Scenario.freshRow) 2
         (Scenario.worldOf Scenario.host0 Scenario.fresh) = (Ok tt, w')
       /\ LocalTime Scenario.host0 (onboardingStart Scenario.host0 Scenario.t0)
          = (localDay Scenario.host0 Scenario.t0 + 1) * msPerDay + 10 * (60 * 60 * 1000).
Proof.
  assert (H1 : is_Some (sheets (Scenario.worldOf Scenario.host0 Scenario.fresh)
                        !! "Usuarios")).
  { exists Scenario.fresh. reflexivity. }
  assert (H2 : 1 <= 2) by lia.
  assert (H3 : forall x : Z, roundTrips Scenario.host0 x).
  { intros x. unfold roundTrips, LocalTime, UTC. simpl. lia. }
  split; [exact H1|split; [exact H2|]].
  destruct (new_user_processor_order
              (normalizeRow Scenario.host0 Scenario.freshRow) 2
              (Scenario.worldOf Scenario.host0 Scenario.fresh) H1 H2)
    as (w' & Hrun & _ & _ & _ & _ & _ & Hslot).
  exists w'. split; [exact Hrun|].
  exact (proj1 (Hslot (H3 _) (H3 _) (H3 _))).
Defined.

(** The mail service is down: the welcome mail is not sent, the two stamps
    and the audit row are written, and the meeting is booked all the same,
    for the next local day at 10:00 (16:00 UTC). *)
Example new_user_mail_down :
  fst (processNewUser (normalizeRow Scenario.hostMailDown Scenario.freshRow) 2
         (Scenario.freshWorld Scenario.hostMailDown)) = Ok tt
  /\ mailsOf (trace (snd (processNewUser
                            (normalizeRow Scenario.hostMailDown Scenario.freshRow) 2
                            (Scenario.freshWorld Scenario.hostMailDown)))) = []
  /\ map (fun e => match e with
                   | SetValue _ r c _ => Some (r, c)
                   | _ => None
                   end)
         (visible (trace (snd (processNewUser
                                 (normalizeRow Scenario.hostMailDown Scenario.freshRow) 2
                                 (Scenario.freshWorld Scenario.hostMailDown)))))
     = [Some (2, 6); Some (2, 7); None; None]
  /\ List.filter isCreated
       (trace (snd (processNewUser
                      (normalizeRow Scenario.hostMailDown Scenario.freshRow) 2
                      (Scenario.freshWorld Scenario.hostMailDown))))
     = [Created
          (mkBooking "primary" "Onboarding: Ana López"
             (Int (20001 * Scenario.day + 16 * (60 * 60 * 1000)))
             (Int (20001 * Scenario.day + 17 * (60 * 60 * 1000)))
             (onboardingDescription Scenario.hostMailDown
                (normalizeRow Scenario.hostMailDown Scenario.freshRow)))].
Proof. repeat split; vm_compute; reflexivity. Qed.

(* ===================================================================== *)
(** ** The sweep as a function of the world                               *)
(* ===================================================================== *)

Lemma sameSetting_refl (w : World) : sameSetting w w.
Proof. unfold sameSetting. tauto. Qed.

Lemma sameSetting_trans (w1 w2 w3 : World) :
  sameSetting w1 w2 -> sameSetting w2 w3 -> sameSetting w1 w3.
Proof.
  intros (Hh & Hn & Hc & Hs) (Hh' & Hn' & Hc' & Hs').
  repeat split; try congruence; intros H; [apply Hs, Hs'|apply Hs', Hs]; exact H.
Qed.

Lemma sameSetting_emit (e : Effect) (w : World) : sameSetting w (emit e w).
Proof. unfold sameSetting. simpl. tauto. Qed.

Lemma sameSetting_stampCell (row col : Z) (v : value) (w : World) :
  sameSetting w (stampCell row col v w).
Proof.
  repeat split; try reflexivity.
  - apply configOf_stampCell.
  - unfold stampCell; simpl. intros H. now apply sheets_alter_is_Some in H.
  - unfold stampCell; simpl. intros H. now apply sheets_alter_is_Some.
Qed.

Lemma sameSetting_audited (ev : AuditEvent) (w : World) : sameSetting w (audited ev w).
Proof.
  repeat split.
  - apply host_audited.
  - apply now_audited.
  - apply configOf_audited.
  - unfold audited. destruct (sheets w !! "RegistroDeEventos"); [|tauto].
    simpl. intros H. now apply sheets_alter_is_Some in H.
  - unfold audited. destruct (sheets w !! "RegistroDeEventos"); [|tauto].
    simpl. intros H. now apply sheets_alter_is_Some.
Qed.

Lemma sameSetting_htmlNotified (subject htmlBody : string) (w : World) :
  sameSetting w (htmlNotified subject htmlBody w).
Proof.
  repeat split.
  - apply host_htmlNotified.
  - apply now_htmlNotified.
  - apply configOf_htmlNotified.
  - now rewrite sheets_htmlNotified.
  - now rewrite sheets_htmlNotified.
Qed.

Lemma sameSetting_marked (nm : value) (w : World) : sameSetting w (marked nm w).
Proof.
  unfold marked. destruct (findRow _ _); [apply sameSetting_stampCell|apply sameSetting_refl].
Qed.

Lemma sameSetting_swept (w : World) (u : User) : sameSetting w (swept w u).
Proof.
  unfold swept. destruct (isStale _ _ _); [|apply sameSetting_refl].
  eapply sameSetting_trans; [apply sameSetting_marked|apply sameSetting_audited].
Qed.

Lemma sameSetting_sweptAll (users : list User) (w : World) :
  sameSetting w (sweptAll users w).
Proof.
  revert w. induction users as [|u users IH]; intros w; [apply sameSetting_refl|].
  unfold sweptAll; simpl. eapply sameSetting_trans; [apply sameSetting_swept|apply IH].
Qed.

(** *** Running the loop *)

Lemma markInactive_eq (i : nat) (rows : list (list value)) (nm : value) (w : World) :
  markInactive "Usuarios" i rows nm w
  = (Ok tt,
     match findRow rows nm with
     | Some k => stampCell (Z.of_nat (i + k) + 1) 5 (VStr "FALSE") w
     | None => w
     end).
Proof.
  revert i. induction rows as [|r rows IH]; intros i; simpl; [reflexivity|].
  destruct (strictEq (index r 0) nm).
  - rewrite setValue_eq by lia. now rewrite Nat.add_0_r.
  - rewrite IH. destruct (findRow rows nm) as [k|]; simpl; [|reflexivity].
    replace (Z.of_nat (S (i + k))) with (Z.of_nat (i + S k)) by lia. reflexivity.
Qed.

Lemma sweepUser_eq (acc : list Offender) (u : User) (w : World) :
  is_Some (sheets w !! "Usuarios") ->
  sweepUser acc u w
  = (Ok (if isStale (host w) (now w) u
         then (acc ++ [offenderOf (host w) (now w) u])%list else acc),
     swept w u).
Proof.
  intros [g Hg]. unfold sweepUser, swept, isStale, offenderOf.
  destruct (truthy (active u)); simpl; [|reflexivity].
  unfold getDaysSinceLastAccess, Date_now, getSheetByName, deref, getValues.
  unfold mbind, M_bind, bind, gets, ret. cbv beta iota zeta.
  destruct (number_gt (daysBetween (host w) (now w) (lastAccess u)) 7); [|reflexivity].
  rewrite Hg. cbv beta iota zeta. rewrite Hg.
  rewrite markInactive_eq. rewrite logEvent_eq.
  unfold marked, grid. rewrite Hg. reflexivity.
Qed.

Lemma forEach_sweepUser (users : list User) (acc : list Offender) (w : World) :
  is_Some (sheets w !! "Usuarios") ->
  forEach sweepUser acc users w
  = (Ok (acc ++ offenders (host w) (now w) users)%list, sweptAll users w).
Proof.
  revert acc w. induction users as [|u users IH]; intros acc w Hs.
  - simpl. unfold ret. now rewrite app_nil_r.
  - simpl forEach. unfold mbind, M_bind, bind. rewrite sweepUser_eq by exact Hs.
    destruct (sameSetting_swept w u) as (Hh & Hn & _ & Hsh).
    rewrite IH by (now apply Hsh). rewrite Hh, Hn.
    unfold offenders, sweptAll. simpl.
    destruct (isStale (host w) (now w) u); simpl; [|reflexivity].
    now rewrite <- app_assoc.
Qed.

Lemma getUsers_eq (w : World) : getUsers w = (Ok (registry w), w).
Proof.
  unfold getUsers, registry, grid, getSheetByName, getValues.
  unfold mbind, M_bind, bind, gets, ret. cbv beta iota zeta.
  destruct (sheets w !! "Usuarios") as [g|] eqn:E; cbv beta iota zeta;
    rewrite ?E; reflexivity.
Qed.

Lemma registry_nonempty (w : World) : registry w <> [] -> is_Some (sheets w !! "Usuarios").
Proof.
  unfold registry, grid. destruct (sheets w !! "Usuarios"); [eauto|].
  intros H. now destruct H.
Qed.

Lemma enviarReporteInactivos_eq (batch : list Offender) (w : World) :
  enviarReporteInactivos batch w = (Ok tt, reported batch w).
Proof.
  unfold enviarReporteInactivos, reported, Date_now.
  unfold mbind, M_bind, bind, gets, ret. cbv beta iota zeta.
  now rewrite sendHtmlNotification_eq.
Qed.

Lemma Logger_log_eq (line : string) (w : World) :
  Logger_log line w = (Ok tt, emit (Logged line) w).
Proof. reflexivity. Qed.

(** The sweep never throws. *)
Lemma verificarUsuariosInactivos_eq (w : World) :
  verificarUsuariosInactivos w = (Ok tt, sweptWorld w).
Proof.
  unfold verificarUsuariosInactivos, sweptWorld.
  erewrite bind_Ok by apply Logger_log_eq. cbv beta.
  erewrite bind_Ok by apply getUsers_eq. cbv beta.
  change (registry (emit (Logged "=== Verificación diaria iniciada ===") w))
    with (registry w).
  erewrite bind_Ok by reflexivity. cbv beta.
  erewrite bind_Ok by apply Logger_log_eq. cbv beta.
  change (host (emit (Logged "=== Verificación diaria iniciada ===") w)) with (host w).
  set (w1 := emit (Logged (Logger_inspect _ _)) _).
  assert (Hloop : forEach sweepUser [] (registry w) w1
                  = (Ok (offenders (host w) (now w) (registry w)), sweptAll (registry w) w1)).
  { destruct (registry w) as [|u us] eqn:E; [reflexivity|].
    rewrite forEach_sweepUser; [reflexivity|].
    apply (registry_nonempty w). now rewrite E. }
  erewrite bind_Ok by exact Hloop. cbv beta.
  erewrite bind_Ok by apply Logger_log_eq. cbv beta.
  destruct (0 <? List.length (offenders (host w) (now w) (registry w)))%nat.
  - erewrite bind_Ok by apply enviarReporteInactivos_eq. reflexivity.
  - erewrite bind_Ok by reflexivity. reflexivity.
Qed.

(* ===================================================================== *)
(** ** What the sweep writes                                              *)
(* ===================================================================== *)

Lemma mailsOf_app (d1 d2 : list Effect) : mailsOf (d1 ++ d2) = (mailsOf d1 ++ mailsOf d2)%list.
Proof. apply omap_app. Qed.

Lemma appendedRows_app (d1 d2 : list Effect) :
  appendedRows (d1 ++ d2) = (appendedRows d1 ++ appendedRows d2)%list.
Proof. apply omap_app. Qed.

Lemma grid_stampCell (row col : Z) (v : value) (w : World) :
  is_Some (sheets w !! "Usuarios") ->
  grid (stampCell row col v w) "Usuarios"
  = setCell (Z.to_nat (row - 1)) (Z.to_nat (col - 1)) v (grid w "Usuarios").
Proof. intros Hs. unfold stampCell. now rewrite grid_emit, grid_alter_eq. Qed.

(** A write of ['FALSE'] into column E leaves every ['FALSE'] of that
    column in place. *)
Lemma stampFalse_keeps (row : Z) (w : World) (i : nat) :
  isFalseCell w i -> isFalseCell (stampCell row 5 (VStr "FALSE") w) i.
Proof.
  unfold isFalseCell. intros H.
  destruct (sheets w !! "Usuarios") as [g|] eqn:E.
  - rewrite grid_stampCell by eauto.
    destruct (decide (i = Z.to_nat (row - 1))) as [->|Hne].
    + apply cellOf_setCell_eq.
    + rewrite cellOf_setCell_ne by congruence. exact H.
  - unfold grid in H. rewrite E in H. discriminate.
Qed.

Lemma stampFalse_sets (row : Z) (w : World) :
  is_Some (sheets w !! "Usuarios") ->
  isFalseCell (stampCell row 5 (VStr "FALSE") w) (Z.to_nat (row - 1)).
Proof.
  intros Hs. unfold isFalseCell. rewrite grid_stampCell by exact Hs.
  apply cellOf_setCell_eq.
Qed.

Lemma audited_keeps (ev : AuditEvent) (w : World) (i : nat) :
  isFalseCell w i <-> isFalseCell (audited ev w) i.
Proof. unfold isFalseCell. now rewrite grid_audited_other by discriminate. Qed.

Lemma swept_keeps (w : World) (u : User) (i : nat) :
  isFalseCell w i -> isFalseCell (swept w u) i.
Proof.
  intros H. unfold swept. destruct (isStale _ _ _); [|exact H].
  apply audited_keeps. unfold marked. destruct (findRow _ _); [|exact H].
  now apply stampFalse_keeps.
Qed.

Lemma sweptAll_keeps (users : list User) (w : World) (i : nat) :
  isFalseCell w i -> isFalseCell (sweptAll users w) i.
Proof.
  revert w. induction users as [|u users IH]; intros w H; [exact H|].
  unfold sweptAll; simpl. apply IH. now apply swept_keeps.
Qed.

Lemma reported_keeps (batch : list Offender) (w : World) (i : nat) :
  isFalseCell w i <-> isFalseCell (reported batch w) i.
Proof.
  unfold isFalseCell, reported, grid. now rewrite sheets_htmlNotified.
Qed.

Lemma sweptWorld_keeps (w : World) (i : nat) :
  isFalseCell w i -> isFalseCell (sweptWorld w) i.
Proof.
  intros H. unfold sweptWorld. cbv zeta.
  assert (H2 : isFalseCell
                 (sweptAll (registry w)
                    (emit (Logged (Logger_inspect (host w) (map userFields (registry w))))
                       (emit (Logged "=== Verificación diaria iniciada ===") w))) i)
    by (apply sweptAll_keeps; exact H).
  destruct (0 <? _)%nat; [|exact H2].
  unfold isFalseCell. rewrite grid_emit.
  apply (proj1 (reported_keeps _ _ i)). exact H2.
Qed.

(** The effects of the loop body for one user: no mail, the audit row when
    the user is stale, and at most one write, of ['FALSE'] into column E of
    a row that holds it afterwards. *)
Lemma swept_effects (w : World) (u : User) :
  is_Some (sheets w !! "Usuarios") ->
  exists d : list Effect,
    trace (swept w u) = (trace w ++ d)%list
    /\ mailsOf d = []
    /\ appendedRows d
       = (if isStale (host w) (now w) u
             && bool_decide (is_Some (sheets w !! "RegistroDeEventos"))
          then [("RegistroDeEventos",
                 auditRow (now w) (sweepEvent u (daysBetween (host w) (now w) (lastAccess u))))]
          else [])
    /\ (forall s r c v, In (SetValue s r c v) d ->
          s = "Usuarios" /\ c = 5 /\ v = VStr "FALSE"
          /\ isFalseCell (swept w u) (Z.to_nat (r - 1))).
Proof.
  intros Hs. unfold swept. destruct (isStale (host w) (now w) u); simpl andb.
  2:{ exists []. rewrite app_nil_r.
      split; [reflexivity|split; [reflexivity|split; [reflexivity|intros s r c v []]]]. }
  set (ev := sweepEvent u (daysBetween (host w) (now w) (lastAccess u))).
  destruct (sameSetting_marked (name u) w) as (Hh & Hn & _ & Hsh).
  assert (Haud : exists d2, trace (audited ev (marked (name u) w))
                            = (trace (marked (name u) w) ++ d2)%list
                            /\ mailsOf d2 = []
                            /\ appendedRows d2
                               = (if bool_decide (is_Some (sheets w !! "RegistroDeEventos"))
                                  then [("RegistroDeEventos", auditRow (now w) ev)] else [])
                            /\ (forall s r c v, ~ In (SetValue s r c v) d2)).
  { unfold audited. rewrite Hh, Hn.
    destruct (sheets (marked (name u) w) !! "RegistroDeEventos") as [g|] eqn:E.
    - rewrite bool_decide_eq_true_2 by (apply Hsh; eauto).
      eexists [_; _]. split; [simpl; now rewrite <- app_assoc|].
      split; [reflexivity|split; [reflexivity|]].
      intros s r c v [H|[H|[]]]; discriminate.
    - rewrite bool_decide_eq_false_2
        by (intros H; apply Hsh in H; rewrite E in H; now destruct H).
      eexists [_]. split; [reflexivity|].
      split; [reflexivity|split; [reflexivity|]].
      intros s r c v [H|[]]; discriminate. }
  destruct Haud as (d2 & Ht2 & Hm2 & Ha2 & Hw2).
  unfold marked in *. destruct (findRow (drop 1 (grid w "Usuarios")) (name u)) as [k|].
  - exists (SetValue "Usuarios" (Z.of_nat (1 + k) + 1) 5 (VStr "FALSE") :: d2).
    split; [rewrite Ht2; simpl; now rewrite <- app_assoc|].
    split; [exact Hm2|]. split; [exact Ha2|].
    intros s r c v [[= <- <- <- <-]|Hin]; [|now apply Hw2 in Hin].
    repeat split. apply audited_keeps. now apply stampFalse_sets.
  - exists d2. split; [exact Ht2|]. split; [exact Hm2|]. split; [exact Ha2|].
    intros s r c v Hin. now apply Hw2 in Hin.
Qed.

(** The effects of the whole loop. *)
Lemma sweptAll_effects (users : list User) (w : World) :
  (users <> [] -> is_Some (sheets w !! "Usuarios")) ->
  exists d : list Effect,
    trace (sweptAll users w) = (trace w ++ d)%list
    /\ mailsOf d = []
    /\ appendedRows d
       = (if bool_decide (is_Some (sheets w !! "RegistroDeEventos"))
          then map (pair "RegistroDeEventos") (sweepRows (host w) (now w) users)
          else [])
    /\ (forall s r c v, In (SetValue s r c v) d ->
          s = "Usuarios" /\ c = 5 /\ v = VStr "FALSE"
          /\ isFalseCell (sweptAll users w) (Z.to_nat (r - 1))).
Proof.
  revert w. induction users as [|u users IH]; intros w Hs.
  - exists []. rewrite app_nil_r. unfold sweepRows. simpl.
    split; [reflexivity|split; [reflexivity|split; [|intros s r c v []]]].
    now destruct (bool_decide _).
  - assert (Hs' : is_Some (sheets w !! "Usuarios")) by (now apply Hs).
    destruct (swept_effects w u Hs') as (d1 & Ht1 & Hm1 & Ha1 & Hw1).
    destruct (sameSetting_swept w u) as (Hh & Hn & _ & Hsh).
    destruct (IH (swept w u)) as (d2 & Ht2 & Hm2 & Ha2 & Hw2); [intros _; now apply Hsh|].
    exists (d1 ++ d2)%list. unfold sweptAll in *. simpl foldl.
    split; [now rewrite Ht2, Ht1, app_assoc|].
    split; [now rewrite mailsOf_app, Hm1, Hm2|].
    split.
    + rewrite appendedRows_app, Ha1, Ha2, Hh, Hn.
      replace (bool_decide (is_Some (sheets (swept w u) !! "RegistroDeEventos")))
        with (bool_decide (is_Some (sheets w !! "RegistroDeEventos")))
        by (apply bool_decide_ext; symmetry; apply Hsh).
      unfold sweepRows. simpl List.filter.
      destruct (isStale (host w) (now w) u);
        destruct (bool_decide (is_Some (sheets w !! "RegistroDeEventos"))); reflexivity.
    + intros s r c v Hin. apply in_app_or in Hin as [Hin|Hin].
      * destruct (Hw1 s r c v Hin) as (-> & -> & -> & Hcell).
        repeat split. now apply (sweptAll_keeps users).
      * now apply Hw2.
Qed.

(** Nobody stale: the loop changes nothing. *)
Lemma sweptAll_none (users : list User) (w : World) :
  (forall u, In u users -> isStale (host w) (now w) u = false) ->
  sweptAll users w = w /\ offenders (host w) (now w) users = [].
Proof.
  induction users as [|u users IH]; intros H; [split; reflexivity|].
  assert (Hu : isStale (host w) (now w) u = false) by (apply H; now left).
  destruct IH as [IH1 IH2]; [intros u' Hin; apply H; now right|].
  unfold sweptAll, offenders in *. simpl. unfold swept at 2. rewrite Hu. auto.
Qed.

Lemma trace_emit (e : Effect) (w : World) : trace (emit e w) = (trace w ++ [e])%list.
Proof. reflexivity. Qed.

(** The effects of the HTML gateway: the mail or nothing. *)
Lemma htmlNotified_effects (subject htmlBody : string) (w : World) :
  exists d : list Effect,
    trace (htmlNotified subject htmlBody w) = (trace w ++ d)%list
    /\ mailsOf d = (if htmlGoes w subject htmlBody
                    then [htmlMail w subject htmlBody] else [])
    /\ appendedRows d = []
    /\ (forall s r c v, ~ In (SetValue s r c v) d).
Proof.
  unfold htmlNotified. destruct (htmlGoes w subject htmlBody).
  - eexists [_; _]. rewrite !trace_emit, <- app_assoc.
    split; [reflexivity|split; [reflexivity|split; [reflexivity|]]].
    intros s r c v [H|[H|[]]]; discriminate.
  - destruct (configOf w) as [config|]; [destruct (notifyFlag w)|].
    + eexists [_]. split; [reflexivity|split; [reflexivity|split; [reflexivity|]]].
      intros s r c v [H|[]]; discriminate.
    + exists []. rewrite app_nil_r.
      split; [reflexivity|split; [reflexivity|split; [reflexivity|]]].
      intros s r c v [].
    + eexists [_]. split; [reflexivity|split; [reflexivity|split; [reflexivity|]]].
      intros s r c v [H|[]]; discriminate.
Qed.

(** The effects of one run of the sweep: the audit rows of the stale users,
    writes of ['FALSE'] into column E only, and no mail but the digest. *)
Lemma sweptWorld_effects (w : World) :
  let h := host w in
  let t := now w in
  let batch := offenders h t (registry w) in
  exists d : list Effect,
    trace (sweptWorld w) = (trace w ++ d)%list
    /\ mailsOf d
       = (if (0 <? List.length batch)%nat && htmlGoes w (digestSubject h t) (digestHtml h t batch)
          then [htmlMail w (digestSubject h t) (digestHtml h t batch)] else [])
    /\ appendedRows d
       = (if bool_decide (is_Some (sheets w !! "RegistroDeEventos"))
          then map (pair "RegistroDeEventos") (sweepRows h t (registry w))
          else [])
    /\ (forall s r c v, In (SetValue s r c v) d ->
          s = "Usuarios" /\ c = 5 /\ v = VStr "FALSE"
          /\ isFalseCell (sweptWorld w) (Z.to_nat (r - 1))).
Proof.
  intros h t batch. unfold sweptWorld. cbv zeta. fold h t. fold batch.
  set (w1 := emit (Logged (Logger_inspect h (map userFields (registry w))))
               (emit (Logged "=== Verificación diaria iniciada ===") w)).
  destruct (sweptAll_effects (registry w) w1) as (d & Ht & Hm & Ha & Hw).
  { intros Hne. apply (registry_nonempty w Hne). }
  set (w2 := emit (Logged ("Usuarios desactivados: "
                           +:+ Z_toString (Z.of_nat (List.length batch))))
               (sweptAll (registry w) w1)) in *.
  assert (Hset : sameSetting w w2).
  { eapply sameSetting_trans; [|apply sameSetting_emit].
    eapply sameSetting_trans; [|apply sameSetting_sweptAll].
    eapply sameSetting_trans; apply sameSetting_emit. }
  destruct Hset as (Hh & Hn & Hc & _).
  assert (Ht2 : trace w2
                = (trace w ++ [Logged "=== Verificación diaria iniciada ===";
                               Logged (Logger_inspect h (map userFields (registry w)))]
                   ++ d ++ [Logged ("Usuarios desactivados: "
                                    +:+ Z_toString (Z.of_nat (List.length batch)))])%list).
  { unfold w2. rewrite trace_emit, Ht. unfold w1. rewrite !trace_emit.
    now rewrite <- !app_assoc. }
  assert (Hw2 : forall s r c v, In (SetValue s r c v) d ->
            s = "Usuarios" /\ c = 5 /\ v = VStr "FALSE"
            /\ isFalseCell w2 (Z.to_nat (r - 1))).
  { intros s r c v Hin. destruct (Hw s r c v Hin) as (-> & -> & -> & Hcell). auto. }
  change (host w1) with h in Ha. change (now w1) with t in Ha.
  change (sheets w1) with (sheets w) in Ha.
  clearbody w2. clear Ht Hw w1.
  (* the digest, when there is one *)
  assert (Hrep : exists (w3 : World) (d3 : list Effect),
            (if (0 <? List.length batch)%nat then reported batch w2 else w2) = w3
            /\ trace w3 = (trace w2 ++ d3)%list
            /\ mailsOf d3
               = (if (0 <? List.length batch)%nat
                     && htmlGoes w (digestSubject h t) (digestHtml h t batch)
                  then [htmlMail w (digestSubject h t) (digestHtml h t batch)] else [])
            /\ appendedRows d3 = []
            /\ (forall s r c v, ~ In (SetValue s r c v) d3)
            /\ (forall i, isFalseCell w2 i -> isFalseCell w3 i)).
  { destruct (0 <? List.length batch)%nat; simpl andb.
    - unfold reported. rewrite Hh, Hn. fold h t.
      destruct (htmlNotified_effects (digestSubject h t) (digestHtml h t batch) w2)
        as (d3 & Ht3 & Hm3 & Ha3 & Hw3).
      destruct (htmlGoes_cong w2 w (digestSubject h t) (digestHtml h t batch) Hh Hc)
        as [Hgo Hmail].
      rewrite Hgo, Hmail in Hm3.
      eexists _, d3. split; [reflexivity|]. split; [exact Ht3|].
      split; [exact Hm3|]. split; [exact Ha3|]. split; [exact Hw3|].
      intros i Hi. unfold isFalseCell, grid in *. now rewrite sheets_htmlNotified.
    - exists w2, []. rewrite app_nil_r.
      split; [reflexivity|split; [reflexivity|split; [reflexivity|split; [reflexivity|]]]].
      split; [intros s r c v []|auto]. }
  destruct Hrep as (w3 & d3 & -> & Ht3 & Hm3 & Ha3 & Hw3 & Hk3).
  eexists. rewrite trace_emit, Ht3, Ht2.
  split; [rewrite <- !app_assoc; reflexivity|].
  split; [rewrite !mailsOf_app, Hm, Hm3; change (mailsOf [_; _]) with (@nil Mail);
          change (mailsOf [_]) with (@nil Mail); simpl app; now rewrite app_nil_r|].
  split; [rewrite !appendedRows_app, Ha, Ha3;
          change (appendedRows [_; _]) with (@nil (string * list value));
          change (appendedRows [_]) with (@nil (string * list value));
          simpl app; now rewrite !app_nil_r|].
  intros s r c v Hin.
  repeat (apply in_app_or in Hin as [Hin|Hin]).
  - simpl in Hin. intuition discriminate.
  - destruct (Hw2 s r c v Hin) as (-> & -> & -> & Hcell).
    repeat split. unfold isFalseCell. rewrite grid_emit. now apply Hk3.
  - simpl in Hin. intuition discriminate.
  - now apply Hw3 in Hin.
  - simpl in Hin. intuition discriminate.
Qed.

(* ===================================================================== *)
(** ** The sweep: what it does for a stale user                           *)
(* ===================================================================== *)

(** C5, as stated, fails: with the mail gateway open, the sweep deactivates
    Luis and Eva and sends no plain-text mail at all, while the Deactivation
    processor, run for Luis in the same world, sends one; the audit rows of
    the sweep carry the action of the sweep, not that of the processor. *)
Lemma sweep_sends_no_alert_per_user :
  map name (List.filter (isStale (host Scenario.threeUsersWorld) (now Scenario.threeUsersWorld))
              (registry Scenario.threeUsersWorld))
  = [VStr "Luis"; VStr "Eva"]
  /\ plainGoes Scenario.threeUsersWorld "Usuario inactivo detectado" "" = true
  /\ plainMails (trace (snd (verificarUsuariosInactivos Scenario.threeUsersWorld))) = []
  /\ List.length (plainMails (trace (snd (processInactiveUser Scenario.luis
                                            Scenario.threeUsersWorld)))) = 1%nat
  /\ map (fun x => index (snd x) 5)
         (appendedRows (trace (snd (verificarUsuariosInactivos Scenario.threeUsersWorld))))
     = [VStr "Desactivado automáticamente"; VStr "Desactivado automáticamente"]
  /\ map (fun x => index (snd x) 5)
         (appendedRows (trace (snd (processInactiveUser Scenario.luis
                                      Scenario.threeUsersWorld))))
     = [VStr "Email enviado"].
Proof. repeat split; vm_compute; reflexivity. Qed.

(** C5, amended.  The sweep never throws and does not call the Deactivation
    processor.  For every user that is active and more than 7 days inactive
    it writes one USUARIO_INACTIVO audit record (status ALERTA, action
    "Desactivado automáticamente") itself and adds the user, with the day
    count, to the batch of the digest; it sends no plain-text mail, and the
    only mail of a run is the digest, sent when the batch is not empty and
    the HTML gateway lets it through. *)
Theorem sweep_audits_and_digests_only (w : World) :
  let h := host w in
  let t := now w in
  let stale := List.filter (isStale h t) (registry w) in
  let days := fun u => daysBetween h t (lastAccess u) in
  let batch := map (fun u => mkOffender (name u) (group u) (days u)) stale in
  let digest := htmlMail w (digestSubject h t) (digestHtml h t batch) in
  exists (w' : World) (d : list Effect),
    verificarUsuariosInactivos w = (Ok tt, w')
    /\ trace w' = (trace w ++ d)%list
    /\ plainMails d = []
    /\ mailsOf d
       = (if (0 <? List.length batch)%nat
             && htmlGoes w (digestSubject h t) (digestHtml h t batch)
          then [digest] else [])
    /\ appendedRows d
       = (if bool_decide (is_Some (sheets w !! "RegistroDeEventos"))
          then map (fun u => ("RegistroDeEventos", auditRow t (sweepEvent u (days u)))) stale
          else [])
    /\ (forall u dias,
          index (auditRow t (sweepEvent u dias)) 1 = VStr "USUARIO_INACTIVO"
          /\ index (auditRow t (sweepEvent u dias)) 4 = VStr "ALERTA"
          /\ index (auditRow t (sweepEvent u dias)) 5 = VStr "Desactivado automáticamente").
Proof.
  intros h t stale days batch digest.
  destruct (sweptWorld_effects w) as (d & Ht & Hm & Ha & _).
  exists (sweptWorld w), d.
  split; [apply verificarUsuariosInactivos_eq|]. split; [exact Ht|].
  fold h t in Hm, Ha.
  change (offenders h t (registry w)) with batch in Hm.
  split; [|split; [exact Hm|split]].
  - unfold plainMails. rewrite Hm.
    destruct (_ && _); [|reflexivity]. reflexivity.
  - rewrite Ha. destruct (bool_decide _); [|reflexivity].
    unfold sweepRows. now rewrite map_map.
  - intros u dias. repeat split.
Qed.

(* ===================================================================== *)
(** ** The sweep and an empty last-access cell                            *)
(* ===================================================================== *)

(** An empty cell is the empty string; as a date it is invalid, the day
    count is [NaN], and [NaN > 7] is false: on every platform the user is
    not stale. *)
Lemma empty_last_access_not_stale (h : Host) (t : Z) (u : User) :
  lastAccess u = VStr "" ->
  daysBetween h t (lastAccess u) = NaN /\ isStale h t u = false.
Proof.
  intros E. unfold isStale. rewrite E. split; [reflexivity|].
  apply Bool.andb_false_r.
Qed.

(** C4, where the code departs from the claim.  The sheet holds one active,
    registered user whose last-access cell is empty.  The day count is
    [NaN], not a large number, and the sweep leaves the user active: the
    sheet is unchanged, there is no audit row and no mail. *)
Theorem empty_last_access_not_deactivated :
  map active (registry Scenario.neverSeenWorld) = [VBool true]
  /\ map lastAccess (registry Scenario.neverSeenWorld) = [VStr ""]
  /\ map (fun u => daysBetween (host Scenario.neverSeenWorld) (now Scenario.neverSeenWorld)
                     (lastAccess u))
         (registry Scenario.neverSeenWorld) = [NaN]
  /\ fst (verificarUsuariosInactivos Scenario.neverSeenWorld) = Ok tt
  /\ grid (snd (verificarUsuariosInactivos Scenario.neverSeenWorld)) "Usuarios"
     = Scenario.neverSeen
  /\ map active (registry (snd (verificarUsuariosInactivos Scenario.neverSeenWorld)))
     = [VBool true]
  /\ visible (trace (snd (verificarUsuariosInactivos Scenario.neverSeenWorld))) = [].
Proof. repeat split; vm_compute; reflexivity. Qed.

(* ===================================================================== *)
(** ** Deactivation is read back                                          *)
(* ===================================================================== *)

Lemma sweepAt_eq (t : Z) (w : World) : sweepAt t w = sweptWorld (setNow t w).
Proof. unfold sweepAt. now rewrite verificarUsuariosInactivos_eq. Qed.

Lemma newEffects_app (w w' : World) (d : list Effect) :
  trace w' = (trace w ++ d)%list -> newEffects w w' = d.
Proof. intros E. unfold newEffects. rewrite E. apply drop_app_length. Qed.

Lemma sweepAt_keeps (t : Z) (w : World) (i : nat) :
  isFalseCell w i -> isFalseCell (sweepAt t w) i.
Proof. intros H. rewrite sweepAt_eq. now apply sweptWorld_keeps. Qed.

Lemma sweeps_keeps (ts : list Z) (w : World) (i : nat) :
  isFalseCell w i -> isFalseCell (sweeps ts w) i.
Proof.
  revert w. induction ts as [|t ts IH]; intros w H; [exact H|].
  unfold sweeps; simpl. apply IH. now apply sweepAt_keeps.
Qed.

(** A cell that holds ['FALSE'] is a cell of a row of the sheet. *)
Lemma falseCell_row (w : World) (i : nat) :
  isFalseCell w i ->
  exists rowData : list value,
    grid w "Usuarios" !! i = Some rowData /\ index rowData 4 = VStr "FALSE".
Proof.
  unfold isFalseCell, cellOf. intros H.
  destruct (grid w "Usuarios" !! i) as [r|]; [|discriminate].
  exists r. split; [reflexivity|].
  destruct (r !! 4%nat) as [v|] eqn:E; [|discriminate].
  unfold index. now rewrite (nth_lookup_Some _ _ _ _ E).
Qed.

(** The record read from a row whose Active cell is ['FALSE'] is inactive,
    and the body of the sweep does nothing for it. *)
Lemma inactive_skipped (rowData : list value) :
  index rowData 4 = VStr "FALSE" ->
  active (userOfRow rowData) = VBool false
  /\ forall (acc : list Offender) (w : World),
       sweepUser acc (userOfRow rowData) w = (Ok acc, w).
Proof.
  intros E. assert (Ha : active (userOfRow rowData) = VBool false).
  { unfold userOfRow; simpl. now rewrite E. }
  split; [exact Ha|]. intros acc w. unfold sweepUser. now rewrite Ha.
Qed.


(* ===================================================================== *)
(** ** The sweep over three users                                         *)
(* ===================================================================== *)

Lemma swept_fresh (w : World) (u : User) :
  isStale (host w) (now w) u = false -> swept w u = w.
Proof. unfold swept. now intros ->. Qed.

(** The loop body for a stale user whose name is found at position [k]
    below the header. *)
Lemma swept_stale (w : World) (u : User) (k : nat) :
  isStale (host w) (now w) u = true ->
  findRow (drop 1 (grid w "Usuarios")) (name u) = Some k ->
  is_Some (sheets w !! "Usuarios") ->
  let record := auditRow (now w) (sweepEvent u (daysBetween (host w) (now w) (lastAccess u))) in
  grid (swept w u) "Usuarios" = setCell (S k) 4 (VStr "FALSE") (grid w "Usuarios")
  /\ (is_Some (sheets w !! "RegistroDeEventos") ->
      grid (swept w u) "RegistroDeEventos" = (grid w "RegistroDeEventos" ++ [record])%list)
  /\ extends w (swept w u)
       (SetValue "Usuarios" (Z.of_nat (S k) + 1) 5 (VStr "FALSE")
        :: (if bool_decide (is_Some (sheets w !! "RegistroDeEventos"))
            then [AppendRow "RegistroDeEventos" record] else [])).
Proof.
  intros Hst Hk Hu record. unfold swept, marked. rewrite Hst, Hk.
  set (w1 := stampCell (Z.of_nat (1 + k) + 1) 5 (VStr "FALSE") w).
  destruct (sameSetting_stampCell (Z.of_nat (1 + k) + 1) 5 (VStr "FALSE") w)
    as (_ & _ & _ & Hsh). fold w1 in Hsh.
  split; [|split].
  - rewrite grid_audited_other by discriminate. unfold w1.
    rewrite grid_stampCell by exact Hu.
    replace (Z.to_nat (Z.of_nat (1 + k) + 1 - 1)) with (S k) by lia. reflexivity.
  - intros Hl. rewrite grid_audited_log by (now apply Hsh).
    unfold w1, stampCell. now rewrite grid_emit, grid_alter_ne by discriminate.
  - apply (extends_trans _ w1 _ [_] _); [apply extends_stampCell|].
    pose proof (extends_audited
                  (sweepEvent u (daysBetween (host w) (now w) (lastAccess u))) w1) as H.
    replace (bool_decide (is_Some (sheets w1 !! "RegistroDeEventos")))
      with (bool_decide (is_Some (sheets w !! "RegistroDeEventos"))) in H
      by (apply bool_decide_ext; symmetry; apply Hsh).
    exact H.
Qed.

Lemma trueLike_active (r : list value) : trueLike (index r 4) -> active (userOfRow r) = VBool true.
Proof.
  intros H. apply flagOn_trueLike in H. unfold flagOn in H. unfold userOfRow; simpl.
  rewrite Bool.negb_true_iff, Bool.andb_false_iff, !Bool.negb_false_iff in H.
  f_equal. apply Bool.orb_true_iff. exact H.
Qed.

(** Within the threshold everywhere: the run writes nothing, audits nothing,
    mails nothing. *)
Lemma sweep_within_threshold (w : World) :
  (forall u, In u (registry w) -> truthy (active u) = true ->
     exists n, daysBetween (host w) (now w) (lastAccess u) = Int n /\ n <= 7) ->
  exists w' : World,
    verificarUsuariosInactivos w = (Ok tt, w')
    /\ sheets w' = sheets w
    /\ extends w w' [].
Proof.
  intros H. exists (sweptWorld w). split; [apply verificarUsuariosInactivos_eq|].
  assert (Hnone : forall u, In u (registry w) -> isStale (host w) (now w) u = false).
  { intros u Hin. unfold isStale. destruct (truthy (active u)) eqn:E; [|reflexivity].
    destruct (H u Hin E) as (n & -> & Hn). simpl. lia. }
  set (w1 := emit (Logged (Logger_inspect (host w) (map userFields (registry w))))
               (emit (Logged "=== Verificación diaria iniciada ===") w)).
  destruct (sweptAll_none (registry w) w1 Hnone) as [Hall Hoff].
  change (host w1) with (host w) in Hoff. change (now w1) with (now w) in Hoff.
  unfold sweptWorld. cbv zeta. fold w1. rewrite Hall. rewrite Hoff. simpl Nat.ltb.
  split; [reflexivity|]. extends_emits.
Qed.

Section ThreeUsers.

Variable w : World.
Variable header : list value.
Variables nA nB nC : string.
Variables eA eB eC roA roB roC gA gB gC aA aB aC dA dB dC lA lB lC : value.

Local Abbreviation rowA := [VStr nA; eA; roA; gA; aA; dA; lA].
Local Abbreviation rowB := [VStr nB; eB; roB; gB; aB; dB; lB].
Local Abbreviation rowC := [VStr nC; eC; roC; gC; aC; dC; lC].
Local Abbreviation offB := (VStr "FALSE").
Local Abbreviation logged := (bool_decide (is_Some (sheets w !! "RegistroDeEventos"))).
Local Abbreviation recordB :=
  [VDate (Int (now w)); VStr "USUARIO_INACTIVO"; VStr nB; VStr "8 días sin actividad";
   VStr "ALERTA"; VStr "Desactivado automáticamente"].
Local Abbreviation recordC :=
  [VDate (Int (now w)); VStr "USUARIO_INACTIVO"; VStr nC; VStr "15 días sin actividad";
   VStr "ALERTA"; VStr "Desactivado automáticamente"].
Local Abbreviation batch :=
  [mkOffender (VStr nB) gB (Int 8); mkOffender (VStr nC) gC (Int 15)].

(** The digest for the second and the third user, written out. *)
Local Abbreviation cellHtml x :=
  ("      <td style=" +:+ dq +:+ "padding: 8px; border: 1px solid #ddd;" +:+ dq +:+ ">"
   +:+ x +:+ "</td>").
Local Abbreviation rowHtml n g days :=
  (template ["<tr>"; cellHtml n; cellHtml g; cellHtml days; "    </tr>"]).
Local Abbreviation digestBody :=
  (template
     [ "";
       "    <h2>Reporte Diario - Usuarios Inactivos</h2>";
       "    <p>Se detectaron <strong>2</strong> usuarios sin actividad:</p>";
       "    <table border=" +:+ dq +:+ "1" +:+ dq +:+ " cellpadding=" +:+ dq +:+ "8" +:+ dq
         +:+ " style=" +:+ dq +:+ "border-collapse: collapse; width: 100%;" +:+ dq +:+ ">";
       "      <thead>";
       "        <tr style=" +:+ dq +:+ "background-color: #4285f4; color: white;" +:+ dq +:+ ">";
       "          <th>Usuario</th><th>Grupo</th><th>Días Inactivo</th>";
       "        </tr>";
       "      </thead>";
       "      <tbody>"
         +:+ (rowHtml nB (toString (host w) gB) "8 días"
              +:+ rowHtml nC (toString (host w) gC) "15 días")
         +:+ "</tbody>";
       "    </table>";
       "    <p style=" +:+ dq +:+ "margin-top: 20px; color: #666;" +:+ dq +:+ ">";
       "      Fecha: " +:+ toLocaleDateString (host w) (now w) +:+ "<br>";
       "      Sistema de Gestión Workspace - Turing IA";
       "    </p>";
       "  " ]).
Local Abbreviation digestTitle := ("Reporte Diario - " +:+ toLocaleDateString (host w) (now w)).

Hypothesis Husers : sheets w !! "Usuarios" = Some [header; rowA; rowB; rowC].
Hypothesis HnA : nA <> "".
Hypothesis HnB : nB <> "".
Hypothesis HnC : nC <> "".
Hypothesis HAB : nA <> nB.
Hypothesis HAC : nA <> nC.
Hypothesis HBC : nB <> nC.
Hypothesis HaA : trueLike aA.
Hypothesis HaB : trueLike aB.
Hypothesis HaC : trueLike aC.
Hypothesis HlA : daysBetween (host w) (now w) lA = Int 3.
Hypothesis HlB : daysBetween (host w) (now w) lB = Int 8.
Hypothesis HlC : daysBetween (host w) (now w) lC = Int 15.

Lemma three_registry :
  registry w = [userOfRow rowA; userOfRow rowB; userOfRow rowC].
Proof using Husers HnA HnB HnC.
  unfold registry, grid. rewrite Husers. unfold usersOfRows. simpl.
  apply String.eqb_neq in HnA, HnB, HnC. now rewrite HnA, HnB, HnC.
Qed.

Lemma three_stale :
  isStale (host w) (now w) (userOfRow rowA) = false
  /\ isStale (host w) (now w) (userOfRow rowB) = true
  /\ isStale (host w) (now w) (userOfRow rowC) = true.
Proof using HaA HaB HaC HlA HlB HlC.
  unfold isStale.
  rewrite (trueLike_active rowA HaA), (trueLike_active rowB HaB), (trueLike_active rowC HaC).
  change (lastAccess (userOfRow rowA)) with lA.
  change (lastAccess (userOfRow rowB)) with lB.
  change (lastAccess (userOfRow rowC)) with lC.
  rewrite HlA, HlB, HlC. auto.
Qed.

(** The audit rows and the digest of the two stale users, cell by cell and
    line by line. *)
Lemma three_records :
  auditRow (now w) (sweepEvent (userOfRow rowB) (Int 8)) = recordB
  /\ auditRow (now w) (sweepEvent (userOfRow rowC) (Int 15)) = recordC
  /\ digestHtml (host w) (now w) batch = digestBody
  /\ digestSubject (host w) (now w) = digestTitle.
Proof using HnB HnC.
  assert (HnB' : String.eqb nB "" = false) by (now apply String.eqb_neq).
  assert (HnC' : String.eqb nC "" = false) by (now apply String.eqb_neq).
  split; [|split; [|split]].
  - unfold auditRow, sweepEvent, jsOr. simpl. rewrite HnB'. reflexivity.
  - unfold auditRow, sweepEvent, jsOr. simpl. rewrite HnC'. reflexivity.
  - reflexivity.
  - reflexivity.
Qed.

(** The loop over the three users, started in a world [w1] that has the
    sheets and the setting of [w]. *)
Lemma three_swept (w1 : World) :
  sameSetting w w1 -> sheets w1 = sheets w ->
  let w2 := sweptAll [userOfRow rowA; userOfRow rowB; userOfRow rowC] w1 in
  grid w2 "Usuarios"
  = [header; rowA; [VStr nB; eB; roB; gB; offB; dB; lB]; [VStr nC; eC; roC; gC; offB; dC; lC]]
  /\ (is_Some (sheets w !! "RegistroDeEventos") ->
      grid w2 "RegistroDeEventos" = (grid w "RegistroDeEventos" ++ [recordB; recordC])%list)
  /\ extends w1 w2
       ((SetValue "Usuarios" 3 5 offB
         :: (if logged then [AppendRow "RegistroDeEventos" recordB] else []))
        ++ (SetValue "Usuarios" 4 5 offB
            :: (if logged then [AppendRow "RegistroDeEventos" recordC] else []))).
Proof using All.
  intros (Hh & Hn & _ & Hsh) Hs w2.
  destruct three_stale as (HsA & HsB & HsC).
  destruct three_records as (HrB & HrC & _ & _).
  assert (HeqAB : String.eqb nA nB = false) by (now apply String.eqb_neq).
  assert (HeqAC : String.eqb nA nC = false) by (now apply String.eqb_neq).
  assert (HeqBC : String.eqb nB nC = false) by (now apply String.eqb_neq).
  assert (Hg1 : grid w1 "Usuarios" = [header; rowA; rowB; rowC]).
  { unfold grid. now rewrite Hs, Husers. }
  unfold w2, sweptAll. simpl foldl.
  rewrite (swept_fresh w1) by (now rewrite Hh, Hn).
  (* the second user *)
  destruct (swept_stale w1 (userOfRow rowB) 1) as (Hgb & Hlb & Heb).
  { now rewrite Hh, Hn. }
  { rewrite Hg1. simpl. now rewrite HeqAB, String.eqb_refl. }
  { apply Hsh. rewrite Husers. eauto. }
  set (wb := swept w1 (userOfRow rowB)) in *.
  destruct (sameSetting_swept w1 (userOfRow rowB)) as (Hhb & Hnb & _ & Hshb).
  fold wb in Hhb, Hnb, Hshb.
  rewrite Hg1 in Hgb. change (lastAccess (userOfRow rowB)) with lB in *.
  rewrite Hh, Hn, HlB, HrB, Hs in Hlb, Heb.
  (* the third user *)
  destruct (swept_stale wb (userOfRow rowC) 2) as (Hgc & Hlc & Hec).
  { now rewrite Hhb, Hnb, Hh, Hn. }
  { rewrite Hgb. simpl. now rewrite HeqAC, HeqBC, String.eqb_refl. }
  { apply Hshb, Hsh. rewrite Husers. eauto. }
  change (lastAccess (userOfRow rowC)) with lC in *.
  rewrite Hhb, Hnb, Hh, Hn, HlC, HrC in Hlc, Hec.
  replace (bool_decide (is_Some (sheets wb !! "RegistroDeEventos"))) with logged in Hec
    by (apply bool_decide_ext; rewrite Hshb, Hs; reflexivity).
  split; [|split].
  - rewrite Hgc, Hgb. reflexivity.
  - intros Hl. rewrite Hlc by (apply Hshb; now rewrite Hs).
    rewrite Hlb by exact Hl. unfold grid. rewrite Hs, <- app_assoc. reflexivity.
  - apply (extends_trans _ _ _ _ _ Heb Hec).
Qed.

(** C2.  The sheet of users holds three active users with pairwise
    different, non-empty names, 3, 8 and 15 days inactive.  One run of the
    sweep returns normally, writes ['FALSE'] into the Active cell of the
    second and of the third user and into no other cell, appends, when the
    audit sheet exists, two USUARIO_INACTIVO audit rows, for 8 and for 15
    days, and hands one digest to the HTML gateway, which sends it as one
    mail when it lets it through.  The digest says that 2 users were found
    and lists, in a table, the second user with 8 days and the third with
    15 days, name, group and days each.  In any world in which every
    active user is at most 7 days inactive, a run changes no sheet and has
    no effect but logger lines: no write, no audit row, no mail. *)
Theorem sweep_three_users :
  let h := host w in
  let t := now w in
  exists w' : World,
    verificarUsuariosInactivos w = (Ok tt, w')
    /\ grid w' "Usuarios"
       = [header; rowA; [VStr nB; eB; roB; gB; offB; dB; lB];
          [VStr nC; eC; roC; gC; offB; dC; lC]]
    /\ (is_Some (sheets w !! "RegistroDeEventos") ->
        grid w' "RegistroDeEventos" = (grid w "RegistroDeEventos" ++ [recordB; recordC])%list)
    /\ extends w w'
         ((SetValue "Usuarios" 3 5 offB
           :: (if logged then [AppendRow "RegistroDeEventos" recordB] else []))
          ++ (SetValue "Usuarios" 4 5 offB
              :: (if logged then [AppendRow "RegistroDeEventos" recordC] else []))
          ++ (if htmlGoes w digestTitle digestBody
              then [Sent (mkMail (notifyAddress w) digestTitle "" (Some digestBody))]
              else []))
    /\ (forall w2 : World,
          (forall u, In u (registry w2) -> truthy (active u) = true ->
             exists n, daysBetween (host w2) (now w2) (lastAccess u) = Int n /\ n <= 7) ->
          exists w2' : World,
            verificarUsuariosInactivos w2 = (Ok tt, w2')
            /\ sheets w2' = sheets w2
            /\ extends w2 w2' []).
Proof using All.
  intros h t. exists (sweptWorld w).
  split; [apply verificarUsuariosInactivos_eq|].
  destruct three_stale as (HsA & HsB & HsC).
  destruct three_records as (_ & _ & Hbody & Htitle).
  assert (Hbatch : offenders h t (registry w) = batch).
  { rewrite three_registry. unfold offenders. simpl List.filter.
    fold h t in HsA, HsB, HsC. rewrite HsA, HsB, HsC. simpl map.
    unfold offenderOf. simpl name. simpl group.
    change (lastAccess (userOfRow rowB)) with lB.
    change (lastAccess (userOfRow rowC)) with lC.
    unfold h, t. now rewrite HlB, HlC. }
  set (w1 := emit (Logged (Logger_inspect h (map userFields (registry w))))
               (emit (Logged "=== Verificación diaria iniciada ===") w)).
  assert (Hset1 : sameSetting w w1).
  { eapply sameSetting_trans; apply sameSetting_emit. }
  destruct (three_swept w1 Hset1 eq_refl) as (Hg & Hl & He).
  set (w2 := sweptAll [userOfRow rowA; userOfRow rowB; userOfRow rowC] w1) in *.
  assert (Hset2 : sameSetting w w2).
  { eapply sameSetting_trans; [exact Hset1|apply sameSetting_sweptAll]. }
  destruct Hset2 as (Hh2 & Hn2 & Hc2 & _).
  assert (Hfinal : sweptWorld w
                   = emit (Logged "=== Verificación completada ===")
                       (htmlNotified (digestSubject h t) (digestHtml h t batch)
                          (emit (Logged "Usuarios desactivados: 2") w2))).
  { unfold sweptWorld. cbv zeta. fold h t. rewrite Hbatch. fold w1.
    rewrite three_registry. fold w2. simpl Nat.ltb. cbv iota.
    unfold reported. simpl host. simpl now. rewrite Hh2, Hn2. reflexivity. }
  rewrite Hfinal.
  split; [|split; [|split]].
  - rewrite grid_emit. unfold grid at 1. rewrite sheets_htmlNotified. exact Hg.
  - intros Hlog. rewrite grid_emit. unfold grid at 1. rewrite sheets_htmlNotified.
    now apply Hl.
  - set (w3 := emit (Logged "Usuarios desactivados: 2") w2).
    assert (H13 : extends w w3
                    ((SetValue "Usuarios" 3 5 offB
                      :: (if logged then [AppendRow "RegistroDeEventos" recordB] else []))
                     ++ (SetValue "Usuarios" 4 5 offB
                         :: (if logged then [AppendRow "RegistroDeEventos" recordC]
                             else [])))).
    { apply (extends_trans w w1 w3 [] _).
      - unfold w1. extends_emits.
      - pose proof (extends_trans w1 w2 w3 _ [] He (extends_emit _ _)) as H.
        now rewrite app_nil_r in H. }
    pose proof (extends_htmlNotified (digestSubject h t) (digestHtml h t batch) w3) as H34.
    destruct (htmlGoes_cong w3 w (digestSubject h t) (digestHtml h t batch))
      as [Hgo Hmail]; [exact Hh2|exact Hc2|].
    rewrite Hgo, Hmail in H34. unfold h, t in H34. rewrite Hbody, Htitle in H34.
    pose proof (extends_trans _ _ _ _ _ (extends_trans _ _ _ _ _ H13 H34)
                  (extends_emit (Logged "=== Verificación completada ===") _)) as H.
    simpl visible in H. rewrite app_nil_r, <- app_assoc in H. exact H.
  - apply sweep_within_threshold.
Qed.

End ThreeUsers.

(** C2, where the code departs from the claim: two of the three users
    have the same name.  Ana was seen 3 days ago, her namesake of the next row 8 days
    ago, Eva 15 days ago, all three active.  The sweep looks the stale
    namesake up by name, finds the row of the first Ana and deactivates
    her, the user seen 3 days ago; the user seen 8 days ago stays
    active. *)
Lemma sweep_three_users_with_namesake :
  map (fun r => index r 0) (drop 1 (grid Duplicates.twinsWorld "Usuarios"))
  = [VStr "Ana"; VStr "Ana"; VStr "Eva"]
  /\ map (fun u => daysBetween Scenario.host0 Scenario.t0 (lastAccess u))
       (registry Duplicates.twinsWorld)
     = [Int 3; Int 8; Int 15]
  /\ map active (registry Duplicates.twinsWorld) = [VBool true; VBool true; VBool true]
  /\ fst (verificarUsuariosInactivos Duplicates.twinsWorld) = Ok tt
  /\ map active (registry (snd (verificarUsuariosInactivos Duplicates.twinsWorld)))
     = [VBool false; VBool true; VBool false].
Proof. repeat split; vm_compute; reflexivity. Qed.

(** The three users of [Scenario.threeUsers]. *)
Lemma sweep_three_users_witness :
  sheets Scenario.threeUsersWorld !! "Usuarios"
  = Some [Scenario.usersHeader; Scenario.anaRow; Scenario.luisRow; Scenario.evaRow]
  /\ "Ana" <> "" /\ "Luis" <> "" /\ "Eva" <> ""
  /\ "Ana" <> "Luis" /\ "Ana" <> "Eva" /\ "Luis" <> "Eva"
  /\ trueLike (VBool true) /\ trueLike (VStr "TRUE")
  /\ daysBetween Scenario.host0 Scenario.t0 (Scenario.accessed 3) = Int 3
  /\ daysBetween Scenario.host0 Scenario.t0 (Scenario.accessed 8) = Int 8
  /\ daysBetween Scenario.host0 Scenario.t0 (Scenario.accessed 15) = Int 15
  /\ exists w' : World,
       verificarUsuariosInactivos Scenario.threeUsersWorld = (Ok tt, w')
       /\ map (fun r => index r 4) (grid w' "Usuarios")
          = [VStr "Activo"; VBool true; VStr "FALSE"; VStr "FALSE"].
Proof.
  assert (H1 : sheets Scenario.threeUsersWorld !! "Usuarios"
               = Some [Scenario.usersHeader; Scenario.anaRow; Scenario.luisRow;
                       Scenario.evaRow]) by reflexivity.
  assert (H3 : "Ana" <> "") by discriminate.
  assert (H4 : "Luis" <> "") by discriminate.
  assert (H5 : "Eva" <> "") by discriminate.
  assert (H6 : "Ana" <> "Luis") by discriminate.
  assert (H7 : "Ana" <> "Eva") by discriminate.
  assert (H8 : "Luis" <> "Eva") by discriminate.
  assert (H9 : trueLike (VBool true)) by (left; reflexivity).
  assert (H10 : trueLike (VStr "TRUE")) by (right; reflexivity).
  assert (H11 : daysBetween Scenario.host0 Scenario.t0 (Scenario.accessed 3) = Int 3)
    by reflexivity.
  assert (H12 : daysBetween Scenario.host0 Scenario.t0 (Scenario.accessed 8) = Int 8)
    by reflexivity.
  assert (H13 : daysBetween Scenario.host0 Scenario.t0 (Scenario.accessed 15) = Int 15)
    by reflexivity.
  repeat (split; [assumption|]).
  destruct (sweep_three_users Scenario.threeUsersWorld Scenario.usersHeader
              "Ana" "Luis" "Eva"
              (VStr "ana@empresa.com") (VStr "luis@empresa.com") (VStr "eva@empresa.com")
              (VStr "Editor") (VStr "Viewer") (VStr "Admin")
              (VStr "IT") (VStr "RH") (VStr "Finanzas")
              (VBool true) (VStr "TRUE") (VBool true)
              Scenario.registered Scenario.registered Scenario.registered
              (Scenario.accessed 3) (Scenario.accessed 8) (Scenario.accessed 15)
              H1 H3 H4 H5 H6 H7 H8 H9 H10 H9 H11 H12 H13)
    as (w' & Hrun & Hgrid & _).
  exists w'. split; [exact Hrun|]. rewrite Hgrid. reflexivity.
Defined.

(* ===================================================================== *)
(** ** The configuration reader                                           *)
(* ===================================================================== *)





(* ===================================================================== *)
(** ** The registry reader                                                *)
(* ===================================================================== *)

Lemma usersOfRows_names (rows : list (list value)) :
  map name (usersOfRows rows) = List.filter truthy (namesOf rows).
Proof.
  unfold usersOfRows, namesOf. induction rows as [|r rows IH]; simpl; [reflexivity|].
  destruct (truthy (index r 0)); simpl; now rewrite IH.
Qed.

Lemma usersOfRows_Forall (rows : list (list value)) :
  Forall (fun u => truthy (name u) = true /\ isBoolean (active u) = true) (usersOfRows rows).
Proof.
  unfold usersOfRows. induction rows as [|r rows IH]; simpl; [constructor|].
  destruct (truthy (index r 0)) eqn:E; simpl; [|exact IH].
  constructor; [|exact IH]. split; [exact E|reflexivity].
Qed.

Lemma usersOfRows_length (rows : list (list value)) :
  (List.length (usersOfRows rows) <= List.length rows)%nat.
Proof.
  unfold usersOfRows. rewrite length_map. apply List.filter_length_le.
Qed.

(** [getUsers] never throws and leaves the world as it was.  It returns one
    record for every row below the header whose name cell is truthy, in the
    order of the sheet, and none for the header or for the other rows; in
    every record the name is truthy and [active] is a boolean.  A missing
    sheet gives the empty list. *)
Theorem getUsers_named_rows (w : World) :
  exists users : list User,
    getUsers w = (Ok users, w)
    /\ map name users = List.filter truthy (namesOf (drop 1 (grid w "Usuarios")))
    /\ Forall (fun u => truthy (name u) = true /\ isBoolean (active u) = true) users
    /\ (List.length users <= List.length (grid w "Usuarios") - 1)%nat
    /\ (sheets w !! "Usuarios" = None -> users = []).
Proof.
  exists (registry w). split; [apply getUsers_eq|].
  unfold registry. split; [apply usersOfRows_names|].
  split; [apply usersOfRows_Forall|]. split.
  - pose proof (usersOfRows_length (drop 1 (grid w "Usuarios"))) as H.
    rewrite length_drop in H. exact H.
  - intros E. unfold grid. now rewrite E.
Qed.

(* ===================================================================== *)
(** ** Counting days                                                      *)
(* ===================================================================== *)

Lemma msPerDay_pos : 0 < msPerDay.
Proof. reflexivity. Qed.

(** For a valid date, [getDaysSinceLastAccess] returns, without changing
    the world, the full days of the distance between now and the date:
    the count [d] is not negative and
    [d] days <= |now - date| < [d + 1] days.  The direction does not
    matter, a date in the future counts like the date as far in the past.
    An active user is therefore stale for the sweep exactly when the last
    access lies 8 full days or more away, before or after now. *)
Theorem day_count_is_distance (h : Host) (t ta : Z) :
  exists d : Z,
    daysBetween h t (VDate (Int ta)) = Int d
    /\ (forall w : World,
          host w = h -> now w = t ->
          getDaysSinceLastAccess (VDate (Int ta)) w = (Ok (Int d), w))
    /\ 0 <= d
    /\ d * msPerDay <= Z.abs (t - ta) < (d + 1) * msPerDay
    /\ daysBetween h t (VDate (Int (t + (t - ta)))) = Int d
    /\ (number_gt (Int d) 7 = true <-> 8 * msPerDay <= Z.abs (t - ta))
    /\ (forall u : User,
          lastAccess u = VDate (Int ta) -> truthy (active u) = true ->
          (isStale h t u = true <-> 8 * msPerDay <= Z.abs (t - ta))).
Proof.
  pose proof msPerDay_pos as Hpos.
  exists (Z.abs (t - ta) / msPerDay).
  assert (Hdiv : Z.abs (t - ta) / msPerDay * msPerDay <= Z.abs (t - ta)
                 < (Z.abs (t - ta) / msPerDay + 1) * msPerDay).
  { pose proof (Z.div_mod (Z.abs (t - ta)) msPerDay) as Hdm.
    pose proof (Z.mod_pos_bound (Z.abs (t - ta)) msPerDay Hpos). lia. }
  assert (Hgt : number_gt (Int (Z.abs (t - ta) / msPerDay)) 7 = true
                <-> 8 * msPerDay <= Z.abs (t - ta)).
  { simpl. rewrite Z.ltb_lt. split; intros H.
    - assert (8 <= Z.abs (t - ta) / msPerDay) by lia. nia.
    - assert (8 <= Z.abs (t - ta) / msPerDay); [|lia].
      apply Z.div_le_lower_bound; lia. }
  split; [reflexivity|].
  split; [intros w <- <-; reflexivity|].
  split; [apply Z.div_pos; lia|]. split; [exact Hdiv|].
  split.
  - unfold daysBetween; simpl. do 2 f_equal. lia.
  - split; [exact Hgt|]. intros u Hl Ha. unfold isStale. rewrite Ha, Hl. exact Hgt.
Qed.

(* ===================================================================== *)
(** ** The audit log                                                      *)
(* ===================================================================== *)

Lemma truthy_jsOr (x d : value) : truthy d = true -> truthy (jsOr x d) = true.
Proof. intros Hd. unfold jsOr. now destruct (truthy x) eqn:E. Qed.

(** [logEvent] never throws, whatever the event and the world.  With the
    sheet [RegistroDeEventos] present it appends exactly one row of six
    cells to it, after the rows that were there: the first cell is the
    time of the run, and the type, user, status and action cells are
    never empty, an absent field being replaced by its default.  Without
    the sheet nothing is written.  Either way every other sheet stays as
    it was, no mail is sent and no calendar event is created. *)
Theorem logEvent_appends_one_row (event : AuditEvent) (w : World) :
  exists w' : World,
    logEvent event w = (Ok tt, w')
    /\ (forall sheet : string,
          sheet <> "RegistroDeEventos" -> sheets w' !! sheet = sheets w !! sheet)
    /\ (sheets w !! "RegistroDeEventos" = None ->
          sheets w' = sheets w /\ visible (newEffects w w') = [])
    /\ (forall rows : list (list value),
          sheets w !! "RegistroDeEventos" = Some rows ->
          exists r : list value,
            sheets w' !! "RegistroDeEventos" = Some (rows ++ [r])%list
            /\ visible (newEffects w w') = [AppendRow "RegistroDeEventos" r]
            /\ List.length r = 6%nat
            /\ index r 0 = VDate (Int (now w))
            /\ Forall (fun j => truthy (index r j) = true) [1; 2; 4; 5]%nat).
Proof.
  exists (audited event w). split; [apply logEvent_eq|].
  unfold audited. destruct (sheets w !! "RegistroDeEventos") as [g|] eqn:Hg.
  - split; [|split].
    + intros sheet Hne. simpl. now rewrite lookup_alter_ne.
    + discriminate.
    + intros rows [= <-]. exists (auditRow (now w) event).
      split; [simpl; now rewrite lookup_alter_eq, Hg|].
      split.
      { erewrite newEffects_app; [|simpl; rewrite <- app_assoc; reflexivity]. reflexivity. }
      split; [reflexivity|]. split; [reflexivity|].
      repeat constructor; apply truthy_jsOr; reflexivity.
  - split; [reflexivity|]. split; [|discriminate].
    intros _. split; [reflexivity|].
    erewrite newEffects_app; [|reflexivity]. reflexivity.
Qed.

(* ===================================================================== *)
(** ** What a run leaves alone                                            *)
(* ===================================================================== *)

Section Frames.

Variable allowed : nat -> nat -> value -> Prop.

Lemma changesOnly_refl (w : World) : changesOnly allowed w w.
Proof.
  split; [apply sameSetting_refl|]. split; [reflexivity|].
  split; [intros i j; now left|reflexivity].
Qed.

Lemma changesOnly_trans (w1 w2 w3 : World) :
  changesOnly allowed w1 w2 -> changesOnly allowed w2 w3 -> changesOnly allowed w1 w3.
Proof.
  intros (Hs & Ho & Hc & Hp) (Hs' & Ho' & Hc' & Hp').
  split; [eapply sameSetting_trans; eassumption|].
  split; [intros s H1 H2; rewrite Ho', Ho by assumption; reflexivity|].
  split; [|etrans; eassumption].
  intros i j. destruct (Hc' i j) as [E|Ha]; [|now right].
  rewrite E. apply Hc.
Qed.

(** A step that leaves the sheets, the platform and the clock alone. *)
Lemma changesOnly_sheets (w w' : World) :
  host w' = host w -> now w' = now w -> sheets w' = sheets w -> changesOnly allowed w w'.
Proof.
  intros Hh Hn Hs.
  split.
  { split; [exact Hh|]. split; [exact Hn|].
    split; [now apply configOf_cong|]. intros s. now rewrite Hs. }
  unfold grid. rewrite Hs. split; [reflexivity|].
  split; [intros i j; now left|reflexivity].
Qed.

Lemma changesOnly_emit (e : Effect) (w : World) : changesOnly allowed w (emit e w).
Proof. now apply changesOnly_sheets. Qed.

Lemma changesOnly_audited (ev : AuditEvent) (w : World) :
  changesOnly allowed w (audited ev w).
Proof.
  split; [apply sameSetting_audited|]. split; [|split].
  - intros s _ Hs. unfold audited.
    destruct (sheets w !! "RegistroDeEventos"); [|reflexivity].
    simpl. now rewrite lookup_alter_ne.
  - intros i j. left. now rewrite grid_audited_other.
  - destruct (sheets w !! "RegistroDeEventos") as [g|] eqn:E.
    + rewrite grid_audited_log by eauto. now apply prefix_app_r.
    + unfold audited. rewrite E. reflexivity.
Qed.

Lemma changesOnly_notified (subject body : string) (w : World) :
  changesOnly allowed w (notified subject body w).
Proof.
  apply changesOnly_sheets; [| |apply sheets_notified];
    unfold notified; now destruct (plainGoes w subject body).
Qed.

Lemma changesOnly_htmlNotified (subject htmlBody : string) (w : World) :
  changesOnly allowed w (htmlNotified subject htmlBody w).
Proof.
  apply changesOnly_sheets;
    [apply host_htmlNotified|apply now_htmlNotified|apply sheets_htmlNotified].
Qed.

Lemma changesOnly_scheduled (title description : string) (s e : number) (w : World) :
  changesOnly allowed w (scheduled title description s e w).
Proof.
  apply changesOnly_sheets; [| |apply sheets_scheduled];
    unfold scheduled; now destruct (bookingOf w title description s e).
Qed.

Lemma changesOnly_stampCell (row col : Z) (v : value) (w : World) :
  allowed (Z.to_nat (row - 1)) (Z.to_nat (col - 1)) v ->
  changesOnly allowed w (stampCell row col v w).
Proof.
  intros Ha. split; [apply sameSetting_stampCell|]. split; [|split].
  - intros s Hs _. unfold stampCell; simpl. now rewrite lookup_alter_ne.
  - intros i j. destruct (sheets w !! "Usuarios") as [g|] eqn:E.
    + rewrite grid_stampCell by eauto.
      destruct (decide ((i, j) = (Z.to_nat (row - 1), Z.to_nat (col - 1)))) as [[= -> ->]|Hne].
      * right. now rewrite cellOf_setCell_eq.
      * left. now apply cellOf_setCell_ne.
    + left. unfold stampCell. rewrite grid_emit. unfold grid, setSheets; simpl.
      now rewrite lookup_alter_eq, E.
  - unfold stampCell. rewrite grid_emit, grid_alter_ne by discriminate. reflexivity.
Qed.

End Frames.

Lemma changesOnly_mono (a a' : nat -> nat -> value -> Prop) (w w' : World) :
  (forall i j v, a i j v -> a' i j v) -> changesOnly a w w' -> changesOnly a' w w'.
Proof.
  intros Hm (Hs & Ho & Hc & Hp). split; [exact Hs|]. split; [exact Ho|].
  split; [|exact Hp]. intros i j. destruct (Hc i j) as [E|Ha]; [now left|right; now apply Hm].
Qed.

(* ===================================================================== *)
(** ** The processors and the sheets                                      *)
(* ===================================================================== *)

Lemma processNewUser_throws (user : User) (row : Z) (w : World) :
  sheets w !! "Usuarios" = None \/ row < 1 ->
  exists msg : string, processNewUser user row w = (Throw msg, w).
Proof.
  intros H. unfold processNewUser.
  unfold getSheetByName, Date_now, deref.
  unfold mbind, M_bind, bind, gets, ret, throw. cbv beta iota zeta.
  destruct (sheets w !! "Usuarios") as [g|] eqn:Hg.
  - destruct H as [H|H]; [discriminate|].
    unfold setValue. replace (row <? 1) with true by lia. simpl. eauto.
  - eauto.
Qed.

Lemma changesOnly_onboarded (user : User) (row : Z) (w : World) :
  1 <= row -> changesOnly (dateCells row (now w)) w (onboarded user row w).
Proof.
  intros Hrow. unfold onboarded.
  eapply changesOnly_trans; [|apply changesOnly_emit].
  eapply changesOnly_trans; [|apply changesOnly_scheduled].
  eapply changesOnly_trans; [|apply changesOnly_htmlNotified].
  eapply changesOnly_trans; [|apply changesOnly_audited].
  unfold stamped.
  eapply changesOnly_trans; apply changesOnly_stampCell; unfold dateCells;
    (split; [lia|]); (split; [|reflexivity]); [left|right]; reflexivity.
Qed.

Lemma changesOnly_alerted (user : User) (w w' : World) :
  processInactiveUser user w = (Ok tt, w') -> changesOnly nowhere w w'.
Proof.
  destruct (processInactiveUser_eq user w) as [body E]. rewrite E. intros [= <-].
  eapply changesOnly_trans; [|apply changesOnly_emit].
  eapply changesOnly_trans; [apply changesOnly_audited|apply changesOnly_notified].
Qed.

Lemma changesOnly_roleChanged (user : User) (w w' : World) :
  notifyRoleChange user w = (Ok tt, w') -> changesOnly nowhere w w'.
Proof.
  destruct (notifyRoleChange_eq user w) as [body E]. rewrite E. intros [= <-].
  destruct (strictEq (role user) (VStr "Admin")); [|apply changesOnly_audited].
  eapply changesOnly_trans; [apply changesOnly_audited|apply changesOnly_notified].
Qed.

Lemma nowhere_allowed (a : nat -> nat -> value -> Prop) (w w' : World) :
  changesOnly nowhere w w' -> changesOnly a w w'.
Proof. apply changesOnly_mono. intros i j v []. Qed.

Lemma changesOnly_dispatch (ev : Event) (w : World) :
  exists (r : Res unit) (w' : World),
    dispatch ev w = (r, w')
    /\ forall a : nat -> nat -> value -> Prop,
         (forall user row, ev = NewUser user row ->
            forall i j v, dateCells row (now w) i j v -> a i j v) ->
         changesOnly a w w'.
Proof.
  destruct ev as [user row|user|user]; simpl dispatch.
  - destruct (decide (is_Some (sheets w !! "Usuarios") /\ 1 <= row)) as [[Hs Hrow]|Hno].
    + eexists _, _. split.
      { erewrite bind_Ok by apply Logger_log_eq.
        apply processNewUser_eq; [exact Hs|exact Hrow]. }
      intros a Ha. eapply changesOnly_trans; [apply changesOnly_emit|].
      eapply changesOnly_mono; [apply (Ha user row eq_refl)|].
      now apply (changesOnly_onboarded user row (emit _ w)).
    + destruct (processNewUser_throws user row
                  (emit (Logged "Fila completa detectada - Procesando nuevo usuario") w))
        as [msg E].
      { destruct (sheets w !! "Usuarios") eqn:Hs; [right|left; exact Hs].
        destruct (decide (row < 1)); [assumption|]. exfalso. apply Hno. split; [eauto|lia]. }
      eexists _, _. split.
      { erewrite bind_Ok by apply Logger_log_eq. exact E. }
      intros a _. apply changesOnly_emit.
  - destruct (processInactiveUser_eq user w) as [body E].
    eexists _, _. split; [exact E|]. intros a _.
    apply nowhere_allowed. eapply changesOnly_alerted. exact E.
  - destruct (notifyRoleChange_eq user w) as [body E].
    eexists _, _. split; [exact E|]. intros a _.
    apply nowhere_allowed. eapply changesOnly_roleChanged. exact E.
Qed.

(** The events of one edit: none or one, and a new user only for the
    edited row. *)
Lemma classify_cases (h : Host) (row col : Z) (userData : list value) :
  classify h row col userData = []
  \/ (1 <= col <= 5 /\ row <> 1
      /\ truthy (filaCompleta (normalizeRow h userData)) && esNuevo (normalizeRow h userData) = true
      /\ classify h row col userData = [NewUser (normalizeRow h userData) row])
  \/ (col = 5 /\ row <> 1 /\ active (normalizeRow h userData) = VBool false
      /\ classify h row col userData = [Deactivation (normalizeRow h userData)])
  \/ (col = 3 /\ row <> 1 /\ truthy (index userData 5) = true
      /\ classify h row col userData = [RoleChange (normalizeRow h userData)]).
Proof.
  unfold classify. destruct (row =? 1) eqn:E1; [now left|].
  assert (Hrow : row <> 1) by lia.
  assert (Hdet :
    forall l : list Event,
      l = ((if (col =? 5) && strictEq (active (normalizeRow h userData)) (VBool false)
            then [Deactivation (normalizeRow h userData)] else [])
           ++ (if (col =? 3) && truthy (dateRegistered (normalizeRow h userData))
               then [RoleChange (normalizeRow h userData)] else []))%list ->
      l = []
      \/ (col = 5 /\ row <> 1 /\ active (normalizeRow h userData) = VBool false
          /\ l = [Deactivation (normalizeRow h userData)])
      \/ (col = 3 /\ row <> 1 /\ truthy (index userData 5) = true
          /\ l = [RoleChange (normalizeRow h userData)])).
  { intros l ->. rewrite dateRegistered_present.
    destruct (col =? 5) eqn:E5; destruct (col =? 3) eqn:E3; try lia; cbn [andb].
    - destruct (strictEq (active (normalizeRow h userData)) (VBool false)) eqn:Es;
        [|now left].
      right; left. apply strictEq_VBool in Es. repeat split; try lia; assumption.
    - destruct (truthy (index userData 5)) eqn:Et; [|now left].
      right; right. repeat split; try lia; assumption.
    - now left. }
  cbv zeta.
  destruct ((1 <=? col) && (col <=? 5)) eqn:Ec.
  - destruct (truthy (filaCompleta _) && esNuevo _) eqn:En.
    + right; left. repeat split; try lia; reflexivity.
    + destruct (Hdet _ eq_refl) as [H|[H|H]]; tauto.
  - destruct (Hdet _ eq_refl) as [H|[H|H]]; [tauto|lia|lia].
Qed.

Lemma changesOnly_handleUserEdit (e : EditEvent) (w : World) :
  exists (r : Res unit) (w' : World),
    handleUserEdit e w = (r, w')
    /\ changesOnly (dateCells (e_row e) (now w)) w w'
    /\ (e_row e = 1 \/ (1 <= e_row e /\ (e_col e < 1 \/ 5 < e_col e)) -> r = Ok tt /\ w' = w).
Proof.
  destruct (decide (e_row e < 1)) as [Hlt|Hge].
  - eexists _, w. split.
    { unfold handleUserEdit. replace (e_row e =? 1) with false by lia. cbv zeta.
      unfold getRowValues. replace (e_row e <? 1) with true by lia. reflexivity. }
    split; [apply changesOnly_refl|]. lia.
  - rewrite handleUserEdit_classify by lia.
    destruct (classify_cases (host w) (e_row e) (e_col e) (editedRow w (e_sheet e) (e_row e)))
      as [E|[(Hc & Hr & _ & E)|[(Hc & Hr & _ & E)|(Hc & Hr & _ & E)]]]; rewrite E.
    + eexists _, w. split; [reflexivity|]. split; [apply changesOnly_refl|]. tauto.
    + rewrite dispatchAll_one.
      destruct (changesOnly_dispatch (NewUser (normalizeRow (host w)
                  (editedRow w (e_sheet e) (e_row e))) (e_row e)) w) as (r & w' & Hd & Hf).
      exists r, w'. split; [exact Hd|]. split; [|lia].
      apply Hf. now intros user row [= _ <-].
    + rewrite dispatchAll_one.
      destruct (changesOnly_dispatch (Deactivation (normalizeRow (host w)
                  (editedRow w (e_sheet e) (e_row e)))) w) as (r & w' & Hd & Hf).
      exists r, w'. split; [exact Hd|]. split; [|lia]. apply Hf. discriminate.
    + rewrite dispatchAll_one.
      destruct (changesOnly_dispatch (RoleChange (normalizeRow (host w)
                  (editedRow w (e_sheet e) (e_row e)))) w) as (r & w' & Hd & Hf).
      exists r, w'. split; [exact Hd|]. split; [|lia]. apply Hf. discriminate.
Qed.

(** [onEdit] never throws, whatever the event and the world.  An edit of
    another sheet, of the header row, or of a column outside A to E does
    nothing at all.  Every other edit changes at most the two date cells
    of the edited row, which then hold the time of the run, and adds rows
    at the end of the audit log: no other cell of the sheet of users, no
    other sheet, and nothing of the configuration changes. *)
Theorem onEdit_never_throws (e : EditEvent) (w : World) :
  exists w' : World,
    onEdit e w = (Ok tt, w')
    /\ changesOnly (dateCells (e_row e) (now w)) w w'
    /\ (e_sheet e <> "Usuarios" -> w' = w)
    /\ (e_row e = 1 -> w' = w)
    /\ (1 <= e_row e -> e_col e < 1 \/ 5 < e_col e -> w' = w).
Proof.
  unfold onEdit, tryCatch. cbv zeta.
  destruct (String.eqb_spec (e_sheet e) "Usuarios") as [Hs|Hs].
  - destruct (changesOnly_handleUserEdit e w) as (r & w1 & E & Hf & Hnop). rewrite E.
    destruct r as [[]|msg].
    + exists w1. split; [reflexivity|]. split; [exact Hf|].
      split; [congruence|]. split; intros; apply Hnop; tauto.
    + erewrite bind_Ok by apply Logger_log_eq. rewrite logEvent_eq.
      eexists. split; [reflexivity|]. split.
      * eapply changesOnly_trans; [exact Hf|].
        eapply changesOnly_trans; [apply changesOnly_emit|apply changesOnly_audited].
      * split; [congruence|].
        split; intros; exfalso; assert (Throw msg = Ok tt /\ w1 = w) as [? _]
          by (apply Hnop; tauto); discriminate.
  - exists w. split; [reflexivity|]. split; [apply changesOnly_refl|]. tauto.
Qed.

(** An edit yields at most one lifecycle event.  It yields none on the
    header row and none for a column outside A to E; on a row with a date
    of registration only an edit of the role or of the active flag yields
    one.  A new user is reported for the edited row only, a deactivation
    only for column E and a role change only for column C. *)
Theorem edit_yields_at_most_one_event (h : Host) (row col : Z) (userData : list value) :
  (List.length (classify h row col userData) <= 1)%nat
  /\ (row = 1 -> classify h row col userData = [])
  /\ (col < 1 \/ 5 < col -> classify h row col userData = [])
  /\ (truthy (index userData 5) = true -> col <> 3 -> col <> 5 ->
      classify h row col userData = [])
  /\ (forall ev : Event,
        In ev (classify h row col userData) ->
        match ev with
        | NewUser user r => user = normalizeRow h userData /\ r = row /\ 1 <= col <= 5
        | Deactivation user => user = normalizeRow h userData /\ col = 5
        | RoleChange user => user = normalizeRow h userData /\ col = 3
        end).
Proof.
  destruct (classify_cases h row col userData)
    as [E|[(Hc & Hr & Hn & E)|[(Hc & Hr & Ha & E)|(Hc & Hr & Hd & E)]]]; rewrite E.
  - split; [simpl; lia|]. split; [reflexivity|]. split; [reflexivity|].
    split; [reflexivity|]. intros ev [].
  - split; [simpl; lia|]. split; [lia|]. split; [lia|]. split.
    + intros Hd. rewrite esNuevo_absent, Hd, Bool.andb_false_r in Hn. discriminate.
    + intros ev [<-|[]]. repeat split; lia.
  - split; [simpl; lia|]. split; [lia|]. split; [lia|]. split; [lia|].
    intros ev [<-|[]]. split; [reflexivity|assumption].
  - split; [simpl; lia|]. split; [lia|]. split; [lia|]. split; [lia|].
    intros ev [<-|[]]. split; [reflexivity|assumption].
Qed.

Lemma processNewUser_noRow_throws (user : User) (w : World) :
  exists msg : string, processNewUser_noRow user w = (Throw msg, w).
Proof.
  unfold processNewUser_noRow, getSheetByName, Date_now, deref.
  unfold mbind, M_bind, bind, gets, ret, throw. cbv beta iota zeta.
  destruct (sheets w !! "Usuarios"); eauto.
Qed.

(** [processNewUser] called with a row number throws exactly when the
    sheet [Usuarios] is missing or the row is below 1, and it throws
    before its first write: the world is then as it was, with no cell
    stamped and nothing logged, audited, mailed or booked.  In every
    other such call it returns, whatever the mail and calendar services
    do; both date cells of the row then hold the time of the run and,
    apart from rows added to the audit log, nothing else in the sheets
    has changed.  Called without a row, as [pruebaAgregarUsuario] calls
    it, it throws in every world, again before any write; so
    [pruebaAgregarUsuario] throws after its first logger line and changes
    nothing else. *)
Theorem processNewUser_fails_before_writing (user : User) (row : Z) (w : World) :
  (exists (r : Res unit) (w' : World),
     processNewUser user row w = (r, w')
     /\ match r with
        | Throw _ => (sheets w !! "Usuarios" = None \/ row < 1) /\ w' = w
        | Ok _ =>
            is_Some (sheets w !! "Usuarios") /\ 1 <= row
            /\ changesOnly (dateCells row (now w)) w w'
            /\ cellOf (grid w' "Usuarios") (Z.to_nat (row - 1)) 5 = VDate (Int (now w))
            /\ cellOf (grid w' "Usuarios") (Z.to_nat (row - 1)) 6 = VDate (Int (now w))
        end)
  /\ (exists msg : string, processNewUser_noRow user w = (Throw msg, w))
  /\ (exists msg : string,
        pruebaAgregarUsuario w
        = (Throw msg, emit (Logged "=== PRUEBA: Agregar Usuario ===") w)).
Proof.
  split; [|split].
  - destruct (decide (is_Some (sheets w !! "Usuarios") /\ 1 <= row)) as [[Hs Hrow]|Hno].
    + exists (Ok tt), (onboarded user row w).
      split; [now apply processNewUser_eq|].
      split; [exact Hs|]. split; [exact Hrow|].
      split; [now apply changesOnly_onboarded|]. now apply onboarded_stamps.
    + assert (H : sheets w !! "Usuarios" = None \/ row < 1).
      { destruct (sheets w !! "Usuarios") eqn:Hs; [right|now left].
        destruct (decide (row < 1)); [assumption|]. exfalso. apply Hno. split; [eauto|lia]. }
      destruct (processNewUser_throws user row w H) as [msg E].
      exists (Throw msg), w. split; [exact E|]. split; [exact H|reflexivity].
  - apply processNewUser_noRow_throws.
  - destruct (processNewUser_noRow_throws carlos
                (emit (Logged "=== PRUEBA: Agregar Usuario ===") w)) as [msg E].
    exists msg. unfold pruebaAgregarUsuario.
    erewrite bind_Ok by apply Logger_log_eq.
    unfold mbind, M_bind, bind. now rewrite E.
Qed.

Lemma sheets_audited_other (ev : AuditEvent) (w : World) (s : string) :
  s <> "RegistroDeEventos" -> sheets (audited ev w) !! s = sheets w !! s.
Proof.
  intros Hs. unfold audited. destruct (sheets w !! "RegistroDeEventos"); [|reflexivity].
  simpl. now rewrite lookup_alter_ne.
Qed.

Lemma extends_logged (w w' : World) (vis : list Effect) (line : string) :
  extends w w' vis -> extends w (emit (Logged line) w') vis.
Proof.
  intros H. rewrite <- (app_nil_r vis).
  eapply extends_trans; [exact H|apply (extends_emit (Logged line))].
Qed.

(** [processInactiveUser] never throws and never writes to the sheet of
    users: the Active cell stays as the editor left it.  It appends one
    audit row, when the log exists, and sends at most one plain mail.
    The audit row is written before the mail is tried and its action cell
    reads ['Email enviado'] whether or not a mail goes out; with
    notifications switched off none does. *)
Theorem processInactiveUser_only_reports (user : User) (w : World) :
  exists (w' : World) (body : string),
    processInactiveUser user w = (Ok tt, w')
    /\ sheets w' !! "Usuarios" = sheets w !! "Usuarios"
    /\ changesOnly nowhere w w'
    /\ extends w w'
         ((if bool_decide (is_Some (sheets w !! "RegistroDeEventos"))
           then [AppendRow "RegistroDeEventos" (auditRow (now w) (inactiveEvent user))]
           else [])
          ++ (if plainGoes w inactiveSubject body
              then [Sent (plainMail w inactiveSubject body)] else []))
    /\ index (auditRow (now w) (inactiveEvent user)) 5 = VStr "Email enviado"
    /\ (notifyFlag w = false -> plainGoes w inactiveSubject body = false).
Proof.
  destruct (processInactiveUser_eq user w) as [body E].
  eexists _, body. split; [exact E|]. split; [|split; [|split; [|split]]].
  - simpl. rewrite sheets_notified. now apply sheets_audited_other.
  - eapply changesOnly_alerted. exact E.
  - apply extends_logged.
    eapply extends_trans; [apply extends_audited|].
    pose proof (extends_notified inactiveSubject body (audited (inactiveEvent user) w)) as H.
    destruct (plainGoes_cong (audited (inactiveEvent user) w) w inactiveSubject body)
      as [-> ->] in H; [apply host_audited|apply configOf_audited|exact H].
  - reflexivity.
  - intros Hoff. unfold plainGoes. now rewrite Hoff.
Qed.

(* ===================================================================== *)
(** ** The two mail gateways                                              *)
(* ===================================================================== *)

(** Only the plain gateway checks the address.  With notifications on and
    an address that fails the check, [sendNotification] returns [false]
    and sends nothing, while [sendHtmlNotification] hands its mail for
    that same address to the mail service and returns [true] when the
    service accepts it. *)
Theorem html_gateway_skips_address_check (w : World) (subject body htmlBody : string) :
  notifyFlag w = true ->
  emailRegex_test (toString (host w) (notifyAddress w)) = false ->
  GmailApp_throws (host w) (htmlMail w subject htmlBody) = None ->
  exists w1 w2 : World,
    sendNotification subject body w = (Ok false, w1)
    /\ extends w w1 []
    /\ sendHtmlNotification subject htmlBody w = (Ok true, w2)
    /\ extends w w2 [Sent (htmlMail w subject htmlBody)]
    /\ mail_to (htmlMail w subject htmlBody) = notifyAddress w.
Proof.
  intros Hflag Hbad Hup.
  assert (Hp : plainGoes w subject body = false).
  { unfold plainGoes. now rewrite Hflag, Hbad. }
  assert (Hh : htmlGoes w subject htmlBody = true).
  { unfold htmlGoes. now rewrite Hflag, Hup. }
  exists (notified subject body w), (htmlNotified subject htmlBody w).
  split; [now rewrite sendNotification_eq, Hp|]. split.
  { pose proof (extends_notified subject body w) as H. now rewrite Hp in H. }
  split; [now rewrite sendHtmlNotification_eq, Hh|]. split; [|reflexivity].
  pose proof (extends_htmlNotified subject htmlBody w) as H. now rewrite Hh in H.
Qed.

(** The address of the configuration has no [@]. *)
Lemma html_gateway_skips_address_check_witness :
  notifyFlag Cases.badAddressWorld = true
  /\ emailRegex_test (toString (host Cases.badAddressWorld)
                        (notifyAddress Cases.badAddressWorld)) = false
  /\ GmailApp_throws (host Cases.badAddressWorld)
       (htmlMail Cases.badAddressWorld "Aviso" "<p>texto</p>") = None
  /\ exists w1 w2 : World,
       sendNotification "Aviso" "texto" Cases.badAddressWorld = (Ok false, w1)
       /\ sendHtmlNotification "Aviso" "<p>texto</p>" Cases.badAddressWorld = (Ok true, w2)
       /\ extends Cases.badAddressWorld w2
            [Sent (htmlMail Cases.badAddressWorld "Aviso" "<p>texto</p>")].
Proof.
  assert (H1 : notifyFlag Cases.badAddressWorld = true) by (vm_compute; reflexivity).
  assert (H2 : emailRegex_test (toString (host Cases.badAddressWorld)
                                  (notifyAddress Cases.badAddressWorld)) = false)
    by (vm_compute; reflexivity).
  assert (H3 : GmailApp_throws (host Cases.badAddressWorld)
                 (htmlMail Cases.badAddressWorld "Aviso" "<p>texto</p>") = None)
    by reflexivity.
  split; [exact H1|]. split; [exact H2|]. split; [exact H3|].
  destruct (html_gateway_skips_address_check Cases.badAddressWorld "Aviso" "texto"
              "<p>texto</p>" H1 H2 H3) as (w1 & w2 & E1 & _ & E2 & Hx & _).
  exists w1, w2. split; [exact E1|]. split; [exact E2|exact Hx].
Defined.

(* ===================================================================== *)
(** ** The rows the sweep marks                                           *)
(* ===================================================================== *)

Lemma strictEq_eq (a b : value) : strictEq a b = true -> a = b.
Proof.
  destruct a as [| |x|[|x]|x|x], b as [| |y|[|y]|y|y]; simpl; try discriminate; try reflexivity.
  - intros H. apply Bool.eqb_prop in H. now subst.
  - intros H. apply Z.eqb_eq in H. now subst.
  - intros H. apply String.eqb_eq in H. now subst.
Qed.

Lemma findRow_Some (rows : list (list value)) (nm : value) (k : nat) :
  findRow rows nm = Some k ->
  exists r : list value,
    rows !! k = Some r /\ strictEq (index r 0) nm = true
    /\ forall (k' : nat) (r' : list value),
         (k' < k)%nat -> rows !! k' = Some r' -> strictEq (index r' 0) nm = false.
Proof.
  revert k. induction rows as [|r rows IH]; intros k; simpl; [discriminate|].
  destruct (strictEq (index r 0) nm) eqn:E.
  - intros [= <-]. exists r. split; [reflexivity|]. split; [exact E|]. intros; lia.
  - destruct (findRow rows nm) as [k0|] eqn:F; simpl; [|discriminate].
    intros [= <-]. destruct (IH k0 eq_refl) as (r0 & Hr & Hs & Hfirst).
    exists r0. split; [exact Hr|]. split; [exact Hs|].
    intros [|k'] r' Hlt; simpl.
    + now intros [= <-].
    + apply Hfirst. lia.
Qed.

Lemma findRow_names (rows rows' : list (list value)) (nm : value) :
  namesOf rows = namesOf rows' -> findRow rows nm = findRow rows' nm.
Proof.
  revert rows'. induction rows as [|r rows IH]; intros [|r' rows']; simpl;
    try discriminate; [reflexivity|].
  intros [= Hr Hrows]. rewrite Hr, (IH rows' Hrows). reflexivity.
Qed.

Lemma lookup_setCell (i j : nat) (v : value) (g : list (list value)) :
  setCell i j v g !! i = Some (<[ j := v ]> (padTo (S j) (VStr "") (default [] (g !! i)))).
Proof.
  unfold setCell.
  rewrite list_lookup_insert_eq by (pose proof (length_padTo (S i) [] g); lia).
  now rewrite nth_lookup, lookup_padTo_grid.
Qed.

Lemma setCell_inside (i j : nat) (v : value) (g : list (list value)) (r : list value) :
  g !! i = Some r ->
  setCell i j v g = <[ i := <[ j := v ]> (padTo (S j) (VStr "") r) ]> g.
Proof.
  intros Hr. unfold setCell.
  assert (Hlen : (i < List.length g)%nat) by (eapply lookup_lt_Some; exact Hr).
  assert (Hpad : padTo (S i) [] g = g).
  { unfold padTo. replace (S i - List.length g)%nat with 0%nat by lia.
    simpl. apply app_nil_r. }
  rewrite Hpad, nth_lookup, Hr. reflexivity.
Qed.

Lemma names_setCell (k j : nat) (v : value) (g : list (list value)) (r : list value) :
  drop 1 g !! k = Some r -> r <> [] -> (0 < j)%nat ->
  namesOf (drop 1 (setCell (S k) j v g)) = namesOf (drop 1 g).
Proof.
  intros Hr Hne Hj. rewrite lookup_drop in Hr. simpl in Hr.
  rewrite (setCell_inside (S k) j v g r Hr).
  rewrite drop_insert_ge by lia. replace (S k - 1)%nat with k by lia.
  unfold namesOf. rewrite list_fmap_insert. apply list_insert_id.
  rewrite list_lookup_fmap, lookup_drop. simpl. rewrite Hr. simpl. f_equal.
  destruct r as [|x r]; [contradiction|].
  destruct j as [|j]; [lia|]. reflexivity.
Qed.

Lemma truthy_strictEq (a nm : value) : strictEq a nm = true -> truthy nm = true -> a <> VUndef.
Proof. intros E Ht ->. apply strictEq_eq in E. subst. discriminate. Qed.

Lemma grid_marked (nm : value) (w : World) :
  grid (marked nm w) "Usuarios"
  = match findRow (drop 1 (grid w "Usuarios")) nm with
    | Some k => setCell (S k) 4 (VStr "FALSE") (grid w "Usuarios")
    | None => grid w "Usuarios"
    end.
Proof.
  unfold marked. destruct (findRow _ nm) as [k|] eqn:F; [|reflexivity].
  rewrite grid_stampCell.
  - f_equal; lia.
  - unfold grid in F. destruct (sheets w !! "Usuarios"); [eauto|discriminate].
Qed.

Lemma names_marked (nm : value) (w : World) :
  truthy nm = true ->
  namesOf (drop 1 (grid (marked nm w) "Usuarios")) = namesOf (drop 1 (grid w "Usuarios")).
Proof.
  intros Ht. rewrite grid_marked.
  destruct (findRow _ nm) as [k|] eqn:F; [|reflexivity].
  destruct (findRow_Some _ _ _ F) as (r & Hr & Hs & _).
  apply (names_setCell k 4 _ _ r Hr); [|lia].
  intros ->. now apply (truthy_strictEq _ _ Hs Ht).
Qed.

Lemma cell_marked (nm : value) (w : World) (k : nat) :
  cellOf (grid (marked nm w) "Usuarios") (S k) 4
  = if bool_decide (findRow (drop 1 (grid w "Usuarios")) nm = Some k)
    then VStr "FALSE" else cellOf (grid w "Usuarios") (S k) 4.
Proof.
  rewrite grid_marked. destruct (findRow _ nm) as [k0|] eqn:F.
  - destruct (decide (k0 = k)) as [->|Hne].
    + rewrite bool_decide_eq_true_2 by reflexivity. apply cellOf_setCell_eq.
    + rewrite bool_decide_eq_false_2 by congruence.
      apply cellOf_setCell_ne. congruence.
  - now rewrite bool_decide_eq_false_2 by discriminate.
Qed.

Lemma names_swept (w : World) (u : User) :
  truthy (name u) = true ->
  namesOf (drop 1 (grid (swept w u) "Usuarios")) = namesOf (drop 1 (grid w "Usuarios")).
Proof.
  intros Ht. unfold swept. destruct (isStale _ _ u); [|reflexivity].
  rewrite grid_audited_other by discriminate. now apply names_marked.
Qed.

Lemma cell_swept (w : World) (u : User) (k : nat) :
  cellOf (grid (swept w u) "Usuarios") (S k) 4
  = if struck w k u then VStr "FALSE" else cellOf (grid w "Usuarios") (S k) 4.
Proof.
  unfold swept, struck. destruct (isStale _ _ u); [|reflexivity].
  rewrite grid_audited_other by discriminate. apply cell_marked.
Qed.

Lemma struck_swept (w : World) (u u' : User) (k : nat) :
  truthy (name u) = true -> struck (swept w u) k u' = struck w k u'.
Proof.
  intros Ht. unfold struck.
  destruct (sameSetting_swept w u) as (-> & -> & _).
  now rewrite (findRow_names _ _ (name u') (names_swept w u Ht)).
Qed.

Lemma existsb_eq {A} (f g : A -> bool) (l : list A) :
  (forall x, f x = g x) -> existsb f l = existsb g l.
Proof. intros H. induction l as [|x l IH]; simpl; [reflexivity|]. now rewrite H, IH. Qed.

Lemma names_sweptAll (users : list User) (w : World) :
  Forall (fun u => truthy (name u) = true) users ->
  namesOf (drop 1 (grid (sweptAll users w) "Usuarios")) = namesOf (drop 1 (grid w "Usuarios")).
Proof.
  intros Hall. revert w. induction Hall as [|u users Hu _ IH]; intros w; [reflexivity|].
  unfold sweptAll; simpl. fold (sweptAll users (swept w u)).
  rewrite IH. now apply names_swept.
Qed.

Lemma cell_sweptAll (users : list User) (w : World) (k : nat) :
  Forall (fun u => truthy (name u) = true) users ->
  cellOf (grid (sweptAll users w) "Usuarios") (S k) 4
  = if existsb (struck w k) users then VStr "FALSE" else cellOf (grid w "Usuarios") (S k) 4.
Proof.
  intros Hall. revert w. induction Hall as [|u users Hu _ IH]; intros w; [reflexivity|].
  unfold sweptAll; simpl. fold (sweptAll users (swept w u)).
  rewrite IH, cell_swept.
  rewrite (existsb_eq _ (struck w k) users) by (intros u'; now apply struck_swept).
  destruct (struck w k u); simpl; [|reflexivity].
  now destruct (existsb (struck w k) users).
Qed.

Lemma changesOnly_marked (nm : value) (w : World) : changesOnly activeOff w (marked nm w).
Proof.
  unfold marked. destruct (findRow _ nm) as [k|]; [|apply changesOnly_refl].
  apply changesOnly_stampCell. unfold activeOff. split; [lia|]. split; reflexivity.
Qed.

Lemma changesOnly_swept (w : World) (u : User) : changesOnly activeOff w (swept w u).
Proof.
  unfold swept. destruct (isStale _ _ u); [|apply changesOnly_refl].
  eapply changesOnly_trans; [apply changesOnly_marked|apply changesOnly_audited].
Qed.

Lemma changesOnly_sweptAll (users : list User) (w : World) :
  changesOnly activeOff w (sweptAll users w).
Proof.
  revert w. induction users as [|u users IH]; intros w; [apply changesOnly_refl|].
  unfold sweptAll; simpl. eapply changesOnly_trans; [apply changesOnly_swept|apply IH].
Qed.

(** The sheets after the sweep are those after its loop. *)
Lemma sheets_sweptWorld (w : World) :
  exists w1 : World,
    host w1 = host w /\ now w1 = now w /\ sheets w1 = sheets w
    /\ sheets (sweptWorld w) = sheets (sweptAll (registry w) w1)
    /\ changesOnly activeOff w (sweptWorld w).
Proof.
  exists (emit (Logged (Logger_inspect (host w) (map userFields (registry w))))
            (emit (Logged "=== Verificación diaria iniciada ===") w)).
  split; [reflexivity|]. split; [reflexivity|]. split; [reflexivity|].
  unfold sweptWorld. cbv zeta. split.
  - destruct (0 <? _)%nat; [|reflexivity]. simpl. unfold reported.
    now rewrite sheets_htmlNotified.
  - eapply changesOnly_trans; [|apply changesOnly_emit].
    assert (H : changesOnly activeOff w
                  (emit (Logged ("Usuarios desactivados: "
                     +:+ Z_toString (Z.of_nat (List.length
                           (offenders (host w) (now w) (registry w))))))
                     (sweptAll (registry w)
                        (emit (Logged (Logger_inspect (host w) (map userFields (registry w))))
                           (emit (Logged "=== Verificación diaria iniciada ===") w))))).
    { eapply changesOnly_trans; [|apply changesOnly_emit].
      eapply changesOnly_trans; [|apply changesOnly_sweptAll].
      eapply changesOnly_trans; apply changesOnly_emit. }
    destruct (0 <? _)%nat; [|exact H].
    eapply changesOnly_trans; [exact H|]. apply changesOnly_htmlNotified.
Qed.

Lemma registry_named (w : World) : Forall (fun u => truthy (name u) = true) (registry w).
Proof.
  unfold registry. eapply Forall_impl; [apply usersOfRows_Forall|]. now intros u [H _].
Qed.

Lemma struck_cong (w1 w : World) (k : nat) (u : User) :
  host w1 = host w -> now w1 = now w -> sheets w1 = sheets w -> struck w1 k u = struck w k u.
Proof. intros Hh Hn Hs. unfold struck, grid. now rewrite Hh, Hn, Hs. Qed.

Lemma cell_sweptWorld (w : World) (k : nat) :
  cellOf (grid (sweptWorld w) "Usuarios") (S k) 4
  = if existsb (struck w k) (registry w) then VStr "FALSE"
    else cellOf (grid w "Usuarios") (S k) 4.
Proof.
  destruct (sheets_sweptWorld w) as (w1 & Hh & Hn & Hs & E & _).
  unfold grid at 1. rewrite E. fold (grid (sweptAll (registry w) w1) "Usuarios").
  rewrite cell_sweptAll by apply registry_named.
  rewrite (existsb_eq _ (struck w k)) by (intros u; now apply struck_cong).
  unfold grid. now rewrite Hs.
Qed.

Lemma names_sweptWorld (w : World) :
  namesOf (drop 1 (grid (sweptWorld w) "Usuarios")) = namesOf (drop 1 (grid w "Usuarios")).
Proof.
  destruct (sheets_sweptWorld w) as (w1 & Hh & Hn & Hs & E & _).
  unfold grid at 1. rewrite E. fold (grid (sweptAll (registry w) w1) "Usuarios").
  rewrite names_sweptAll by apply registry_named.
  unfold grid. now rewrite Hs.
Qed.

(** What the sweep does to the sheets.  It never throws.  In the sheet of
    users it writes nothing but the string ['FALSE'] into Active cells
    below the header: names, addresses, roles, groups and dates stay, as
    do the configuration and every other sheet, and the audit log only
    grows.  The Active cell of a row is set to ['FALSE'] exactly when the
    row is the first one that carries the name of some stale user of the
    list read at the start; every other Active cell keeps its content. *)
Theorem sweep_marks_first_row_of_each_name (w : World) :
  exists w' : World,
    verificarUsuariosInactivos w = (Ok tt, w')
    /\ changesOnly activeOff w w'
    /\ namesOf (drop 1 (grid w' "Usuarios")) = namesOf (drop 1 (grid w "Usuarios"))
    /\ forall k : nat,
         cellOf (grid w' "Usuarios") (S k) 4
         = if existsb (struck w k) (registry w) then VStr "FALSE"
           else cellOf (grid w "Usuarios") (S k) 4.
Proof.
  exists (sweptWorld w). split; [apply verificarUsuariosInactivos_eq|].
  split; [|split; [apply names_sweptWorld|apply cell_sweptWorld]].
  now destruct (sheets_sweptWorld w) as (_ & _ & _ & _ & _ & H).
Qed.

Lemma In_registry (w : World) (k : nat) (r : list value) :
  drop 1 (grid w "Usuarios") !! k = Some r -> truthy (index r 0) = true ->
  In (userOfRow r) (registry w).
Proof.
  intros Hr Ht. unfold registry, usersOfRows. apply in_map, filter_In.
  split; [|exact Ht]. apply list_elem_of_In. eapply list_elem_of_lookup_2. exact Hr.
Qed.

(** Two rows with one name.  When the name of a stale user also stands in
    an earlier row, the sweep marks that earlier row, whatever the last
    access of its own user, and leaves the row of the stale user as it
    was: its Active cell and its dates are unchanged, so the user is
    still active and stale for the next run. *)
Theorem sweep_marks_namesake (w : World) (k1 k2 : nat) (r2 : list value) :
  drop 1 (grid w "Usuarios") !! k2 = Some r2 ->
  truthy (index r2 0) = true ->
  isStale (host w) (now w) (userOfRow r2) = true ->
  findRow (drop 1 (grid w "Usuarios")) (index r2 0) = Some k1 ->
  k1 <> k2 ->
  exists w' : World,
    verificarUsuariosInactivos w = (Ok tt, w')
    /\ cellOf (grid w' "Usuarios") (S k1) 4 = VStr "FALSE"
    /\ (forall j : nat,
          cellOf (grid w' "Usuarios") (S k2) j = cellOf (grid w "Usuarios") (S k2) j).
Proof.
  intros Hr2 Ht Hstale Hfind Hne.
  exists (sweptWorld w). split; [apply verificarUsuariosInactivos_eq|]. split.
  - rewrite cell_sweptWorld.
    assert (Hex : existsb (struck w k1) (registry w) = true).
    { apply existsb_exists. exists (userOfRow r2). split; [now apply (In_registry w k2)|].
      unfold struck. rewrite Hstale. simpl. now apply bool_decide_eq_true_2. }
    now rewrite Hex.
  - intros j. destruct (decide (j = 4%nat)) as [->|Hj].
    + rewrite cell_sweptWorld.
      assert (Hex : existsb (struck w k2) (registry w) = false).
      { apply Bool.not_true_is_false. intros Hex.
        apply existsb_exists in Hex as (u & _ & Hu).
        unfold struck in Hu. apply andb_prop in Hu as [_ Hu].
        apply bool_decide_eq_true_1 in Hu.
        destruct (findRow_Some _ _ _ Hu) as (r & Hr & Hs & Hfirst).
        rewrite Hr2 in Hr. injection Hr as <-.
        destruct (findRow_Some _ _ _ Hfind) as (r1 & Hr1 & Hs1 & Hfirst1).
        destruct (decide (k1 < k2)%nat) as [Hlt|Hge].
        - specialize (Hfirst k1 r1 Hlt Hr1).
          apply strictEq_eq in Hs1. rewrite Hs1, Hs in Hfirst. discriminate.
        - assert (Hlt : (k2 < k1)%nat) by lia.
          specialize (Hfirst1 k2 r2 Hlt Hr2).
          pose proof (strictEq_eq _ _ Hs1) as Heq. rewrite Heq in Hs1.
          congruence. }
      now rewrite Hex.
    + destruct (sheets_sweptWorld w) as (_ & _ & _ & _ & _ & (_ & _ & Hc & _)).
      destruct (Hc (S k2) j) as [E|(_ & Hj' & _)]; [exact E|contradiction].
Qed.

(** Ana of row 2 was seen yesterday, her namesake of row 3 a month ago:
    the sweep sets the Active cell of row 2 and leaves row 3 alone. *)
Lemma sweep_marks_namesake_witness :
  drop 1 (grid Duplicates.namesakesWorld "Usuarios") !! 1%nat = Some Duplicates.anaStale
  /\ truthy (index Duplicates.anaStale 0) = true
  /\ isStale (host Duplicates.namesakesWorld) (now Duplicates.namesakesWorld)
       (userOfRow Duplicates.anaStale) = true
  /\ findRow (drop 1 (grid Duplicates.namesakesWorld "Usuarios"))
       (index Duplicates.anaStale 0) = Some 0%nat
  /\ 0%nat <> 1%nat
  /\ exists w' : World,
       verificarUsuariosInactivos Duplicates.namesakesWorld = (Ok tt, w')
       /\ cellOf (grid w' "Usuarios") 1 4 = VStr "FALSE"
       /\ cellOf (grid w' "Usuarios") 2 4 = VBool true.
Proof.
  assert (H1 : drop 1 (grid Duplicates.namesakesWorld "Usuarios") !! 1%nat
               = Some Duplicates.anaStale) by reflexivity.
  assert (H2 : truthy (index Duplicates.anaStale 0) = true) by reflexivity.
  assert (H3 : isStale (host Duplicates.namesakesWorld) (now Duplicates.namesakesWorld)
                 (userOfRow Duplicates.anaStale) = true) by (vm_compute; reflexivity).
  assert (H4 : findRow (drop 1 (grid Duplicates.namesakesWorld "Usuarios"))
                 (index Duplicates.anaStale 0) = Some 0%nat) by reflexivity.
  assert (H5 : 0%nat <> 1%nat) by lia.
  split; [exact H1|]. split; [exact H2|]. split; [exact H3|]. split; [exact H4|].
  split; [exact H5|].
  destruct (sweep_marks_namesake Duplicates.namesakesWorld 0 1 Duplicates.anaStale
              H1 H2 H3 H4 H5) as (w' & E & Hfirst & Hkept).
  exists w'. split; [exact E|]. split; [exact Hfirst|]. rewrite Hkept. reflexivity.
Defined.

(* ===================================================================== *)
(** ** From the new-user processor to the sweep                           *)
(* ===================================================================== *)

Lemma index_insert_eq (j : nat) (v : value) (l : list value) :
  (j < List.length l)%nat -> index (<[ j := v ]> l) j = v.
Proof.
  intros H. unfold index. rewrite nth_lookup, list_lookup_insert_eq by exact H. reflexivity.
Qed.

Lemma index_insert_ne (i j : nat) (v : value) (l : list value) :
  i <> j -> index (<[ i := v ]> l) j = index l j.
Proof.
  intros H. unfold index. now rewrite !nth_lookup, list_lookup_insert_ne.
Qed.

Lemma index_padTo_name (n : nat) (r : list value) :
  truthy (index (padTo n (VStr "") r) 0) = truthy (index r 0).
Proof.
  unfold padTo. destruct r as [|x r]; [|reflexivity].
  simpl. now destruct (n - 0)%nat.
Qed.

(** The row of the sheet after [processNewUser]. *)
Lemma onboarded_row (user : User) (row : Z) (w : World) :
  is_Some (sheets w !! "Usuarios") ->
  exists rowData : list value,
    grid (onboarded user row w) "Usuarios" !! Z.to_nat (row - 1) = Some rowData
    /\ index rowData 5 = VDate (Int (now w))
    /\ index rowData 6 = VDate (Int (now w))
    /\ truthy (index rowData 0)
       = truthy (index (default [] (grid w "Usuarios" !! Z.to_nat (row - 1))) 0).
Proof.
  intros Hs. rewrite grid_onboarded by exact Hs.
  eexists. split; [apply lookup_setCell|].
  rewrite lookup_setCell. simpl default.
  set (r0 := default [] (grid w "Usuarios" !! Z.to_nat (row - 1))).
  set (r1 := <[ 5%nat := VDate (Int (now w)) ]> (padTo 6 (VStr "") r0)).
  assert (H1 : (6 <= List.length r1)%nat).
  { unfold r1. rewrite length_insert. apply length_padTo. }
  assert (H2 : (7 <= List.length (padTo 7 (VStr "") r1))%nat) by apply length_padTo.
  split; [|split].
  - rewrite index_insert_ne by lia.
    unfold padTo, index. rewrite app_nth1 by lia.
    unfold r1. apply index_insert_eq. pose proof (length_padTo 6 (VStr "") r0). lia.
  - apply index_insert_eq. lia.
  - rewrite index_insert_ne by lia. rewrite index_padTo_name.
    unfold r1. rewrite index_insert_ne by lia. apply index_padTo_name.
Qed.

(** A user onboarded by [processNewUser] is read back by [getUsers] with
    the time of the run as date of registration and as last access, and
    is not stale for the sweep at any time less than 8 days away from the
    run: the sweep cannot flag a new user during the first week. *)
Theorem new_user_not_stale_for_a_week (user : User) (row : Z) (w : World) :
  is_Some (sheets w !! "Usuarios") -> 1 < row ->
  exists (w' : World) (rowData : list value),
    processNewUser user row w = (Ok tt, w')
    /\ grid w' "Usuarios" !! Z.to_nat (row - 1) = Some rowData
    /\ dateRegistered (userOfRow rowData) = VDate (Int (now w))
    /\ lastAccess (userOfRow rowData) = VDate (Int (now w))
    /\ (truthy (cellOf (grid w "Usuarios") (Z.to_nat (row - 1)) 0) = true ->
        In (userOfRow rowData) (registry w'))
    /\ (forall (h : Host) (t : Z),
          Z.abs (t - now w) < 8 * msPerDay -> isStale h t (userOfRow rowData) = false).
Proof.
  intros Hs Hrow.
  destruct (onboarded_row user row w Hs) as (rowData & Hr & H5 & H6 & H0).
  exists (onboarded user row w), rowData.
  split; [apply processNewUser_eq; [exact Hs|lia]|]. split; [exact Hr|].
  split; [exact H5|]. split; [exact H6|]. split.
  - intros Hname. apply (In_registry _ (Z.to_nat (row - 2))).
    + rewrite lookup_drop. replace (1 + Z.to_nat (row - 2))%nat with (Z.to_nat (row - 1)) by lia.
      exact Hr.
    + rewrite H0. rewrite cellOf_default in Hname.
      destruct (grid w "Usuarios" !! Z.to_nat (row - 1)) as [r|]; simpl in *.
      * unfold index. rewrite nth_lookup. destruct (r !! 0%nat); [exact Hname|discriminate].
      * discriminate.
  - intros h t Ht. unfold isStale.
    change (lastAccess (userOfRow rowData)) with (index rowData 6). rewrite H6.
    apply Bool.andb_false_iff. right. simpl. apply Z.ltb_ge.
    pose proof msPerDay_pos.
    assert (Z.abs (t - now w) / msPerDay < 8); [|lia].
    apply Z.div_lt_upper_bound; lia.
Qed.

(** The complete row 2 of the sheet [Scenario.fresh]. *)
Lemma new_user_not_stale_witness :
  is_Some (sheets (Scenario.freshWorld Scenario.host0) !! "Usuarios")
  /\ 1 < 2
  /\ exists (w' : World) (rowData : list value),
       processNewUser (normalizeRow Scenario.host0 Scenario.freshRow) 2
         (Scenario.freshWorld Scenario.host0) = (Ok tt, w')
       /\ grid w' "Usuarios" !! Z.to_nat (2 - 1) = Some rowData
       /\ isStale Scenario.host0 (Scenario.t0 + 7 * Scenario.day) (userOfRow rowData) = false.
Proof.
  assert (H1 : is_Some (sheets (Scenario.freshWorld Scenario.host0) !! "Usuarios")).
  { exists Scenario.fresh. reflexivity. }
  assert (H2 : 1 < 2) by lia.
  split; [exact H1|]. split; [exact H2|].
  destruct (new_user_not_stale_for_a_week (normalizeRow Scenario.host0 Scenario.freshRow) 2
              (Scenario.freshWorld Scenario.host0) H1 H2)
    as (w' & rowData & E & Hr & _ & _ & _ & Hfresh).
  exists w', rowData. split; [exact E|]. split; [exact Hr|].
  apply Hfresh. vm_compute. reflexivity.
Defined.

(* ===================================================================== *)
(** ** What the address check guarantees                                  *)
(* ===================================================================== *)

Lemma countAt_app (a b : string) : countAt (a +:+ b) = (countAt a + countAt b)%nat.
Proof. induction a as [|c a IH]; unapp; simpl; [reflexivity|]. rewrite IH. lia. Qed.

Lemma hasSpace_app (a b : string) : hasSpace (a +:+ b) = hasSpace a || hasSpace b.
Proof.
  induction a as [|c a IH]; unapp; simpl; [reflexivity|].
  now rewrite IH, Bool.orb_assoc.
Qed.

Lemma length_append (a b : string) :
  String.length (a +:+ b) = (String.length a + String.length b)%nat.
Proof. induction a as [|c a IH]; unapp; simpl; [reflexivity|]. now rewrite IH. Qed.

Lemma allOk_plain (a : string) : allOk a = true -> countAt a = 0%nat /\ hasSpace a = false.
Proof.
  induction a as [|c a IH]; simpl; [auto|].
  unfold okChar. intros H. apply andb_prop in H as [Hc Ha]. apply andb_prop in Hc as [Hs Hat].
  destruct (IH Ha) as [-> ->].
  apply Bool.negb_true_iff in Hs, Hat. now rewrite Hs, Hat.
Qed.

Lemma length_nonempty (a : string) : a <> "" -> (1 <= String.length a)%nat.
Proof. destruct a; [congruence|simpl; lia]. Qed.

(** An address the check of [sendNotification] accepts has exactly one
    [@], no white space and at least five characters.  The check is no
    more than that shape: an accepted address stays accepted when any
    characters other than white space and [@] are added at its end. *)
Theorem accepted_address_shape (s : string) :
  emailRegex_test s = true ->
  countAt s = 1%nat
  /\ hasSpace s = false
  /\ (5 <= String.length s)%nat
  /\ forall t : string, allOk t = true -> emailRegex_test (s +:+ t) = true.
Proof.
  intros H. apply emailRegex_test_spec in H.
  destruct H as (a & b & c & -> & Ha & Hb & Hc & Hoka & Hokb & Hokc).
  destruct (allOk_plain a Hoka) as [Ca Sa], (allOk_plain b Hokb) as [Cb Sb],
    (allOk_plain c Hokc) as [Cc Sc].
  pose proof (length_nonempty a Ha). pose proof (length_nonempty b Hb).
  pose proof (length_nonempty c Hc).
  split; [|split; [|split]].
  - rewrite !countAt_app, Ca, Cb, Cc. reflexivity.
  - rewrite !hasSpace_app, Sa, Sb, Sc. reflexivity.
  - rewrite !length_append. simpl. lia.
  - intros t Ht. apply emailRegex_test_spec. exists a, b, (c +:+ t).
    split; [now rewrite !append_assoc|].
    split; [exact Ha|]. split; [exact Hb|]. split.
    + destruct c; [congruence|]. unapp. discriminate.
    + split; [exact Hoka|]. split; [exact Hokb|]. now rewrite allOk_app, Hokc, Ht.
Qed.

(** The address of the configuration of the scenarios. *)
Lemma accepted_address_shape_witness :
  emailRegex_test "admin@empresa.com" = true
  /\ countAt "admin@empresa.com" = 1%nat
  /\ hasSpace "admin@empresa.com" = false
  /\ (5 <= String.length "admin@empresa.com")%nat
  /\ forall t : string, allOk t = true -> emailRegex_test ("admin@empresa.com" +:+ t) = true.
Proof.
  assert (H : emailRegex_test "admin@empresa.com" = true) by reflexivity.
  split; [exact H|]. exact (accepted_address_shape "admin@empresa.com" H).
Defined.

(* ===================================================================== *)
(** ** Blank cells                                                        *)
(* ===================================================================== *)

Lemma trim_allSpace (s : string) : allSpace s = true -> trim s = "".
Proof.
  intros H. unfold trim.
  assert (E : trimStart s = "").
  { induction s as [|c s IH]; simpl in *; [reflexivity|].
    apply andb_prop in H as [Hc Hs]. rewrite Hc. now apply IH. }
  now rewrite E.
Qed.

Lemma cleanString_blank (h : Host) (s : string) :
  allSpace s = true -> cleanString h (VStr s) = "".
Proof.
  intros H. unfold cleanString. destruct (truthy (VStr s)); [|reflexivity].
  simpl. now apply trim_allSpace.
Qed.

(** A name, address, role or group cell that holds only white space
    counts as empty: whatever the other cells hold and whichever column
    is edited, the row is not taken for a new user. *)
Theorem blank_field_blocks_onboarding (h : Host) (row col : Z) (userData : list value)
    (j : nat) (s : string) :
  (j < 4)%nat -> index userData j = VStr s -> allSpace s = true ->
  List.filter isNewUser (classify h row col userData) = [].
Proof.
  intros Hj Hcell Hs.
  destruct (classify_cases h row col userData)
    as [E|[(_ & _ & Hn & _)|[(_ & _ & _ & E)|(_ & _ & _ & E)]]]; try (rewrite E; reflexivity).
  exfalso. apply andb_prop in Hn as [Hn _]. apply filaCompleta_complete in Hn.
  destruct Hn as (H0 & H1 & H2 & H3).
  pose proof (cleanString_blank h s Hs) as Hb.
  unfold normalizeRow in H0, H1, H2, H3; simpl in H0, H1, H2, H3.
  destruct j as [|[|[|[|j]]]]; [| | | |lia]; rewrite Hcell, Hb in *; congruence.
Qed.

(** A row that is complete but for its name of three spaces. *)
Lemma blank_field_witness :
  (0 < 4)%nat
  /\ index Cases.blankNameRow 0 = VStr "   "
  /\ allSpace "   " = true
  /\ List.filter isNewUser (classify Scenario.host0 2 1 Cases.blankNameRow) = [].
Proof.
  assert (H1 : (0 < 4)%nat) by lia.
  assert (H2 : index Cases.blankNameRow 0 = VStr "   ") by reflexivity.
  assert (H3 : allSpace "   " = true) by reflexivity.
  split; [exact H1|]. split; [exact H2|]. split; [exact H3|].
  exact (blank_field_blocks_onboarding Scenario.host0 2 1 Cases.blankNameRow 0 "   "
           H1 H2 H3).
Defined.

(* ===================================================================== *)
(** ** The manual test functions                                          *)
(* ===================================================================== *)

Lemma probarCode_eq (w : World) :
  probarCode w
  = (Ok tt,
     emit (Logged "=== PRUEBA CODE.GS COMPLETADA ===")
       (emit (Logged "logEvent() funciona correctamente")
          (audited {| ev_type := VStr "PRUEBA";
                      ev_user := VStr "Test";
                      ev_details := VStr "Prueba de Code.gs";
                      ev_status := VStr "OK";
                      ev_action := VStr "Ninguna" |}
             (emit (Logged ("Total usuarios: "
                            +:+ Z_toString (Z.of_nat (List.length (registry w)))))
                (emit (Logged "getUsers() funciona correctamente")
                   (match configOf w with
                    | Some config =>
                        emit (Logged ("Email configurado: "
                                      +:+ toString (host w) (cfg_get config "emailNotificacion")))
                          (emit (Logged "getConfig() funciona correctamente")
                             (emit (Logged "=== PROBANDO CODE.GS ===") w))
                    | None =>
                        emit (Logged "getConfig() falló: Hoja Configuración no encontrada")
                          (emit (Logged "=== PROBANDO CODE.GS ===") w)
                    end)))))).
Proof.
  unfold probarCode.
  erewrite bind_Ok by apply Logger_log_eq.
  set (w0 := emit (Logged "=== PROBANDO CODE.GS ===") w).
  assert (H1 : forall k : unit -> M unit,
    (x ← tryCatch
        (config ← getConfig;
         _ ← Logger_log "getConfig() funciona correctamente";
         h ← gets host;
         Logger_log ("Email configurado: " +:+ toString h (cfg_get config "emailNotificacion")))
        (fun message => Logger_log ("getConfig() falló: " +:+ message)); k x) w0
    = k tt (match configOf w with
            | Some config =>
                emit (Logged ("Email configurado: "
                              +:+ toString (host w) (cfg_get config "emailNotificacion")))
                  (emit (Logged "getConfig() funciona correctamente") w0)
            | None => emit (Logged "getConfig() falló: Hoja Configuración no encontrada") w0
            end)).
  { intros k. apply bind_Ok. unfold tryCatch.
    unfold mbind at 1, M_bind at 1, bind at 1. rewrite getConfig_eq.
    change (configOf w0) with (configOf w).
    destruct (configOf w) as [config|]; reflexivity. }
  rewrite H1. clear H1.
  set (w1 := match configOf w with Some _ => _ | None => _ end).
  assert (Hreg : registry w1 = registry w).
  { unfold w1. now destruct (configOf w) as [config|]. }
  assert (H2 : forall k : unit -> M unit,
    (x ← tryCatch
        (users ← getUsers;
         _ ← Logger_log "getUsers() funciona correctamente";
         Logger_log ("Total usuarios: " +:+ Z_toString (Z.of_nat (List.length users))))
        (fun message => Logger_log ("getUsers() falló: " +:+ message)); k x) w1
    = k tt (emit (Logged ("Total usuarios: "
                          +:+ Z_toString (Z.of_nat (List.length (registry w)))))
              (emit (Logged "getUsers() funciona correctamente") w1))).
  { intros k. apply bind_Ok. unfold tryCatch.
    unfold mbind at 1, M_bind at 1, bind at 1. rewrite getUsers_eq, Hreg. reflexivity. }
  rewrite H2. clear H2.
  erewrite bind_Ok; [reflexivity|]. unfold tryCatch.
  unfold mbind at 1, M_bind at 1, bind at 1. rewrite logEvent_eq. reflexivity.
Qed.

(** [probarCode] never throws and writes nothing but its one audit row.
    It reports [getUsers] and [logEvent] as working in every world, also
    when the sheet of users or the audit log is missing and nothing was
    read or written; [getConfig] is reported as working exactly when the
    sheet [Configuración] exists. *)
Theorem probarCode_reports_success (w : World) :
  exists w' : World,
    probarCode w = (Ok tt, w')
    /\ changesOnly nowhere w w'
    /\ visible (newEffects w w')
       = (if bool_decide (is_Some (sheets w !! "RegistroDeEventos"))
          then [AppendRow "RegistroDeEventos"
                  [VDate (Int (now w)); VStr "PRUEBA"; VStr "Test";
                   VStr "Prueba de Code.gs"; VStr "OK"; VStr "Ninguna"]]
          else [])
    /\ In (Logged "getUsers() funciona correctamente") (newEffects w w')
    /\ In (Logged "logEvent() funciona correctamente") (newEffects w w')
    /\ (In (Logged "getConfig() funciona correctamente") (newEffects w w')
        <-> is_Some (sheets w !! "Configuración")).
Proof.
  eexists. split; [apply probarCode_eq|].
  split.
  { eapply changesOnly_trans; [|apply changesOnly_emit].
    eapply changesOnly_trans; [|apply changesOnly_emit].
    eapply changesOnly_trans; [|apply changesOnly_audited].
    eapply changesOnly_trans; [|apply changesOnly_emit].
    eapply changesOnly_trans; [|apply changesOnly_emit].
    destruct (configOf w) as [config|].
    - eapply changesOnly_trans; [|apply changesOnly_emit].
      eapply changesOnly_trans; apply changesOnly_emit.
    - eapply changesOnly_trans; apply changesOnly_emit. }
  unfold audited, configOf.
  destruct (sheets w !! "Configuración") as [cfg|] eqn:Hc;
    destruct (sheets w !! "RegistroDeEventos") as [g|] eqn:Hg;
    cbn [sheets emit setSheets]; rewrite ?Hg;
    (erewrite newEffects_app; [|simpl; rewrite <- ?app_assoc; reflexivity]);
    (split; [first [rewrite bool_decide_eq_true_2 by eauto
                   |rewrite bool_decide_eq_false_2 by (intros [? ?]; discriminate)];
             reflexivity|]);
    (split; [simpl; repeat (first [left; reflexivity | right])|]);
    (split; [simpl; repeat (first [left; reflexivity | right])|]);
    (split; [|first [intros [? ?]; discriminate
                    |intros _; simpl; repeat (first [left; reflexivity | right])]]);
    intros H; try (now eauto); exfalso;
    simpl in H;
    repeat match type of H with
    | _ \/ _ => destruct H as [H|H]
    | Logged _ = Logged _ => unapp_in H; discriminate H
    | _ = _ => discriminate H
    | False => exact H
    end.
Qed.

Lemma firstEmptyRow_spec (i : nat) (rows : list (list value)) (row : Z) :
  firstEmptyRow i rows = Some row ->
  exists (k : nat) (r : list value),
    row = Z.of_nat (i + k) + 1 /\ rows !! k = Some r /\ truthy (index r 0) = false.
Proof.
  revert i. induction rows as [|r rows IH]; intros i; simpl; [discriminate|].
  destruct (negb (truthy (index r 0)) || strictEq (index r 0) (VStr "")) eqn:E.
  - intros [= <-]. exists 0%nat, r. split; [f_equal; lia|]. split; [reflexivity|].
    apply Bool.orb_true_iff in E as [E|E]; [now apply Bool.negb_true_iff|].
    apply strictEq_VStr in E. now rewrite E.
  - intros H. destruct (IH _ H) as (k & r' & -> & Hr & Ht).
    exists (S k), r'. split; [f_equal; lia|]. split; [exact Hr|exact Ht].
Qed.

(** The row the test picks is below the header and has no name. *)
Lemma emptyRowOf_spec (g : list (list value)) :
  g <> [] ->
  2 <= emptyRowOf g /\ truthy (cellOf g (Z.to_nat (emptyRowOf g - 1)) 0) = false.
Proof.
  intros Hg. unfold emptyRowOf.
  destruct (firstEmptyRow 1 (drop 1 g)) as [row|] eqn:E.
  - destruct (firstEmptyRow_spec _ _ _ E) as (k & r & -> & Hr & Ht).
    split; [lia|]. rewrite lookup_drop in Hr.
    replace (Z.to_nat (Z.of_nat (1 + k) + 1 - 1)) with (1 + k)%nat by lia.
    unfold cellOf. rewrite Hr. unfold index in Ht. rewrite nth_lookup in Ht.
    now destruct (r !! 0%nat).
  - destruct g as [|r0 g]; [congruence|].
    change (List.length (r0 :: g)) with (S (List.length g)).
    split; [lia|].
    unfold cellOf. rewrite lookup_ge_None_2; [reflexivity|].
    change (List.length (r0 :: g)) with (S (List.length g)).
    replace (Z.of_nat (S (List.length g)) + 1 - 1) with (Z.of_nat (S (List.length g))) by lia.
    rewrite Nat2Z.id. apply Nat.le_refl.
Qed.

Lemma sheets_written (row : Z) (w : World) (s : string) :
  is_Some (sheets (written row w) !! s) <-> is_Some (sheets w !! s).
Proof.
  unfold written, stampCell. cbn [sheets emit setSheets].
  now rewrite !fmap_is_Some || (destruct (decide (s = "Usuarios")) as [->|Hne];
    [rewrite !lookup_alter_eq, !fmap_is_Some|rewrite !lookup_alter_ne by congruence]).
Qed.

Lemma pruebaCompletaNuevoUsuario_eq (stack : string -> string) (w : World) :
  is_Some (sheets w !! "Usuarios") -> grid w "Usuarios" <> [] ->
  pruebaCompletaNuevoUsuario stack w = (Ok tt, tested w).
Proof.
  intros [g Hg] Hne. unfold pruebaCompletaNuevoUsuario, tested.
  assert (Hgrid : grid w "Usuarios" = g) by (unfold grid; now rewrite Hg).
  rewrite Hgrid in *.
  destruct (emptyRowOf_spec g Hne) as [Hrow _].
  erewrite bind_Ok by apply Logger_log_eq.
  erewrite bind_Ok by (unfold getSheetByName, gets; cbn [sheets emit]; rewrite Hg; reflexivity).
  erewrite bind_Ok by reflexivity.
  erewrite (bind_Ok _ _ _ _ g)
    by (unfold getValues, gets; cbn [sheets emit]; rewrite Hg; reflexivity).
  cbv zeta.
  erewrite bind_Ok by apply Logger_log_eq.
  erewrite bind_Ok by (apply setValue_eq; lia).
  erewrite bind_Ok by (apply setValue_eq; lia).
  erewrite bind_Ok by (apply setValue_eq; lia).
  erewrite bind_Ok by (apply setValue_eq; lia).
  erewrite bind_Ok by (apply setValue_eq; lia).
  erewrite bind_Ok by apply Logger_log_eq.
  erewrite bind_Ok by reflexivity.
  set (w1 := emit (Logged ("Fila para prueba: " +:+ Z_toString (emptyRowOf g))) _).
  fold (written (emptyRowOf g) w1).
  fold (slept 1000 (emit (Logged "Datos escritos en la hoja") (written (emptyRowOf g) w1))).
  set (w2 := slept 1000 _).
  erewrite bind_Ok; [reflexivity|].
  unfold tryCatch.
  erewrite bind_Ok by apply Logger_log_eq.
  erewrite bind_Ok.
  2:{ apply processNewUser_eq; [|lia].
      unfold w2, slept. cbn [sheets emit]. apply sheets_written.
      unfold w1. cbn [sheets emit]. eauto. }
  reflexivity.
Qed.

Lemma sheets_written_other (row : Z) (w : World) (s : string) :
  s <> "Usuarios" -> sheets (written row w) !! s = sheets w !! s.
Proof.
  intros Hs. unfold written, stampCell. cbn [sheets emit setSheets].
  now rewrite !lookup_alter_ne by congruence.
Qed.

Lemma grid_written (row : Z) (w : World) :
  is_Some (sheets w !! "Usuarios") ->
  grid (written row w) "Usuarios"
  = setCell (Z.to_nat (row - 1)) 4 (VStr "TRUE")
      (setCell (Z.to_nat (row - 1)) 3 (group testUser)
         (setCell (Z.to_nat (row - 1)) 2 (role testUser)
            (setCell (Z.to_nat (row - 1)) 1 (email testUser)
               (setCell (Z.to_nat (row - 1)) 0 (name testUser) (grid w "Usuarios"))))).
Proof.
  intros Hs. unfold written.
  assert (Hk : forall (w0 : World) (c : Z) (v : value),
             is_Some (sheets w0 !! "Usuarios") ->
             is_Some (sheets (stampCell row c v w0) !! "Usuarios")).
  { intros w0 c v H. unfold stampCell. cbn [sheets emit]. now apply sheets_alter_is_Some. }
  rewrite !grid_stampCell by auto 10. reflexivity.
Qed.

Lemma grid_tested (w : World) :
  is_Some (sheets w !! "Usuarios") ->
  grid (tested w) "Usuarios"
  = setCell (Z.to_nat (emptyRowOf (grid w "Usuarios") - 1)) 6 (VDate (Int (now w + 1000)))
      (setCell (Z.to_nat (emptyRowOf (grid w "Usuarios") - 1)) 5 (VDate (Int (now w + 1000)))
         (grid (written (emptyRowOf (grid w "Usuarios")) w) "Usuarios")).
Proof.
  intros Hs. unfold tested. cbv zeta. rewrite !grid_emit.
  rewrite grid_onboarded.
  - rewrite grid_emit. unfold grid at 3. unfold slept. cbn [sheets emit now].
    unfold grid at 4. unfold written, stampCell. cbn [sheets emit setSheets]. reflexivity.
  - unfold slept. cbn [sheets emit]. apply sheets_written. exact Hs.
Qed.

Lemma sheets_emit (e : Effect) (w : World) : sheets (emit e w) = sheets w.
Proof. reflexivity. Qed.

Lemma sheets_slept (ms : Z) (w : World) : sheets (slept ms w) = sheets w.
Proof. reflexivity. Qed.

Lemma sheets_onboarded_other (user : User) (row : Z) (w : World) (s : string) :
  s <> "Usuarios" -> s <> "RegistroDeEventos" ->
  sheets (onboarded user row w) !! s = sheets w !! s.
Proof.
  intros Hu Hr. unfold onboarded. rewrite sheets_emit.
  rewrite sheets_scheduled, sheets_htmlNotified, sheets_audited_other by exact Hr.
  unfold stamped, stampCell. cbn [sheets emit setSheets].
  now rewrite !lookup_alter_ne by congruence.
Qed.

Lemma sheets_tested_other (w : World) (s : string) :
  s <> "Usuarios" -> s <> "RegistroDeEventos" -> sheets (tested w) !! s = sheets w !! s.
Proof.
  intros Hu Hr. unfold tested. cbv zeta. rewrite !sheets_emit.
  rewrite sheets_onboarded_other by assumption.
  rewrite sheets_emit, sheets_slept, sheets_emit.
  rewrite sheets_written_other by assumption. now rewrite !sheets_emit.
Qed.

Lemma cells_tested_other (w : World) (i j : nat) :
  is_Some (sheets w !! "Usuarios") ->
  i <> Z.to_nat (emptyRowOf (grid w "Usuarios") - 1) ->
  cellOf (grid (tested w) "Usuarios") i j = cellOf (grid w "Usuarios") i j.
Proof.
  intros Hs Hi. rewrite grid_tested, grid_written by exact Hs.
  rewrite !cellOf_setCell_ne by congruence. reflexivity.
Qed.

Lemma cells_tested_row (w : World) :
  is_Some (sheets w !! "Usuarios") ->
  map (cellOf (grid (tested w) "Usuarios") (Z.to_nat (emptyRowOf (grid w "Usuarios") - 1)))
      (seq 0 7)
  = [VStr "Pedro Ramírez"; VStr "pedro.ramirez@empresa.com"; VStr "Viewer";
     VStr "RH"; VStr "TRUE"; VDate (Int (now w + 1000)); VDate (Int (now w + 1000))].
Proof.
  intros Hs. rewrite grid_tested, grid_written by exact Hs.
  change (seq 0 7) with [0; 1; 2; 3; 4; 5; 6]%nat. cbn [map].
  repeat first [rewrite cellOf_setCell_eq
               |rewrite cellOf_setCell_ne by (intros [=])].
  reflexivity.
Qed.

(** [pruebaCompletaNuevoUsuario] on a sheet of users that has its header.
    It never throws.  The row it picks lies below the header and has no
    name; it is the only row the run changes, so no user of the sheet is
    overwritten.  Afterwards the row holds the test user with the string
    ['TRUE'] as active flag and, in both date cells, the time of the run
    after the pause of one second.  Sheets other than the audit log are
    left alone. *)
Theorem test_run_adds_a_user (stack : string -> string) (w : World) :
  is_Some (sheets w !! "Usuarios") -> grid w "Usuarios" <> [] ->
  exists (w' : World) (row : Z),
    pruebaCompletaNuevoUsuario stack w = (Ok tt, w')
    /\ 2 <= row
    /\ truthy (cellOf (grid w "Usuarios") (Z.to_nat (row - 1)) 0) = false
    /\ (forall i j : nat,
          i <> Z.to_nat (row - 1) ->
          cellOf (grid w' "Usuarios") i j = cellOf (grid w "Usuarios") i j)
    /\ map (cellOf (grid w' "Usuarios") (Z.to_nat (row - 1))) (seq 0 7)
       = [VStr "Pedro Ramírez"; VStr "pedro.ramirez@empresa.com"; VStr "Viewer";
          VStr "RH"; VStr "TRUE"; VDate (Int (now w + 1000)); VDate (Int (now w + 1000))]
    /\ (forall s : string,
          s <> "Usuarios" -> s <> "RegistroDeEventos" -> sheets w' !! s = sheets w !! s).
Proof.
  intros Hs Hne.
  destruct (emptyRowOf_spec _ Hne) as [Hrow Hempty].
  exists (tested w), (emptyRowOf (grid w "Usuarios")).
  split; [now apply pruebaCompletaNuevoUsuario_eq|].
  split; [exact Hrow|]. split; [exact Hempty|].
  split; [intros i j Hi; now apply cells_tested_other|].
  split; [now apply cells_tested_row|].
  intros s Hu Hr. now apply sheets_tested_other.
Qed.

(** The sheet of the three users: the test takes row 5. *)
Lemma test_run_adds_a_user_witness :
  is_Some (sheets Scenario.threeUsersWorld !! "Usuarios")
  /\ grid Scenario.threeUsersWorld "Usuarios" <> []
  /\ exists (w' : World) (row : Z),
       pruebaCompletaNuevoUsuario (fun message => message) Scenario.threeUsersWorld
       = (Ok tt, w')
       /\ 2 <= row
       /\ map (cellOf (grid w' "Usuarios") (Z.to_nat (row - 1))) (seq 0 7)
          = [VStr "Pedro Ramírez"; VStr "pedro.ramirez@empresa.com"; VStr "Viewer";
             VStr "RH"; VStr "TRUE"; VDate (Int (now Scenario.threeUsersWorld + 1000));
             VDate (Int (now Scenario.threeUsersWorld + 1000))].
Proof.
  assert (H1 : is_Some (sheets Scenario.threeUsersWorld !! "Usuarios")).
  { exists Scenario.threeUsers. reflexivity. }
  assert (H2 : grid Scenario.threeUsersWorld "Usuarios" <> []).
  { vm_compute. discriminate. }
  split; [exact H1|]. split; [exact H2|].
  destruct (test_run_adds_a_user (fun message => message) Scenario.threeUsersWorld H1 H2)
    as (w' & row & E & Hrow & _ & _ & Hcells & _).
  exists w', row. split; [exact E|]. split; [exact Hrow|exact Hcells].
Defined.

(* ===================================================================== *)
(** ** A second run of the sweep                                          *)
(* ===================================================================== *)

Lemma registry_row (w : World) (u : User) :
  In u (registry w) ->
  exists (k : nat) (r : list value),
    drop 1 (grid w "Usuarios") !! k = Some r /\ truthy (index r 0) = true /\ u = userOfRow r.
Proof.
  unfold registry, usersOfRows. intros H.
  apply in_map_iff in H as (r & <- & H). apply filter_In in H as [H Ht].
  apply list_elem_of_In, list_elem_of_lookup_1 in H as [k Hk].
  exists k, r. auto.
Qed.

Lemma names_lookup (l l' : list (list value)) (k : nat) (r' : list value) :
  namesOf l = namesOf l' -> l' !! k = Some r' ->
  exists r : list value, l !! k = Some r /\ index r 0 = index r' 0.
Proof.
  intros E Hr'. assert (H : namesOf l !! k = Some (index r' 0)).
  { rewrite E. unfold namesOf. rewrite list_lookup_fmap, Hr'. reflexivity. }
  unfold namesOf in H. rewrite list_lookup_fmap in H.
  destruct (l !! k) as [r|]; [|discriminate]. injection H as H. eauto.
Qed.

Lemma index_cellOf (g : list (list value)) (i j : nat) (r : list value) :
  g !! i = Some r -> index r j <> VUndef -> cellOf g i j = index r j.
Proof.
  intros Hr Hj. unfold cellOf, index in *. rewrite Hr. rewrite nth_lookup in *.
  destruct (r !! j); [reflexivity|]. now destruct Hj.
Qed.

Lemma cellOf_index (g : list (list value)) (i j : nat) (r : list value) :
  g !! i = Some r -> cellOf g i j <> VStr "" -> index r j = cellOf g i j.
Proof.
  intros Hr Hj. unfold cellOf, index in *. rewrite Hr in *. rewrite nth_lookup.
  destruct (r !! j); [reflexivity|]. now destruct Hj.
Qed.

(** Nobody stale: the run changes no sheet and does nothing but log. *)
Lemma sweep_nobody_stale (w : World) :
  (forall u, In u (registry w) -> isStale (host w) (now w) u = false) ->
  sheets (sweptWorld w) = sheets w /\ extends w (sweptWorld w) [].
Proof.
  intros Hnone.
  set (w1 := emit (Logged (Logger_inspect (host w) (map userFields (registry w))))
               (emit (Logged "=== Verificación diaria iniciada ===") w)).
  destruct (sweptAll_none (registry w) w1 Hnone) as [Hall Hoff].
  change (host w1) with (host w) in Hoff. change (now w1) with (now w) in Hoff.
  unfold sweptWorld. cbv zeta. fold w1. rewrite Hall. rewrite Hoff. simpl Nat.ltb.
  split; [reflexivity|]. extends_emits.
Qed.

Lemma trueLike_cell (v : value) :
  strictEq v (VBool true) || strictEq v (VStr "TRUE") = true ->
  v <> VUndef /\ v <> VStr "" /\ v <> VStr "FALSE".
Proof. intros H. repeat split; intros ->; discriminate. Qed.

Lemma stale_cell (h : Host) (t : Z) (v : value) :
  number_gt (daysBetween h t v) 7 = true -> v <> VUndef /\ v <> VStr "".
Proof. intros H. split; intros ->; discriminate. Qed.

(** After a run on a sheet in which every named row is the first row with
    its name, no user read from the sheet is stale. *)
Lemma sweptWorld_nobody_stale (w : World) :
  (forall (k : nat) (r : list value),
     drop 1 (grid w "Usuarios") !! k = Some r -> truthy (index r 0) = true ->
     findRow (drop 1 (grid w "Usuarios")) (index r 0) = Some k) ->
  forall u, In u (registry (sweptWorld w)) ->
    isStale (host (sweptWorld w)) (now (sweptWorld w)) u = false.
Proof.
  intros Hfirst u Hin.
  destruct (sheets_sweptWorld w) as (_ & _ & _ & _ & _ & ((Hh & Hn & _) & _ & Hc & _)).
  rewrite Hh, Hn.
  destruct (isStale (host w) (now w) u) eqn:E; [exfalso|reflexivity].
  destruct (registry_row _ _ Hin) as (k & r' & Hr' & Hname' & ->).
  destruct (names_lookup _ _ k r' (eq_sym (names_sweptWorld w)) Hr') as (r & Hr & Hname).
  rewrite lookup_drop in Hr, Hr'. simpl in Hr, Hr'.
  unfold isStale in E. apply andb_prop in E as [Ha Hd].
  change (truthy (active (userOfRow r')))
    with (strictEq (index r' 4) (VBool true) || strictEq (index r' 4) (VStr "TRUE")) in Ha.
  change (lastAccess (userOfRow r')) with (index r' 6) in Hd.
  destruct (trueLike_cell _ Ha) as (Ha1 & Ha2 & Ha3).
  destruct (stale_cell _ _ _ Hd) as (Hd1 & Hd2).
  pose proof (index_cellOf _ _ 4 _ Hr' Ha1) as C4.
  pose proof (index_cellOf _ _ 6 _ Hr' Hd1) as C6.
  rewrite cell_sweptWorld in C4.
  destruct (existsb (struck w k) (registry w)) eqn:Ex; [congruence|].
  destruct (Hc (S k) 6%nat) as [C6'|(_ & C6' & _)]; [|discriminate].
  rewrite C6' in C6.
  assert (I4 : index r 4 = index r' 4).
  { rewrite <- C4. apply (cellOf_index _ _ _ _ Hr). congruence. }
  assert (I6 : index r 6 = index r' 6).
  { rewrite <- C6. apply (cellOf_index _ _ _ _ Hr). congruence. }
  assert (Hstale : isStale (host w) (now w) (userOfRow r) = true).
  { unfold isStale.
    change (truthy (active (userOfRow r)))
      with (strictEq (index r 4) (VBool true) || strictEq (index r 4) (VStr "TRUE")).
    change (lastAccess (userOfRow r)) with (index r 6).
    now rewrite I4, I6, Ha, Hd. }
  assert (Hex : existsb (struck w k) (registry w) = true).
  { apply existsb_exists. exists (userOfRow r). split.
    - apply (In_registry w k); [now rewrite lookup_drop|congruence].
    - unfold struck. rewrite Hstale. simpl. apply bool_decide_eq_true_2.
      apply Hfirst; [now rewrite lookup_drop|congruence]. }
  congruence.
Qed.

(** On a sheet in which every named row is the first row with its name,
    one run of the sweep deals with every stale user: no user read from
    the sheet afterwards is stale, and a second run at that time changes
    no sheet, writes no audit row and sends no mail. *)
Theorem sweep_twice_is_sweep_once (w : World) :
  (forall (k : nat) (r : list value),
     drop 1 (grid w "Usuarios") !! k = Some r -> truthy (index r 0) = true ->
     findRow (drop 1 (grid w "Usuarios")) (index r 0) = Some k) ->
  exists w1 w2 : World,
    verificarUsuariosInactivos w = (Ok tt, w1)
    /\ (forall u : User, In u (registry w1) -> isStale (host w1) (now w1) u = false)
    /\ verificarUsuariosInactivos w1 = (Ok tt, w2)
    /\ sheets w2 = sheets w1
    /\ extends w1 w2 [].
Proof.
  intros Hfirst. exists (sweptWorld w), (sweptWorld (sweptWorld w)).
  pose proof (sweptWorld_nobody_stale w Hfirst) as Hnone.
  split; [apply verificarUsuariosInactivos_eq|]. split; [exact Hnone|].
  split; [apply verificarUsuariosInactivos_eq|]. now apply sweep_nobody_stale.
Qed.

(** The three users of the scenario have three names. *)
Lemma sweep_twice_witness :
  (forall (k : nat) (r : list value),
     drop 1 (grid Scenario.threeUsersWorld "Usuarios") !! k = Some r ->
     truthy (index r 0) = true ->
     findRow (drop 1 (grid Scenario.threeUsersWorld "Usuarios")) (index r 0) = Some k)
  /\ exists w1 w2 : World,
       verificarUsuariosInactivos Scenario.threeUsersWorld = (Ok tt, w1)
       /\ verificarUsuariosInactivos w1 = (Ok tt, w2)
       /\ sheets w2 = sheets w1
       /\ extends w1 w2 [].
Proof.
  assert (H : forall (k : nat) (r : list value),
            drop 1 (grid Scenario.threeUsersWorld "Usuarios") !! k = Some r ->
            truthy (index r 0) = true ->
            findRow (drop 1 (grid Scenario.threeUsersWorld "Usuarios")) (index r 0) = Some k).
  { change (drop 1 (grid Scenario.threeUsersWorld "Usuarios"))
      with [Scenario.anaRow; Scenario.luisRow; Scenario.evaRow].
    intros [|[|[|k]]] r; simpl; intros [= <-] _; reflexivity. }
  split; [exact H|].
  destruct (sweep_twice_is_sweep_once Scenario.threeUsersWorld H)
    as (w1 & w2 & E1 & _ & E2 & Hs & Hx).
  exists w1, w2. split; [exact E1|]. split; [exact E2|]. split; [exact Hs|exact Hx].
Defined.

(* ===================================================================== *)
(** ** The onboarding meeting                                             *)
(* ===================================================================== *)



(* ===================================================================== *)
(** ** Deactivation is read back: the later runs                          *)
(* ===================================================================== *)

(** The writes of the loop body for one user: one, for a stale user whose
    name the search finds, into the row found. *)
Lemma swept_writes (w : World) (u : User) :
  exists d : list Effect,
    trace (swept w u) = (trace w ++ d)%list
    /\ forall s r c v, In (SetValue s r c v) d ->
         isStale (host w) (now w) u = true
         /\ exists k : nat,
              findRow (drop 1 (grid w "Usuarios")) (name u) = Some k
              /\ r = Z.of_nat k + 2.
Proof.
  unfold swept. destruct (isStale (host w) (now w) u) eqn:Hst.
  2:{ exists []. rewrite app_nil_r. split; [reflexivity|intros s r c v []]. }
  unfold marked. destruct (findRow (drop 1 (grid w "Usuarios")) (name u)) as [k|] eqn:Hk.
  - unfold audited.
    destruct (sheets (stampCell (Z.of_nat (1 + k) + 1) 5 (VStr "FALSE") w)
                !! "RegistroDeEventos").
    + eexists [_; _; _]. split; [unfold stampCell, emit, setSheets; cbn [trace]; rewrite <- ?app_assoc; reflexivity|].
      intros s r c v [H|[H|[H|[]]]]; try discriminate H.
      injection H as <- <- <- <-. split; [reflexivity|]. exists k. split; [reflexivity|lia].
    + eexists [_; _]. split; [unfold stampCell, emit, setSheets; cbn [trace]; rewrite <- ?app_assoc; reflexivity|].
      intros s r c v [H|[H|[]]]; try discriminate H.
      injection H as <- <- <- <-. split; [reflexivity|]. exists k. split; [reflexivity|lia].
  - unfold audited. destruct (sheets w !! "RegistroDeEventos").
    + eexists [_; _]. split; [unfold stampCell, emit, setSheets; cbn [trace]; rewrite <- ?app_assoc; reflexivity|].
      intros s r c v [H|[H|[]]]; discriminate H.
    + eexists [_]. split; [unfold stampCell, emit, setSheets; cbn [trace]; reflexivity|].
      intros s r c v [H|[]]; discriminate H.
Qed.

(** The writes of the whole loop. *)
Lemma sweptAll_writes (users : list User) (w : World) :
  Forall (fun u => truthy (name u) = true) users ->
  exists d : list Effect,
    trace (sweptAll users w) = (trace w ++ d)%list
    /\ forall s r c v, In (SetValue s r c v) d ->
         exists (u : User) (k : nat),
           In u users /\ isStale (host w) (now w) u = true
           /\ findRow (drop 1 (grid w "Usuarios")) (name u) = Some k
           /\ r = Z.of_nat k + 2.
Proof.
  revert w. induction users as [|u users IH]; intros w Hnamed.
  - exists []. rewrite app_nil_r. split; [reflexivity|intros s r c v []].
  - apply Forall_cons in Hnamed as [Hu Hnamed].
    destruct (swept_writes w u) as (d1 & Ht1 & Hw1).
    destruct (IH (swept w u) Hnamed) as (d2 & Ht2 & Hw2).
    destruct (sameSetting_swept w u) as (Hh & Hn & _ & _).
    exists (d1 ++ d2)%list. unfold sweptAll in *. simpl foldl.
    split; [now rewrite Ht2, Ht1, app_assoc|].
    intros s r c v Hin. apply in_app_or in Hin as [Hin|Hin].
    + destruct (Hw1 s r c v Hin) as (Hst & k & Hk & Hr).
      exists u, k. split; [now left|]. auto.
    + destruct (Hw2 s r c v Hin) as (u' & k & Hu' & Hst & Hk & Hr).
      exists u', k. split; [now right|]. rewrite Hh, Hn in Hst. split; [exact Hst|].
      split; [|exact Hr]. rewrite <- Hk. apply findRow_names. symmetry.
      now apply names_swept.
Qed.

(** The writes of one run of the sweep. *)
Lemma sweptWorld_writes (w : World) (s : string) (r c : Z) (v : value) :
  In (SetValue s r c v) (newEffects w (sweptWorld w)) ->
  exists (u : User) (k : nat),
    In u (registry w) /\ isStale (host w) (now w) u = true
    /\ findRow (drop 1 (grid w "Usuarios")) (name u) = Some k
    /\ r = Z.of_nat k + 2.
Proof.
  unfold sweptWorld. cbv zeta.
  set (w1 := emit (Logged (Logger_inspect (host w) (map userFields (registry w))))
               (emit (Logged "=== Verificación diaria iniciada ===") w)).
  destruct (sweptAll_writes (registry w) w1 (registry_named w)) as (d & Ht & Hd).
  set (batch := offenders (host w) (now w) (registry w)).
  set (w2 := emit (Logged ("Usuarios desactivados: "
                           +:+ Z_toString (Z.of_nat (List.length batch))))
               (sweptAll (registry w) w1)) in *.
  assert (Hrep : exists d3 : list Effect,
            trace (if (0 <? List.length batch)%nat then reported batch w2 else w2)
            = (trace w2 ++ d3)%list
            /\ forall s r c v, ~ In (SetValue s r c v) d3).
  { destruct (0 <? List.length batch)%nat.
    - unfold reported.
      destruct (htmlNotified_effects (digestSubject (host w2) (now w2))
                  (digestHtml (host w2) (now w2) batch) w2) as (d3 & Ht3 & _ & _ & Hw3).
      now exists d3.
    - exists []. rewrite app_nil_r. split; [reflexivity|intros ? ? ? ? []]. }
  destruct Hrep as (d3 & Ht3 & Hd3).
  intros Hin.
  rewrite (newEffects_app w _
             ([Logged "=== Verificación diaria iniciada ===";
               Logged (Logger_inspect (host w) (map userFields (registry w)))]
              ++ d
              ++ [Logged ("Usuarios desactivados: "
                          +:+ Z_toString (Z.of_nat (List.length batch)))]
              ++ d3 ++ [Logged "=== Verificación completada ==="])) in Hin.
  2:{ rewrite trace_emit, Ht3. unfold w2. rewrite trace_emit, Ht. unfold w1.
      rewrite !trace_emit, <- !app_assoc. reflexivity. }
  apply in_app_or in Hin as [[H|[H|[]]]|Hin]; try discriminate H.
  apply in_app_or in Hin as [Hin|Hin]; [now apply Hd in Hin|].
  apply in_app_or in Hin as [[H|[]]|Hin]; try discriminate H.
  apply in_app_or in Hin as [Hin|[H|[]]]; [now apply Hd3 in Hin|discriminate H].
Qed.

(** A run at any time leaves the names of the sheet of users alone, and so
    do any number of runs. *)
Lemma names_sweepAt (t : Z) (w : World) :
  namesOf (drop 1 (grid (sweepAt t w) "Usuarios")) = namesOf (drop 1 (grid w "Usuarios")).
Proof. rewrite sweepAt_eq. apply (names_sweptWorld (setNow t w)). Qed.

Lemma names_sweeps (ts : list Z) (w : World) :
  namesOf (drop 1 (grid (sweeps ts w) "Usuarios")) = namesOf (drop 1 (grid w "Usuarios")).
Proof.
  revert w. induction ts as [|t ts IH]; intros w; [reflexivity|].
  unfold sweeps in *; simpl foldl. rewrite IH. apply names_sweepAt.
Qed.

(** An appended row among the effects is among their appended rows. *)
Lemma In_appendedRows (d : list Effect) (s : string) (row : Row) :
  In (AppendRow s row) d -> In (s, row) (appendedRows d).
Proof.
  intros H. apply list_elem_of_In. unfold appendedRows. apply list_elem_of_omap.
  exists (AppendRow s row). split; [now apply list_elem_of_In|reflexivity].
Qed.

(** The reader of the registry: a record is active exactly when the Active
    cell of its row is the boolean [true] or the string ['TRUE']. *)
Lemma active_trueLike (row : Row) :
  active (userOfRow row) = VBool true <-> trueLike (index row 4).
Proof.
  split; [|apply trueLike_active].
  unfold userOfRow; simpl. intros [= H]. apply Bool.orb_true_iff in H as [H|H];
    apply strictEq_eq in H; [now left|now right].
Qed.

(** In a world in which the row at position [k] below the header holds
    ['FALSE'] in its Active cell and no other row has its name, no stale
    user of the registry has that name, at whatever time. *)
Lemma stale_elsewhere (w : World) (h : Host) (t : Z) (k : nat) (rowData : Row) (u : User) :
  drop 1 (grid w "Usuarios") !! k = Some rowData ->
  index rowData 4 = VStr "FALSE" ->
  (forall (k' : nat) (row' : Row),
     drop 1 (grid w "Usuarios") !! k' = Some row' -> index row' 0 = index rowData 0 ->
     k' = k) ->
  In u (registry w) -> isStale h t u = true ->
  name u <> index rowData 0.
Proof.
  intros Hrow Hfalse Hsole Hin Hst Hname.
  destruct (registry_row w u Hin) as (k' & row' & Hrow' & _ & ->).
  assert (k' = k) as -> by (now apply (Hsole k' row')).
  rewrite Hrow in Hrow'. injection Hrow' as <-.
  destruct (inactive_skipped rowData Hfalse) as [Ha _].
  unfold isStale in Hst. now rewrite Ha in Hst.
Qed.

(** C10.  Every cell write of a run of the sweep puts the string ['FALSE']
    into column 5 of the sheet of users, and the registry reader takes a
    row for active exactly when its Active cell is the boolean [true] or
    the string ['TRUE'].  A run at time [t] wrote row [r], and no other row
    of the sheet has the name of row [r].  Then after that run and after
    any number of further runs, at any later times and with no edit in
    between, the Active cell of row [r] still holds ['FALSE'], the registry
    reader returns the record of that row, with [active = false], and the
    body of the sweep leaves the world as it is for that record.  One more
    run, at any time [t'], writes no cell of row [r], appends no audit row
    whose user is the name of row [r], and sends no mail but the digest of
    the users stale at [t'], none of whom has the name of row [r]. *)
Theorem deactivation_round_trip (w : World) (t : Z) (ts : list Z) (r : Z) :
  In (SetValue "Usuarios" r 5 (VStr "FALSE")) (newEffects (setNow t w) (sweepAt t w)) ->
  soleName w r ->
  (forall s r' c v, In (SetValue s r' c v) (newEffects (setNow t w) (sweepAt t w)) ->
     s = "Usuarios" /\ c = 5 /\ v = VStr "FALSE")
  /\ (forall row : Row, active (userOfRow row) = VBool true <-> trueLike (index row 4))
  /\ exists rowData : list value,
       grid (sweeps ts (sweepAt t w)) "Usuarios" !! Z.to_nat (r - 1) = Some rowData
       /\ index rowData 4 = VStr "FALSE"
       /\ In (userOfRow rowData) (registry (sweeps ts (sweepAt t w)))
       /\ active (userOfRow rowData) = VBool false
       /\ (forall (acc : list Offender) (w' : World),
             sweepUser acc (userOfRow rowData) w' = (Ok acc, w'))
       /\ forall t' : Z,
            let w1 := setNow t' (sweeps ts (sweepAt t w)) in
            let d := newEffects w1 (sweepAt t' (sweeps ts (sweepAt t w))) in
            let batch := offenders (host w1) t' (registry w1) in
            (forall s c v, ~ In (SetValue s r c v) d)
            /\ (forall s row, In (AppendRow s row) d -> index row 2 <> index rowData 0)
            /\ mailsOf d
               = (if (0 <? List.length batch)%nat
                     && htmlGoes w1 (digestSubject (host w1) t')
                          (digestHtml (host w1) t' batch)
                  then [htmlMail w1 (digestSubject (host w1) t')
                          (digestHtml (host w1) t' batch)]
                  else [])
            /\ Forall (fun o => o_name o <> index rowData 0) batch.
Proof.
  intros Hin Hsole.
  pose proof (names_sweeps ts (sweepAt t w)) as Hnames.
  rewrite names_sweepAt in Hnames.
  rewrite sweepAt_eq in Hin.
  destruct (sweptWorld_effects (setNow t w)) as (d0 & Ht0 & _ & _ & Hw0).
  destruct (sweptWorld_writes (setNow t w) _ _ _ _ Hin) as (u & k & Hu & _ & Hk & Hr).
  change (grid (setNow t w) "Usuarios") with (grid w "Usuarios") in Hk.
  destruct (findRow_Some _ _ _ Hk) as (row0 & Hrow0 & Heq & _).
  apply strictEq_eq in Heq.
  assert (Hnamed : truthy (index row0 0) = true).
  { rewrite Heq. pose proof (registry_named (setNow t w)) as HF.
    rewrite Forall_forall in HF. apply HF. now apply list_elem_of_In. }
  assert (Hpos : Z.to_nat (r - 1) = S k) by lia.
  split.
  { intros s r' c v Hin'. rewrite sweepAt_eq, (newEffects_app _ _ _ Ht0) in Hin'.
    destruct (Hw0 s r' c v Hin') as (-> & -> & -> & _). auto. }
  split; [exact active_trueLike|].
  rewrite (newEffects_app _ _ _ Ht0) in Hin.
  destruct (Hw0 _ _ _ _ Hin) as (_ & _ & _ & Hcell).
  rewrite <- sweepAt_eq in Hcell.
  apply (sweeps_keeps ts) in Hcell.
  destruct (falseCell_row _ _ Hcell) as (rowData & Hrow & Hfalse).
  set (w2 := sweeps ts (sweepAt t w)) in *.
  assert (Hrow' : drop 1 (grid w2 "Usuarios") !! k = Some rowData).
  { rewrite lookup_drop. rewrite Hpos in Hrow. exact Hrow. }
  assert (Hname : index rowData 0 = index row0 0).
  { destruct (names_lookup _ _ k rowData (eq_sym Hnames) Hrow') as (row & Hl & Hi).
    rewrite Hrow0 in Hl. injection Hl as <-. now symmetry. }
  assert (Hsole2 : forall (k' : nat) (row' : Row),
            drop 1 (grid w2 "Usuarios") !! k' = Some row' ->
            index row' 0 = index rowData 0 -> k' = k).
  { intros k' row' Hl Hi.
    destruct (names_lookup _ _ k' row' (eq_sym Hnames) Hl) as (row & Hl0 & Hi0).
    assert (Z.of_nat k' + 2 = r); [|lia].
    apply (Hsole k' row0 row); [|exact Hl0|congruence].
    rewrite Hpos. rewrite lookup_drop in Hrow0. exact Hrow0. }
  destruct (inactive_skipped rowData Hfalse) as [Hact Hskip].
  exists rowData. split; [exact Hrow|]. split; [exact Hfalse|].
  split; [apply (In_registry w2 k); [exact Hrow'|now rewrite Hname]|].
  split; [exact Hact|]. split; [exact Hskip|].
  intros t' w1 d batch.
  assert (Hstale : forall u', In u' (registry w1) -> isStale (host w1) t' u' = true ->
            name u' <> index rowData 0).
  { intros u'. now apply (stale_elsewhere w2 (host w1) t' k rowData u'). }
  unfold d. rewrite sweepAt_eq. fold w1.
  destruct (sweptWorld_effects w1) as (d1 & Ht1 & Hm1 & Ha1 & _).
  split; [|split; [|split]].
  - intros s c v Hin1.
    destruct (sweptWorld_writes w1 _ _ _ _ Hin1) as (u' & k' & Hu' & Hst' & Hk' & Hr').
    assert (k' = k) as -> by lia.
    destruct (findRow_Some _ _ _ Hk') as (row' & Hl & Heq' & _).
    change (grid w1 "Usuarios") with (grid w2 "Usuarios") in Hl.
    rewrite Hrow' in Hl. injection Hl as <-.
    apply strictEq_eq in Heq'. now apply (Hstale u' Hu' Hst').
  - intros s row Hin1. rewrite (newEffects_app _ _ _ Ht1) in Hin1.
    apply In_appendedRows in Hin1. rewrite Ha1 in Hin1.
    destruct (bool_decide _); [|destruct Hin1].
    apply in_map_iff in Hin1 as (row1 & [= <- <-] & Hin1).
    unfold sweepRows in Hin1. apply in_map_iff in Hin1 as (u' & <- & Hin1).
    apply filter_In in Hin1 as [Hu' Hst'].
    assert (Hn' : truthy (name u') = true).
    { pose proof (registry_named w1) as HF. rewrite Forall_forall in HF.
      apply HF. now apply list_elem_of_In. }
    unfold auditRow, sweepEvent, jsOr. simpl. rewrite Hn'.
    now apply Hstale.
  - rewrite (newEffects_app _ _ _ Ht1). exact Hm1.
  - apply Forall_forall. intros o Ho. apply list_elem_of_In in Ho.
    unfold batch, offenders in Ho. apply in_map_iff in Ho as (u' & <- & Ho).
    apply filter_In in Ho as [Hu' Hst']. simpl. now apply Hstale.
Qed.

(** C10, where the code departs from the claim: another row has the name
    of the row that was written.  Ana was seen yesterday, her namesake of the next row
    30 days ago, both active.  The run deactivates the first Ana, in row 2,
    for the sake of the second, who stays active.  The run of the next day
    writes the Active cell of row 2 again, audits Ana again and sends a
    digest that lists her again. *)
Lemma deactivation_repeats_for_namesake :
  let w1 := sweepAt Scenario.t0 Duplicates.namesakesWorld in
  let t1 := Scenario.t0 + Scenario.day in
  let d := newEffects (setNow t1 w1) (sweepAt t1 w1) in
  In (SetValue "Usuarios" 2 5 (VStr "FALSE"))
     (newEffects (setNow Scenario.t0 Duplicates.namesakesWorld) w1)
  /\ map (fun row => index row 4) (grid w1 "Usuarios")
     = [VStr "Activo"; VStr "FALSE"; VBool true]
  /\ map active (registry w1) = [VBool false; VBool true]
  /\ visible d
     = [ SetValue "Usuarios" 2 5 (VStr "FALSE");
         AppendRow "RegistroDeEventos"
           [VDate (Int t1); VStr "USUARIO_INACTIVO"; VStr "Ana";
            VStr "31 días sin actividad"; VStr "ALERTA";
            VStr "Desactivado automáticamente"];
         Sent (mkMail (VStr "admin@empresa.com")
                 ("Reporte Diario - " +:+ toLocaleDateString Scenario.host0 t1) ""
                 (Some (digestHtml Scenario.host0 t1
                          [mkOffender (VStr "Ana") (VStr "RH") (Int 31)]))) ].
Proof.
  cbv zeta. split; [vm_compute; tauto|]. repeat split; vm_compute; reflexivity.
Qed.

(** Two further runs, one and two days later, after the run that
    deactivated Luis in row 3, and a run a week after that. *)
Lemma deactivation_round_trip_witness :
  In (SetValue "Usuarios" 3 5 (VStr "FALSE"))
     (newEffects (setNow Scenario.t0 Scenario.threeUsersWorld)
        (sweepAt Scenario.t0 Scenario.threeUsersWorld))
  /\ soleName Scenario.threeUsersWorld 3
  /\ exists rowData : list value,
       grid (sweeps Scenario.laterRuns (sweepAt Scenario.t0 Scenario.threeUsersWorld))
         "Usuarios" !! 2%nat = Some rowData
       /\ active (userOfRow rowData) = VBool false
       /\ forall s c v,
            ~ In (SetValue s 3 c v)
                (newEffects
                   (setNow (Scenario.t0 + 9 * Scenario.day)
                      (sweeps Scenario.laterRuns
                         (sweepAt Scenario.t0 Scenario.threeUsersWorld)))
                   (sweepAt (Scenario.t0 + 9 * Scenario.day)
                      (sweeps Scenario.laterRuns
                         (sweepAt Scenario.t0 Scenario.threeUsersWorld)))).
Proof.
  assert (Hin : In (SetValue "Usuarios" 3 5 (VStr "FALSE"))
                   (newEffects (setNow Scenario.t0 Scenario.threeUsersWorld)
                      (sweepAt Scenario.t0 Scenario.threeUsersWorld))).
  { vm_compute. right. right. left. reflexivity. }
  assert (Hsole : soleName Scenario.threeUsersWorld 3).
  { intros k row row'.
    replace (grid Scenario.threeUsersWorld "Usuarios")
      with [Scenario.usersHeader; Scenario.anaRow; Scenario.luisRow; Scenario.evaRow]
      by reflexivity.
    intros [= <-] Hrow' Hname.
    destruct k as [|[|[|k]]]; simpl in Hrow'; try discriminate Hrow';
      injection Hrow' as <-; first [discriminate Hname | reflexivity]. }
  split; [exact Hin|]. split; [exact Hsole|].
  destruct (deactivation_round_trip Scenario.threeUsersWorld Scenario.t0
              Scenario.laterRuns 3 Hin Hsole)
    as (_ & _ & rowData & Hrow & _ & _ & Hact & _ & Hlater).
  exists rowData. split; [exact Hrow|]. split; [exact Hact|].
  exact (proj1 (Hlater (Scenario.t0 + 9 * Scenario.day))).
Defined.
